(* ===== verification/_CoqProject ===== *)
-Q . S2P
Prelude.v
JsValue.v
JobModel.v
Store.v
Upload.v
Auth.v
JobController.v
Spec.v
Server.v
Commute.v
Resumes.v
Notify.v
Refinement.v
App.v
Express.v
Accounts.v
Boot.v
