(* ===== verification/Prelude.v ===== *)
(** * A verification development of the job-application-tracker backend

    The repository is a small Express/Mongoose server.  A request to
    [/api/jobs] runs the [auth] middleware, then (for [POST /] and
    [PUT /:id]) multer's [upload.single('resume')], then one of the seven
    handlers of [jobController.js], which read and write the Job and User
    collections, the upload directory and the mail transport.  Requests to
    [/api/auth] run [authController.js]; [/uploads] is served by
    [express.static]; in production a catch-all sends the front end.  One
    file per part, in dependency order:

    - [Prelude.v] (this file): the program monad [prog] (a reader for the
      request environment, explicit state, exceptions for what an [await]
      can throw; a throw keeps the state reached so far), its run lemmas
      (rewrite database [prog_run]), [preserves], the tactics [run_prog]
      and [prove_preserves], the hint database [tracker] and list lemmas.
    - [JsValue.v]: the JavaScript values the code manipulates: JSON values,
      truthiness, [===] on strings or [undefined], template-literal
      conversion ([undefined] prints as "undefined"),
      [s.replace(/\\/g, "/")], busboy's file-name [basename], Node's POSIX
      [path.extname] (its backward scan, as [ext_loop]), and the ObjectId
      cast [oid_cast] (24 hex digits, the rule of bson 5 and later; the
      sources pin no version, and bson 4 also cast any 12-character
      string).  Tokens of [jsonwebtoken] are symbolic.
    - [JobModel.v]: [models/Job.js].  [job] is a stored document;
      [job_create] is [new Job({...}).save()] (required strings, the status
      enum and default, the Date and ObjectId casts, the defaults of
      [appliedDate] and [lastUpdated]); [job_update] is
      [findByIdAndUpdate] (casts, no validators, keys whose value is
      [undefined] dropped, as Mongoose 6 and later do).  Date parsing is a
      class [DateParser]; [iso_date_parse] is the [YYYY-MM-DD] instance.
    - [Store.v]: the server state [world] (the Job and User collections as
      [gmap]s keyed by ObjectId, the upload directory as a [gmap] from the
      relative path multer reports to the contents, the mail outbox), the
      request environment [env] (clock, the next ObjectId, whether the
      mail transport accepts, the sender address, the signing key), the
      response bodies, the Mongoose queries, [fs] calls and [sendMail] the
      handlers make, and [bcrypt_compare] (a symbolic hash that, as bcrypt
      does, reads only the first 72 bytes of the password).
    - [Upload.v]: [middleware/upload.js]: [upload_single] checks the field
      name, the [fileFilter] and the 5 MiB limit in multer's order, then
      stores the part under [uploads/<Date.now()>-<basename>].
    - [Auth.v]: [middleware/auth.js] ([auth]) and [authController.js]
      ([register], [login], [getMe]); the User model and the auth routes
      are not in the sources and are modelled from the spec ([user_save]
      rejects a taken [_id] or e-mail address).
    - [JobController.v]: the seven handlers, one definition each, written
      in the monad with every query, file operation and mail of the source
      in its order, each with a run lemma giving its result on every
      branch; [jobs_effect] classifies what a handler does to the Job
      collection.  [deleteJob] starts the unawaited [fs.unlink] where the
      code does; [deleteJob_unlink_order] proves that the unlink landing
      after [findByIdAndDelete] ([deleteJob_unlink_after]) gives the
      request the same result, so the order cannot matter to one request.
    - [Spec.v]: the Job Service of the specification (spec.md, 3 and
      4.5) written independently of the code: an abstract record store,
      its operations and error results, and the step relation [svc_step]
      of what the specification allows.
    - [Server.v]: [routes/jobRoutes.js] and the mounting in [server.js]:
      [route_of] is the route table with Express's default matching
      (literal segments compared case-insensitively by [lit_eq], one
      trailing slash dropped by [strip_slash], a parameter one non-empty
      segment), [route_pattern] the declared patterns, [serve_jobs] the
      middleware chain, [serve] the whole API, [step] one request served
      with a fixed key and [reachable] the states steps reach.
    - [Commute.v]: each job handler's effect on the Job collection as one
      [partial_alter] at one key ([job_edit], [serve_edit]), the edits made
      on behalf of a caller ([edit_by]), and where the stored resume paths
      point ([resumes_in_uploads]).
    - [Resumes.v]: an uploaded resume through the API: [POST] with a file,
      then the download or the deletion of the new record.
    - [Notify.v]: what one request does to the mail outbox
      ([mail_effect]): nothing, or one mail to its caller's stored address.
    - [Refinement.v]: the abstraction of responses and routed requests
      into [Spec.svc_step], one refinement lemma per handler (a Section
      whose Hypotheses are the caller and the invariant), and the
      refinement theorem.
    - [App.v]: [server.js]'s middleware composed by hand: the [/uploads]
      static route ([uploads_mount]), the two routers ([auth_api],
      [jobs_api], mounted case-insensitively), the production catch-all
      and the final 404.
    - [Express.v]: the same middleware as Express runs it: one [layer] per
      [app.use] / [app.get] line of [server.js] (with [cors()] and
      [express.json()] and its parse error), the router's [next()] loop
      over the [stack] with fuel, Express's final handler, and [handle],
      the request handler of the application; [app_step] and
      [app_reachable] are the running application's transitions and
      reachable states, and [handle_state] reduces them to [serve].
    - [Accounts.v]: the User collection under the running application:
      only [register] writes it, inserting under a free id an address no
      account has.
    - [Boot.v]: what runs before any request: Node's [path.join] on
      segment lists, the module-load [mkdirSync] of [upload.js]
      ([upload_init]) with [upload.js] in [backend/middleware], where
      [routes/jobRoutes.js] requires it from, the directory multer writes
      into ([multer_dir], relative to the working directory) and the one
      [server.js] serves ([static_dir]), and the bootstrap of [server.js]
      ([dotenv_config], the [NODE_ENV] test, [port_of], [boot]).

    Theorems, by claim.  Handlers: C1 [getJobs] lists exactly the caller's
    records, newest first; C2, C3 the status-gated [interviewDate] on
    create and update, [appliedDate] and [lastUpdated]; C4 a non-owner
    gets 401 from update, delete and download and changes nothing; C6
    delete removes the file and the record; C7 the stats counts (with
    [total] the record count, which differs from the sum of the counts
    once an out-of-enum status is stored); C33 the status-change mail is
    sent exactly when [req.body.status !== oldStatus]; C35 created records
    have the schema's types; C25 the download name keeps the stored
    extension; C32 a replaced resume is left in the upload directory.
    Upload: C5 rejection before any write, C13 storage at the 5 MiB limit
    included.  Auth: C14 the token of [register] authenticates the new
    user for exactly one hour, C15 [auth] passes only unexpired tokens
    signed under the key, C16 the legacy [{userId}] payload, C17 login
    after register succeeds exactly when the password agrees with the
    registered one on its first 72 bytes, C18 duplicate registration.
    Server: C19 isolation between users, C20 owners and [appliedDate]
    never change, C27 [route_of] matches exactly the declared patterns
    under Express's matching rules (a round trip with [route_pattern]).
    Resumes: C21 in every state the whole application reaches (by
    induction on [app_reachable]) every stored resume is [uploads/]
    followed by one path segment, so [downloadResume] and [deleteJob]
    never reach outside the upload directory; C22 a file uploaded with
    [POST] is the file [GET /resume/:id] sends; C23 deleting a record just
    created with a file restores the collection and removes exactly that
    file.  Accounts: C28 no two accounts of a reachable state share an
    address, C38 no request changes or removes an existing account.
    Specification: C29 the handlers refine the Job Service of the spec on
    well-formed requests.  Application: C31 every job route is behind
    [auth], C30 the static route makes every uploaded resume public, C34
    every request is answered with a code of the interface table.
    Termination: C37 [next()] with one step per layer and one for the
    final handler answers every request.  Ordering: C36 job requests of
    two different users commute on the Job collection, so the server needs
    no coordination between users as the spec says.  Mail: C40 a request
    mails at most once and only its own caller.  Where the code and the
    spec differ the theorem states what the code does: C8 a rejected mail
    makes [addJob] answer 500 after saving, C9 update stores unvalidated
    values and keeps omitted fields, C10 any status filter is accepted,
    C11 a malformed id answers 500, C12 validation failures answer 500,
    C24 same-millisecond uploads of the same name overwrite another
    user's file, C30 public uploads, C32 orphaned files, C33 an update
    omitting [status] mails "from <old> to undefined", C39 a malformed
    JSON body gets Express's 400 error page (no JSON envelope, the stack
    trace outside production), C26 uploads reach the directory
    [upload.js] creates and [server.js] serves only when the server runs
    with [backend/] as its working directory.

    Bounds and fuel.  Every definition is structurally recursive except
    Express's [next()], whose closure walks the layer array by index: its
    model [Express.next] takes fuel, and [handle] gives it the number of
    layers plus one (for the final handler), which C37 shows is enough.
    Numbers are [Z]: the values the code computes ([Date.now()] in
    milliseconds, seconds for tokens, file sizes up to 5 MiB, counts) are
    far below 2^53, so JavaScript's doubles compute them exactly.

    Not modelled: Express's HTML error page beyond its status and text
    (multer errors are answered 500 with the message, a malformed JSON
    body 400 with the parser's stack), response headers (so [cors()] only
    passes requests on), password hashing and token signing (symbolic),
    MongoDB failures other than validation, cast and duplicate-key
    errors, the streaming of [res.download], console logging,
    concurrency between requests (requests are sequential steps; C36
    shows the order of two users' requests does not matter to the Job
    collection, and the unawaited unlink of [deleteJob] is observable
    only to a concurrent request), [connectDB] ([config/db] is not in
    the sources) and the socket I/O of [listen], the front end's build
    files other than [index.html], and the SMTP configuration of the
    transporter.  Request bodies: a field of [req.body] is absent or a
    string; a JSON [null], number, boolean, array or object there, which
    Mongoose casts or rejects by rules that depend on its version, is
    outside the model.  Files are named by the relative path multer
    reports ([uploads/<name>]); that is the file [server.js] serves and
    the controllers open ([path.join(__dirname, '..', resume)]) when the
    working directory is [backend/], which C26 shows is the one layout
    in which uploads work, and the requests are served in that layout
    from a state where the directory exists. *)

From stdpp Require Export base list gmap strings sorting.
From Stdlib Require Export ZArith Ascii.
From Stdlib Require String.

Open Scope string_scope.

Create HintDb tracker discriminated.
Create Rewrite HintDb prog_run.

(** ** The program monad

    A handler is a [prog R W E A]: it reads an environment [R], threads a
    state [W] and either returns an [A] or throws an [E].  A throw keeps
    the state reached so far, as an [await] that rejects after earlier
    writes did. *)

Inductive outcome (E A : Type) : Type :=
  | Ok (a : A)
  | Throw (e : E).
Arguments Ok {E A} a.
Arguments Throw {E A} e.

Definition prog (R W E A : Type) : Type := R -> W -> W * outcome E A.

Section Prog.
Context {R W E : Type}.

#[export] Instance prog_ret : MRet (prog R W E) :=
  fun A a _ w => (w, Ok a).

#[export] Instance prog_bind : MBind (prog R W E) :=
  fun A B k m r w =>
    match m r w with
    | (w', Ok a) => k a r w'
    | (w', Throw e) => (w', Throw e)
    end.

Definition throw {A} (e : E) : prog R W E A := fun _ w => (w, Throw e).

(** [try { m } catch (e) { h e }] *)
Definition catch {A} (m : prog R W E A) (h : E -> prog R W E A) : prog R W E A :=
  fun r w =>
    match m r w with
    | (w', Throw e) => h e r w'
    | res => res
    end.

Definition ask : prog R W E R := fun r w => (w, Ok r).
Definition get : prog R W E W := fun _ w => (w, Ok w).
Definition modify (f : W -> W) : prog R W E unit := fun _ w => (f w, Ok tt).

(** Lifting a fallible pure computation. *)
Definition lift_sum {A} (x : E + A) : prog R W E A :=
  match x with inl e => throw e | inr a => mret a end.

Lemma run_ret {A} (a : A) r w : (mret a : prog R W E A) r w = (w, Ok a).
Proof. reflexivity. Qed.

Lemma run_bind {A B} (m : prog R W E A) (k : A -> prog R W E B) r w :
  (m ≫= k) r w =
    match m r w with
    | (w', Ok a) => k a r w'
    | (w', Throw e) => (w', Throw e)
    end.
Proof. reflexivity. Qed.

Lemma bind_ret_l {A B} (a : A) (k : A -> prog R W E B) r w :
  (mret a ≫= k) r w = k a r w.
Proof. reflexivity. Qed.

Lemma bind_assoc {A B C} (m : prog R W E A) (k : A -> prog R W E B)
      (k' : B -> prog R W E C) r w :
  ((m ≫= k) ≫= k') r w = (m ≫= (fun a => k a ≫= k')) r w.
Proof. unfold mbind, prog_bind. destruct (m r w) as [w' [a|e]]; reflexivity. Qed.

Lemma run_throw {A} (e : E) r w : (throw e : prog R W E A) r w = (w, Throw e).
Proof. reflexivity. Qed.

Lemma run_catch_ok {A} (m : prog R W E A) h r w w' a :
  m r w = (w', Ok a) -> catch m h r w = (w', Ok a).
Proof. unfold catch. intros ->. reflexivity. Qed.

Lemma run_catch_throw {A} (m : prog R W E A) h r w w' e :
  m r w = (w', Throw e) -> catch m h r w = h e r w'.
Proof. unfold catch. intros ->. reflexivity. Qed.

(** A state predicate preserved by every step of a program. *)
Definition preserves {A} (P : W -> Prop) (m : prog R W E A) : Prop :=
  forall r w, P w -> P (fst (m r w)).

Lemma preserves_ret {A} P (a : A) : preserves P (mret a : prog R W E A).
Proof. intros r w H. exact H. Qed.

Lemma preserves_throw {A} P (e : E) : preserves P (throw e : prog R W E A).
Proof. intros r w H. exact H. Qed.

Lemma preserves_bind {A B} P (m : prog R W E A) (k : A -> prog R W E B) :
  preserves P m -> (forall a, preserves P (k a)) -> preserves P (m ≫= k).
Proof.
  intros Hm Hk r w Hw. unfold mbind, prog_bind. specialize (Hm r w Hw).
  destruct (m r w) as [w' [a|e]]; [apply (Hk a r w')|]; exact Hm.
Qed.

Lemma preserves_catch {A} P (m : prog R W E A) h :
  preserves P m -> (forall e, preserves P (h e)) -> preserves P (catch m h).
Proof.
  intros Hm Hh r w Hw. unfold catch. specialize (Hm r w Hw).
  destruct (m r w) as [w' [a|e]]; [exact Hm|apply Hh; exact Hm].
Qed.

Lemma preserves_ask P : preserves P ask.
Proof. intros r w H. exact H. Qed.

Lemma preserves_get P : preserves P get.
Proof. intros r w H. exact H. Qed.

Lemma preserves_modify P f : (forall w, P w -> P (f w)) -> preserves P (modify f).
Proof. intros Hf r w H. apply Hf, H. Qed.

Lemma preserves_lift_sum {A} P (x : E + A) : preserves P (lift_sum x).
Proof. destruct x; intros r w H; exact H. Qed.
End Prog.

#[export] Hint Rewrite @run_throw @bind_ret_l : prog_run.

#[export] Hint Resolve preserves_ret preserves_throw preserves_bind preserves_catch
  preserves_ask preserves_get preserves_lift_sum : tracker.

(** [preserves] goals over a handler are closed by descending its binds
    and case splits; what is left are the [modify] steps. *)
Ltac prove_preserves :=
  repeat match goal with
  | |- preserves _ (_ ≫= _) => apply preserves_bind; [|intros ?]
  | |- preserves _ (catch _ _) => apply preserves_catch; [|intros ?]
  | |- preserves _ (match ?x with _ => _ end) => destruct x
  | |- preserves _ (if ?b then _ else _) => destruct b
  | |- preserves _ (modify _) => apply preserves_modify; intros ?
  | |- _ => progress eauto with tracker
  end.

(** Symbolic execution of a handler: unfold the monad and rewrite every
    library call with its run lemma (database [prog_run]). *)
Ltac run_prog :=
  unfold catch, mbind, prog_bind, mret, prog_ret, ask, get, modify;
  autorewrite with prog_run.

(** ** Lists *)

Lemma filter_length_split {A} (p : A -> bool) (l : list A) :
  length (List.filter p l) + length (List.filter (fun x => negb (p x)) l) = length l.
Proof. induction l as [|x l IH]; simpl; [done|]. destruct (p x); simpl; lia. Qed.

Lemma filter_ext_in {A} (p q : A -> bool) (l : list A) :
  (forall x, In x l -> p x = q x) -> List.filter p l = List.filter q l.
Proof.
  induction l as [|x l IH]; intros H; simpl; [done|].
  rewrite (H x (or_introl eq_refl)), IH; [done|]. intros y Hy. apply H. by right.
Qed.

Lemma filter_nil_forall {A} (p : A -> bool) (l : list A) :
  (forall x, In x l -> p x = false) -> List.filter p l = [].
Proof.
  induction l as [|x l IH]; intros H; simpl; [done|].
  rewrite (H x (or_introl eq_refl)). apply IH. intros y Hy. apply H. by right.
Qed.

#[export] Hint Resolve filter_ext_in filter_nil_forall : tracker.

Lemma Forall_filter_true {A} (p : A -> bool) (P : A -> Prop) (l : list A) :
  (forall x, p x = true -> P x) -> Forall P (List.filter p l).
Proof.
  intros H. induction l as [|x l IH]; simpl; [constructor|].
  destruct (p x) eqn:E; [constructor; auto|exact IH].
Qed.

Lemma filter_andb {A} (f g : A -> bool) (l : list A) :
  List.filter (fun x => f x && g x) l = List.filter g (List.filter f l).
Proof.
  induction l as [|x l IH]; simpl; [done|].
  destruct (f x) eqn:Ef, (g x) eqn:Eg; simpl; rewrite ?Eg, ?IH; reflexivity.
Qed.
