(* ===== verification/JsValue.v ===== *)

(** JavaScript values and the library functions the handlers call on them:
    JSON values with truthiness ([if (x)], [x && y]) and property access,
    template-literal conversion of optional strings, the backslash
    [replace] of [addJob], busboy's file-name sanitising (used by multer),
    Node's [path.extname] (POSIX), and the bson ObjectId cast that Mongoose
    applies to ids in queries and documents. *)

From S2P Require Import Prelude.

#[local] Set Warnings "-register-all".

(** ** JSON values *)

Inductive jval : Type :=
  | JNull
  | JBool (b : bool)
  | JNum (n : Z)
  | JStr (s : string)
  | JArr (l : list jval)
  | JObj (fields : list (string * jval)).

Fixpoint assoc {A} (k : string) (fs : list (string * A)) : option A :=
  match fs with
  | [] => None
  | (k', v) :: fs' => if String.eqb k k' then Some v else assoc k fs'
  end.

(** [v.k]: [None] is [undefined]. *)
Definition jget (v : jval) (k : string) : option jval :=
  match v with
  | JObj fs => assoc k fs
  | _ => None
  end.

(** JavaScript truthiness of a possibly-undefined value.  Numbers are
    integers here, so [NaN] does not occur. *)
Definition truthy (v : option jval) : bool :=
  match v with
  | None | Some JNull => false
  | Some (JBool b) => b
  | Some (JNum n) => negb (Z.eqb n 0)
  | Some (JStr s) => negb (String.eqb s "")
  | Some (JArr _) | Some (JObj _) => true
  end.

(** Truthiness of a field that is a string or [undefined]/[null]. *)
Definition str_truthy (o : option string) : bool :=
  match o with
  | Some s => negb (String.eqb s "")
  | None => false
  end.

(** [`${x}`] for a string or [undefined]. *)
Definition tpl (o : option string) : string :=
  match o with
  | Some s => s
  | None => "undefined"
  end.

(** [a === b] for two strings-or-undefined. *)
Definition ostr_eqb (a b : option string) : bool := bool_decide (a = b).

(** [s === v] for a string [s] and an arbitrary value [v]. *)
Definition jstr_eqb (s : string) (v : option jval) : bool :=
  match v with
  | Some (JStr t) => String.eqb s t
  | _ => false
  end.

(** ** JSON web tokens, symbolically

    [jwt.sign(payload, secret, { expiresIn })] produces [JwtSigned] with
    the issue time and expiry in seconds; any other header value is
    [JwtRaw].  The string form of a token is never empty. *)

Inductive jwt : Type :=
  | JwtSigned (payload : jval) (secret : string) (iat exp : Z)
  | JwtRaw (s : string).

(** ** Characters *)

Definition ascii_in (lo hi c : ascii) : bool :=
  (nat_of_ascii lo <=? nat_of_ascii c)%nat && (nat_of_ascii c <=? nat_of_ascii hi)%nat.

Definition is_slash (c : ascii) : bool := Ascii.eqb c "/".
Definition is_backslash (c : ascii) : bool := Ascii.eqb c "\".
Definition is_dot (c : ascii) : bool := Ascii.eqb c ".".

Fixpoint str_map (f : ascii -> ascii) (s : string) : string :=
  match s with
  | EmptyString => EmptyString
  | String c s' => String (f c) (str_map f s')
  end.

Fixpoint str_forallb (p : ascii -> bool) (s : string) : bool :=
  match s with
  | EmptyString => true
  | String c s' => p c && str_forallb p s'
  end.

Definition str_existsb (p : ascii -> bool) (s : string) : bool :=
  negb (str_forallb (fun c => negb (p c)) s).

(** ** [s.replace(/\\/g, "/")] *)

Definition replace_backslashes (s : string) : string :=
  str_map (fun c => if is_backslash c then "/"%char else c) s.

(** ** busboy's [basename]: the part after the last [/] or [\], with [.]
    and [..] mapped to the empty name.  multer reports this as
    [file.originalname]. *)

Definition is_sep (c : ascii) : bool := is_slash c || is_backslash c.

Fixpoint last_segment (s : string) : string :=
  match s with
  | EmptyString => EmptyString
  | String c s' =>
      if str_existsb is_sep s' then last_segment s'
      else if is_sep c then s' else s
  end.

Definition busboy_basename (s : string) : string :=
  let b := last_segment s in
  if String.eqb b ".." || String.eqb b "." then "" else b.

(** ** Node's [path.extname] (POSIX)

    The loop of [lib/path.js] scans the path from its last character to
    its first with five mutable variables; [ext_loop] is that loop on the
    characters in reverse order, [i] being the index of the head. *)

Record ext_state := mkExtState {
  startDot : Z;
  startPart : Z;
  end_ : Z;
  matchedSlash : bool;
  preDotState : Z;
}.

Definition ext_init : ext_state := mkExtState (-1) 0 (-1) true 0.

Definition ext_char (i : Z) (c : ascii) (st : ext_state) : ext_state :=
  let st1 :=
    if Z.eqb (end_ st) (-1)
    then mkExtState (startDot st) (startPart st) (i + 1) false (preDotState st)
    else st in
  if is_dot c then
    if Z.eqb (startDot st1) (-1)
    then mkExtState i (startPart st1) (end_ st1) (matchedSlash st1) (preDotState st1)
    else if negb (Z.eqb (preDotState st1) 1)
    then mkExtState (startDot st1) (startPart st1) (end_ st1) (matchedSlash st1) 1
    else st1
  else if negb (Z.eqb (startDot st1) (-1))
  then mkExtState (startDot st1) (startPart st1) (end_ st1) (matchedSlash st1) (-1)
  else st1.

Fixpoint ext_loop (rcs : list ascii) (i : Z) (st : ext_state) : ext_state :=
  match rcs with
  | [] => st
  | c :: rcs' =>
      if is_slash c then
        if negb (matchedSlash st)
        then mkExtState (startDot st) (i + 1) (end_ st) (matchedSlash st) (preDotState st)
        else ext_loop rcs' (i - 1) st
      else ext_loop rcs' (i - 1) (ext_char i c st)
  end.

Definition extname (path : string) : string :=
  let n := Z.of_nat (String.length path) in
  let st := ext_loop (rev (String.list_ascii_of_string path)) (n - 1) ext_init in
  if Z.eqb (startDot st) (-1) || Z.eqb (end_ st) (-1) || Z.eqb (preDotState st) 0
     || (Z.eqb (preDotState st) 1 && Z.eqb (startDot st) (end_ st - 1)
         && Z.eqb (startDot st) (startPart st + 1))
  then ""
  else String.substring (Z.to_nat (startDot st))
         (Z.to_nat (end_ st - startDot st)) path.

(** ** ObjectId casting

    A string casts to an ObjectId when it is 24 hexadecimal digits; the
    ObjectId prints back in lower case.  Anything else is a [CastError].
    This is the rule of bson 5 and later (Mongoose 7 and later).  The
    sources pin no version; under bson 4 (Mongoose 6 and earlier) any
    twelve-character string also cast, read as the ObjectId's twelve raw
    bytes.  Such strings are cast errors here, so the theorems about
    malformed ids hold for the newer versions only. *)

Definition is_hex (c : ascii) : bool :=
  ascii_in "0" "9" c || ascii_in "a" "f" c || ascii_in "A" "F" c.

Definition to_lower_hex (c : ascii) : ascii :=
  if ascii_in "A" "F" c then ascii_of_nat (nat_of_ascii c + 32) else c.

Definition oid_cast (s : string) : option string :=
  if (String.length s =? 24)%nat && str_forallb is_hex s
  then Some (str_map to_lower_hex s) else None.

(** A value cast to an ObjectId: only strings are accepted. *)
Definition oid_cast_j (v : option jval) : option string :=
  match v with
  | Some (JStr s) => oid_cast s
  | _ => None
  end.

(** The ObjectIds the database holds: 24 lower-case hex digits. *)
Definition oid_valid (s : string) : bool := bool_decide (oid_cast s = Some s).

(** ** [path.extname] on a name with an extension *)

Local Open Scope Z_scope.

(** The loop over characters that are neither [/] nor [.]. *)
Definition plain (c : ascii) : bool := negb (is_dot c || is_slash c).

(** Once a dot has been seen and a character precedes it, the scan
    keeps [startDot] and [end_], and [preDotState] stays 1 or -1. *)
Definition ext_seen (d n : Z) (st : ext_state) : Prop :=
  startDot st = d /\ end_ st = n /\ matchedSlash st = false /\
  (preDotState st = 1 \/ preDotState st = -1).

Lemma jstr_eqb_true s v : jstr_eqb s v = true <-> v = Some (JStr s).
Proof.
  destruct v as [[]|]; simpl; split; try done; try congruence.
  - by intros ->%String.eqb_eq.
  - intros [= ->]. apply String.eqb_refl.
Qed.

Lemma ostr_eqb_true a b : ostr_eqb a b = true <-> a = b.
Proof. unfold ostr_eqb. apply bool_decide_eq_true. Qed.

Lemma str_map_id f s : str_forallb (fun c => Ascii.eqb (f c) c) s = true -> str_map f s = s.
Proof.
  induction s as [|c s IH]; simpl; [done|].
  intros [Hc Hs]%andb_true_iff. apply Ascii.eqb_eq in Hc. by rewrite Hc, IH.
Qed.

Lemma str_forallb_app p s t :
  str_forallb p (s +:+ t) = str_forallb p s && str_forallb p t.
Proof. induction s as [|c s IH]; simpl; [done|]. by rewrite IH, andb_assoc. Qed.

Lemma str_forallb_impl (p q : ascii -> bool) s :
  (forall c, p c = true -> q c = true) -> str_forallb p s = true -> str_forallb q s = true.
Proof.
  intros Hpq. induction s as [|c s IH]; simpl; [done|].
  intros [Hc Hs]%andb_true_iff. by rewrite Hpq, IH.
Qed.

Lemma replace_backslashes_id s :
  str_forallb (fun c => negb (is_backslash c)) s = true -> replace_backslashes s = s.
Proof.
  intros H. apply str_map_id. induction s as [|c s IH]; simpl in *; [done|].
  apply andb_true_iff in H as [Hc Hs]. rewrite IH by done.
  destruct (is_backslash c); [done|]. by rewrite Ascii.eqb_refl.
Qed.

Lemma last_segment_no_sep s : str_existsb is_sep (last_segment s) = false.
Proof.
  induction s as [|c s IH]; [done|]. simpl.
  destruct (str_existsb is_sep s) eqn:E; [exact IH|].
  destruct (is_sep c) eqn:Ec; [exact E|].
  unfold str_existsb in *. simpl. rewrite Ec. simpl.
  apply negb_false_iff in E. apply negb_false_iff. exact E.
Qed.

Lemma busboy_basename_no_sep s : str_existsb is_sep (busboy_basename s) = false.
Proof.
  unfold busboy_basename.
  destruct (_ || _); [done|]. apply last_segment_no_sep.
Qed.

Lemma str_map_length f s : String.length (str_map f s) = String.length s.
Proof. induction s; simpl; auto. Qed.

Lemma to_lower_hex_hex c : is_hex c = true -> is_hex (to_lower_hex c) = true.
Proof. destruct c as [[] [] [] [] [] [] [] []]; vm_compute; congruence. Qed.

Lemma to_lower_hex_idem c : is_hex c = true -> to_lower_hex (to_lower_hex c) = to_lower_hex c.
Proof. destruct c as [[] [] [] [] [] [] [] []]; vm_compute; congruence. Qed.

Lemma str_lower_hex s :
  str_forallb is_hex s = true ->
  str_forallb is_hex (str_map to_lower_hex s) = true
  /\ str_map to_lower_hex (str_map to_lower_hex s) = str_map to_lower_hex s.
Proof.
  induction s as [|c s IH]; simpl; [done|].
  intros [Hc Hs]%andb_true_iff. destruct (IH Hs) as [IH1 IH2].
  by rewrite to_lower_hex_hex, IH1, to_lower_hex_idem, IH2.
Qed.

Lemma oid_cast_valid s t : oid_cast s = Some t -> oid_valid t = true.
Proof.
  unfold oid_cast. destruct (_ && _) eqn:E; [|done].
  intros [= <-]. apply andb_true_iff in E as [Hl Hh].
  destruct (str_lower_hex s Hh) as [H1 H2].
  unfold oid_valid, oid_cast. apply bool_decide_eq_true.
  rewrite str_map_length, Hl, H1, H2. done.
Qed.

Lemma oid_cast_j_valid v t : oid_cast_j v = Some t -> oid_valid t = true.
Proof. destruct v as [[]|]; try done. apply oid_cast_valid. Qed.

Lemma oid_valid_cast s : oid_valid s = true -> oid_cast s = Some s.
Proof. unfold oid_valid. apply bool_decide_eq_true. Qed.

Lemma oid_valid_nonempty s : oid_valid s = true -> s <> "".
Proof. intros H ->. discriminate (oid_valid_cast _ H). Qed.

#[export] Hint Resolve oid_cast_valid oid_cast_j_valid : tracker.

Lemma list_ascii_app s t :
  String.list_ascii_of_string (s +:+ t) = app (String.list_ascii_of_string s) (String.list_ascii_of_string t).
Proof. induction s as [|c s IH]; simpl; [done|]. by rewrite IH. Qed.

Lemma string_length_app s t : String.length (s +:+ t) = (String.length s + String.length t)%nat.
Proof. induction s as [|c s IH]; simpl; [done|]. by rewrite IH. Qed.

Lemma list_ascii_length s : length (String.list_ascii_of_string s) = String.length s.
Proof. induction s as [|c s IH]; simpl; [done|]. by rewrite IH. Qed.

Lemma substring_app_r s t m :
  String.substring (String.length s) m (s +:+ t) = String.substring 0 m t.
Proof. induction s as [|c s IH]; simpl; [done|]. exact IH. Qed.

Lemma substring_full t : String.substring 0 (String.length t) t = t.
Proof. induction t as [|c t IH]; simpl; [done|]. by rewrite IH. Qed.

Lemma forallb_rev_eq {A} (f : A -> bool) (l : list A) : forallb f (rev l) = forallb f l.
Proof.
  induction l as [|x l IH]; simpl; [done|].
  rewrite forallb_app, IH. simpl. by rewrite andb_true_r, andb_comm.
Qed.

Lemma ext_loop_app l1 l2 i st :
  forallb (fun c => negb (is_slash c)) l1 = true ->
  ext_loop (app l1 l2) i st = ext_loop l2 (i - Z.of_nat (length l1)) (ext_loop l1 i st).
Proof.
  revert i st. induction l1 as [|c l1 IH]; intros i st H; simpl in *.
  - by rewrite Z.sub_0_r.
  - apply andb_true_iff in H as [Hc Hl]. apply negb_true_iff in Hc. rewrite Hc.
    rewrite IH by done. f_equal. lia.
Qed.

Lemma ext_loop_cons_noslash c l i st :
  is_slash c = false -> ext_loop (c :: l) i st = ext_loop l (i - 1) (ext_char i c st).
Proof. intros H. simpl. by rewrite H. Qed.

(** After the first plain character, further plain characters before
    any dot leave the state alone. *)
Lemma ext_loop_plain l i st :
  forallb plain l = true -> startDot st = -1 -> end_ st <> -1 ->
  ext_loop l i st = st.
Proof.
  revert i st. induction l as [|c l IH]; intros i st H Hd He; simpl in *; [done|].
  apply andb_true_iff in H as [Hc Hl]. unfold plain in Hc.
  apply negb_true_iff, orb_false_iff in Hc as [Hdot Hsl]. rewrite Hsl.
  unfold ext_char. rewrite (proj2 (Z.eqb_neq _ _) He), Hdot, Hd. simpl.
  apply IH; done.
Qed.

Lemma ext_char_seen d n i c st : is_slash c = false -> d <> -1 -> n <> -1 ->
  ext_seen d n st -> ext_seen d n (ext_char i c st).
Proof.
  intros Hs Hd Hn (Hsd & He & Hm & Hp). unfold ext_char.
  rewrite He, (proj2 (Z.eqb_neq _ _) Hn), Hsd, (proj2 (Z.eqb_neq _ _) Hd).
  destruct (is_dot c); simpl.
  - destruct (Z.eqb_spec (preDotState st) 1); simpl; repeat split; auto.
  - repeat split; auto.
Qed.

Lemma ext_loop_seen d n l i st : d <> -1 -> n <> -1 ->
  ext_seen d n st -> ext_seen d n (ext_loop l i st).
Proof.
  revert i st. induction l as [|c l IH]; intros i st Hd Hn Hst; simpl; [done|].
  destruct (is_slash c) eqn:Hs.
  - destruct Hst as (Hsd & He & Hm & Hp). rewrite Hm. simpl. repeat split; auto.
  - apply IH; [done|done|]. by apply ext_char_seen.
Qed.

(** [path.extname(p + "." + e)] is ["." + e] when [e] is a non-empty
    run of characters other than [.] and [/] and [p] does not end in
    [/]. *)
Lemma extname_ext p c e :
  is_slash c = false -> e <> "" -> str_forallb plain e = true ->
  extname ((p +:+ String c "") +:+ String "."%char e) = String "."%char e.
Proof.
  intros Hc Hne He. unfold extname.
  set (s := (p +:+ String c "") +:+ String "."%char e).
  set (np := String.length p). set (ne := String.length e).
  assert (Hlen : Z.of_nat (String.length s) = Z.of_nat np + 2 + Z.of_nat ne).
  { unfold s. rewrite !string_length_app. simpl. lia. }
  assert (Hrev : rev (String.list_ascii_of_string s) =
                 app (rev (String.list_ascii_of_string e))
                     (app ["."%char; c] (rev (String.list_ascii_of_string p)))).
  { unfold s. rewrite !list_ascii_app. simpl. rewrite !rev_app_distr. simpl.
    rewrite <- !app_assoc. reflexivity. }
  assert (Hpl : forallb plain (rev (String.list_ascii_of_string e)) = true).
  { rewrite forallb_rev_eq. clear -He. induction e as [|a e IH]; simpl in *; [done|].
    apply andb_true_iff in He as [Ha Hr]. by rewrite Ha, IH. }
  assert (Hns : forallb (fun c => negb (is_slash c)) (rev (String.list_ascii_of_string e)) = true).
  { revert Hpl. generalize (rev (String.list_ascii_of_string e)). intros l.
    induction l as [|a l IH]; simpl; [done|]. intros [Ha Hl]%andb_true_iff.
    unfold plain in Ha. apply negb_true_iff, orb_false_iff in Ha as [_ ->]. simpl. by apply IH. }
  destruct (rev (String.list_ascii_of_string e)) as [|a l] eqn:Hre.
  { exfalso. apply Hne. destruct e; [done|]. simpl in Hre.
    apply (f_equal (@length _)) in Hre. rewrite length_app in Hre. simpl in Hre. lia. }
  rewrite Hrev, Hlen. simpl in Hpl. apply andb_true_iff in Hpl as [Ha Hl].
  unfold plain in Ha. apply negb_true_iff, orb_false_iff in Ha as [Had Has].
  simpl. rewrite Has.
  assert (Hnel : length (a :: l) = ne).
  { rewrite <- Hre, length_rev, list_ascii_length. done. }
  set (n := Z.of_nat np + 2 + Z.of_nat ne).
  assert (Hst1 : ext_char (n - 1) a ext_init = mkExtState (-1) 0 n false 0).
  { unfold ext_char, ext_init. simpl. rewrite Had. simpl. f_equal. lia. }
  rewrite Hst1. rewrite ext_loop_app.
  2: { simpl in Hns. apply andb_true_iff in Hns as [_ Hns]. exact Hns. }
  rewrite (ext_loop_plain l); [|exact Hl|reflexivity|simpl; lia].
  set (i0 := n - 1 - 1 - Z.of_nat (length l)).
  assert (Hi0 : i0 = Z.of_nat np + 1) by (unfold i0; simpl in Hnel; lia).
  rewrite ext_loop_cons_noslash by reflexivity.
  rewrite ext_loop_cons_noslash by exact Hc.
  assert (Hdot : ext_char i0 "." (mkExtState (-1) 0 n false 0) = mkExtState i0 0 n false 0).
  { unfold ext_char. simpl. rewrite (proj2 (Z.eqb_neq n (-1))) by lia. reflexivity. }
  rewrite Hdot.
  assert (Hseen : ext_seen i0 n (ext_char (i0 - 1) c (mkExtState i0 0 n false 0))).
  { unfold ext_char. simpl. rewrite (proj2 (Z.eqb_neq n (-1))) by lia.
    cbn [startDot startPart end_ matchedSlash preDotState].
    rewrite (proj2 (Z.eqb_neq i0 (-1))) by lia.
    destruct (is_dot c); simpl; repeat split; auto. }
  pose proof (ext_loop_seen i0 n (rev (String.list_ascii_of_string p)) (i0 - 1 - 1)
                _ ltac:(lia) ltac:(lia) Hseen) as Hfin.
  destruct (ext_loop _ _ _) as [sd sp en ms pd] eqn:Hloop.
  destruct Hfin as (Hsd & Hen & _ & Hpd). simpl in Hsd, Hen, Hpd. subst sd en. simpl.
  rewrite (proj2 (Z.eqb_neq i0 (-1))) by lia. rewrite (proj2 (Z.eqb_neq n (-1))) by lia.
  assert (Hne1 : i0 <> n - 1) by (simpl in Hnel; lia).
  rewrite (proj2 (Z.eqb_neq i0 (n - 1))) by exact Hne1.
  assert (Hsub : String.substring (Z.to_nat i0) (Z.to_nat (n - i0)) s = String "."%char e).
  { rewrite Hi0. replace (Z.to_nat (Z.of_nat np + 1)) with (String.length (p +:+ String c ""))
      by (rewrite string_length_app; simpl; lia).
    unfold s. rewrite substring_app_r.
    replace (Z.to_nat (n - (Z.of_nat np + 1))) with (String.length (String "."%char e))
      by (simpl; lia).
    apply substring_full. }
  destruct Hpd as [-> | ->]; simpl; exact Hsub.
Qed.
