(* ===== verification/JobModel.v ===== *)

(** The Mongoose [Job] schema of [models/Job.js]: the document, the status
    enum, the defaults, and the two ways the controller writes a document.
    [job_create] is [new Job({...}).save()]: defaults are applied to
    [undefined] paths, then the paths are cast and validated ([required]
    strings must be non-empty, [status] must be in the enum), and every
    failing path is reported.  [job_update] is the [$set] of
    [findByIdAndUpdate] without [runValidators]: keys whose value is
    [undefined] are dropped, the others are cast but not validated. *)

From S2P Require Import Prelude JsValue.

Open Scope Z_scope.

(** ** The status enum *)

Inductive job_status : Type := Applied | Interview | Offer | Rejected.

#[export] Instance job_status_eq_dec : EqDecision job_status.
Proof. solve_decision. Defined.

Definition status_name (s : job_status) : string :=
  match s with
  | Applied => "applied"
  | Interview => "interview"
  | Offer => "offer"
  | Rejected => "rejected"
  end.

(** [enum: ['applied', 'interview', 'offer', 'rejected']] *)
Definition status_enum : list string := ["applied"; "interview"; "offer"; "rejected"].

Definition status_of_string (s : string) : option job_status :=
  if String.eqb s "applied" then Some Applied
  else if String.eqb s "interview" then Some Interview
  else if String.eqb s "offer" then Some Offer
  else if String.eqb s "rejected" then Some Rejected
  else None.

(** ** Dates

    The controller passes [null] or [new Date(x)] for [interviewDate].
    [new Date(x)] of a string is the engine's date parser, kept abstract
    as a class; [new Date(undefined)] is an Invalid Date. *)

Inductive date_val : Type := DNull | DDate (t : Z) | DInvalid.

Class DateParser := date_parse : string -> option Z.

Definition new_date `{DateParser} (o : option string) : date_val :=
  match o with
  | None => DInvalid
  | Some s => match date_parse s with Some t => DDate t | None => DInvalid end
  end.

(** ** The document *)

Record job : Type := mkJob {
  job_id : string;
  user : string;
  company : string;
  role : string;
  status : string;
  appliedDate : Z;
  interviewDate : option Z;
  notes : option string;
  resume : option string;
  contact : option string;
  source : option string;
  lastUpdated : Z;
}.

(** The object literal passed to [new Job({...})] by [addJob]. *)
Record job_fields : Type := mkJobFields {
  jf_user : option jval;
  jf_company : option string;
  jf_role : option string;
  jf_status : option string;
  jf_notes : option string;
  jf_contact : option string;
  jf_source : option string;
  jf_interviewDate : date_val;
  jf_resume : option string;
}.

Inductive model_error : Type :=
  | ValidationError (paths : list string)
  | CastError (path : string).

(** A [required: true] string path: present and non-empty. *)
Definition required_str (o : option string) : bool := str_truthy o.

(** [status] after the default: [undefined] becomes ['applied']. *)
Definition status_default (o : option string) : string :=
  match o with Some s => s | None => "applied" end.

Definition status_valid (s : string) : bool := bool_decide (s ∈ status_enum).

Definition date_cast (d : date_val) : option (option Z) :=
  match d with
  | DNull => Some None
  | DDate t => Some (Some t)
  | DInvalid => None
  end.

(** The failing paths of a new document, in schema order. *)
Definition create_errors (f : job_fields) : list string :=
  (if oid_cast_j (jf_user f) is Some _ then [] else ["user"]) ++
  (if required_str (jf_company f) then [] else ["company"]) ++
  (if required_str (jf_role f) then [] else ["role"]) ++
  (if status_valid (status_default (jf_status f)) then [] else ["status"]) ++
  (if date_cast (jf_interviewDate f) is Some _ then [] else ["interviewDate"]).

(** [new Job(f).save()] for a document receiving ObjectId [id] at time
    [now] ([appliedDate] and [lastUpdated] default to [Date.now]). *)
Definition job_create (id : string) (now : Z) (f : job_fields) : model_error + job :=
  match oid_cast_j (jf_user f), jf_company f, jf_role f, date_cast (jf_interviewDate f) with
  | Some u, Some c, Some r, Some idate =>
      if bool_decide (create_errors f = []) then
        inr (mkJob id u c r (status_default (jf_status f)) now idate
               (jf_notes f) (jf_resume f) (jf_contact f) (jf_source f) now)
      else inl (ValidationError (create_errors f))
  | _, _, _, _ => inl (ValidationError (create_errors f))
  end.

(** The update document of [updateJob]: [None] in an optional field is
    [undefined], which Mongoose drops from the [$set]; [interviewDate],
    [resume] and [lastUpdated] are always present. *)
Record job_set : Type := mkJobSet {
  js_company : option string;
  js_role : option string;
  js_status : option string;
  js_notes : option string;
  js_contact : option string;
  js_source : option string;
  js_interviewDate : date_val;
  js_resume : option string;
  js_lastUpdated : Z;
}.

Definition set_opt {A} (new : option A) (old : A) : A :=
  match new with Some v => v | None => old end.

Definition set_opt_field (new old : option string) : option string :=
  match new with Some v => Some v | None => old end.

(** [findByIdAndUpdate(id, u)] on the stored [j]: casting only. *)
Definition job_update (u : job_set) (j : job) : model_error + job :=
  match date_cast (js_interviewDate u) with
  | None => inl (CastError "interviewDate")
  | Some idate =>
      inr (mkJob (job_id j) (user j)
             (set_opt (js_company u) (company j))
             (set_opt (js_role u) (role j))
             (set_opt (js_status u) (status j))
             (appliedDate j) idate
             (set_opt_field (js_notes u) (notes j))
             (js_resume u)
             (set_opt_field (js_contact u) (contact j))
             (set_opt_field (js_source u) (source j))
             (js_lastUpdated u))
  end.

(** A document as the schema's validators would accept it. *)
Definition job_valid (j : job) : Prop :=
  oid_valid (user j) = true /\ company j <> "" /\ role j <> "" /\ status j ∈ status_enum.

(** ** A concrete date parser

    The date-only ISO form [YYYY-MM-DD], which JavaScript reads as UTC
    midnight; other strings are Invalid Dates here.  Used by the
    examples; the theorems hold for every [DateParser]. *)

Definition digit_val (c : ascii) : option Z :=
  if ascii_in "0" "9" c then Some (Z.of_nat (nat_of_ascii c) - 48) else None.

Fixpoint digits_val (s : string) (acc : Z) : option Z :=
  match s with
  | EmptyString => Some acc
  | String c s' => match digit_val c with
                   | Some d => digits_val s' (10 * acc + d)
                   | None => None
                   end
  end.

(** Days from 1970-01-01 to the civil date [y-m-d] (proleptic Gregorian). *)
Definition days_from_civil (y m d : Z) : Z :=
  let y' := if m <=? 2 then y - 1 else y in
  let era := y' / 400 in
  let yoe := y' - era * 400 in
  let mp := if 2 <? m then m - 3 else m + 9 in
  let doy := (153 * mp + 2) / 5 + d - 1 in
  let doe := yoe * 365 + yoe / 4 - yoe / 100 + doy in
  era * 146097 + doe - 719468.

Definition iso_date_parse (s : string) : option Z :=
  match String.substring 4 1 s, String.substring 7 1 s with
  | "-", "-" =>
      if (String.length s =? 10)%nat then
        match digits_val (String.substring 0 4 s) 0, digits_val (String.substring 5 2 s) 0,
              digits_val (String.substring 8 2 s) 0 with
        | Some y, Some m, Some d =>
            if (1 <=? m) && (m <=? 12) && (1 <=? d) && (d <=? 31)
            then Some (days_from_civil y m d * 86400000) else None
        | _, _, _ => None
        end
      else None
  | _, _ => None
  end.

#[export] Instance iso_date_parser : DateParser := iso_date_parse.

Lemma status_of_string_name st : status_of_string (status_name st) = Some st.
Proof. by destruct st. Qed.

Lemma status_of_string_Some s st : status_of_string s = Some st -> s = status_name st.
Proof.
  unfold status_of_string.
  repeat match goal with
  | |- context [String.eqb s ?t] =>
      destruct (String.eqb_spec s t) as [->|]; [by intros [= <-]|]
  end. done.
Qed.

Lemma status_enum_spec s : s ∈ status_enum <-> is_Some (status_of_string s).
Proof.
  unfold status_enum, status_of_string. rewrite !elem_of_cons, elem_of_nil.
  repeat match goal with
  | |- context [String.eqb s ?t] => destruct (String.eqb_spec s t) as [->|?]
  end; split; intros H; try done; naive_solver.
Qed.

(** ** Lemmas on the model *)

Lemma job_create_ok id now f j :
  job_create id now f = inr j ->
  oid_cast_j (jf_user f) = Some (user j) /\
  jf_company f = Some (company j) /\ jf_role f = Some (role j) /\
  status j = status_default (jf_status f) /\
  date_cast (jf_interviewDate f) = Some (interviewDate j) /\
  job_id j = id /\ appliedDate j = now /\ lastUpdated j = now /\
  resume j = jf_resume f /\ notes j = jf_notes f /\
  contact j = jf_contact f /\ source j = jf_source f /\
  create_errors f = [].
Proof.
  unfold job_create.
  destruct (oid_cast_j _), (jf_company f), (jf_role f), (date_cast _); try done.
  case_bool_decide; [|done]. intros [= <-]. naive_solver.
Qed.

Lemma create_errors_nil f :
  create_errors f = [] ->
  is_Some (oid_cast_j (jf_user f)) /\ required_str (jf_company f) = true /\
  required_str (jf_role f) = true /\ status_valid (status_default (jf_status f)) = true.
Proof.
  unfold create_errors.
  destruct (oid_cast_j _), (required_str _), (required_str _), (status_valid _); done.
Qed.

Lemma job_create_valid id now f j : job_create id now f = inr j -> job_valid j.
Proof.
  intros Hc.
  destruct (job_create_ok _ _ _ _ Hc) as (Hu & Hc' & Hr & Hs & _ & _ & _ & _ & _ & _ & _ & _ & Herr).
  destruct (create_errors_nil f Herr) as (_ & Hcomp & Hrole & Hstat).
  rewrite Hc' in Hcomp. rewrite Hr in Hrole. rewrite <- Hs in Hstat.
  unfold required_str, str_truthy, status_valid in *.
  repeat split.
  - eauto with tracker.
  - intros E. rewrite E in Hcomp. done.
  - intros E. rewrite E in Hrole. done.
  - by apply bool_decide_eq_true in Hstat.
Qed.

Lemma job_update_ok u j j' :
  job_update u j = inr j' ->
  job_id j' = job_id j /\ user j' = user j /\ appliedDate j' = appliedDate j /\
  date_cast (js_interviewDate u) = Some (interviewDate j') /\
  status j' = set_opt (js_status u) (status j) /\
  company j' = set_opt (js_company u) (company j) /\
  role j' = set_opt (js_role u) (role j) /\
  resume j' = js_resume u /\ lastUpdated j' = js_lastUpdated u.
Proof.
  unfold job_update. destruct (date_cast _); [|done]. intros [= <-]. naive_solver.
Qed.

Lemma job_update_cast_error u j :
  js_interviewDate u = DInvalid -> job_update u j = inl (CastError "interviewDate").
Proof. unfold job_update. by intros ->. Qed.


Example iso_date_parse_2024 : iso_date_parse "2024-01-01" = Some 1704067200000.
Proof. reflexivity. Qed.

Lemma status_valid_eqb s :
  status_valid s = String.eqb s "applied" || String.eqb s "interview" ||
                   String.eqb s "offer" || String.eqb s "rejected".
Proof.
  unfold status_valid, status_enum. destruct (bool_decide _) eqn:E; symmetry.
  - apply bool_decide_eq_true in E. rewrite !elem_of_cons, elem_of_nil in E.
    destruct E as [->|[->|[->|[->|[]]]]]; reflexivity.
  - apply bool_decide_eq_false in E. rewrite !elem_of_cons, elem_of_nil in E.
    rewrite !orb_false_iff. repeat split; apply String.eqb_neq; naive_solver.
Qed.
