(* ===== verification/Store.v ===== *)
(** The state the handlers act on and the library calls that act on it:
    the [jobs] and [users] collections (Mongoose queries [find],
    [findById], [save], [findByIdAndUpdate], [findByIdAndDelete], with
    the ObjectId cast of their id arguments), the upload directory
    ([fs.unlink], [fs.existsSync]), the nodemailer transport
    ([transporter.sendMail]), and the HTTP responses the handlers send.
    The User schema is not under [src/]; its document follows the spec. *)

From S2P Require Import Prelude JsValue JobModel.

Open Scope Z_scope.

(** ** Users (spec-modelled: [models/User.js] is not in the sources)

    A stored password is the salted one-way hash of the raw password;
    hashing is symbolic.  bcrypt hashes only the first 72 bytes of the
    password (the strings here are byte strings), so [bcrypt.compare]
    succeeds exactly on the passwords whose first 72 bytes are those of
    the password that was hashed. *)

Inductive credential : Type := Hashed (salt : Z) (raw : string).

Definition bcrypt_max_bytes : nat := 72.

Definition bcrypt_input (s : string) : string := String.substring 0 bcrypt_max_bytes s.

Definition bcrypt_compare (raw : string) (c : credential) : bool :=
  match c with Hashed _ r => String.eqb (bcrypt_input raw) (bcrypt_input r) end.

Record user_doc : Type := mkUser {
  uid : string;
  name : option string;
  email : option string;
  password : credential;
}.

(** ** Mail *)

Record mail : Type := mkMail {
  mail_from : option string;
  mail_to : string;
  mail_subject : string;
  mail_text : string;
}.

(** ** Files

    The handlers never read file contents; a stored file is its size in
    bytes (what multer measures) and an opaque tag standing for its
    bytes. *)

Record blob : Type := mkBlob { blob_size : Z; blob_tag : string }.

(** ** The world and the request environment *)

Record world : Type := mkWorld {
  jobs : gmap string job;
  users : gmap string user_doc;
  files : gmap string blob;
  outbox : list mail;
}.

Record env : Type := mkEnv {
  now : Z;               (** [Date.now()] during the request, in ms *)
  new_oid : string;      (** the [_id] a [new Model(...)] receives *)
  mail_ok : bool;        (** whether the mail transport accepts *)
  email_user : option string;  (** [process.env.EMAIL_USER] *)
  jwt_secret : string;   (** [process.env.JWT_SECRET] *)
}.

Inductive exn : Type :=
  | EModel (e : model_error)      (** Mongoose validation or cast error *)
  | EDuplicateKey                 (** E11000 on insert *)
  | EMail.                        (** [sendMail] rejected *)

Abbreviation M := (prog env world exn).

(** A Mongoose error rejects the [await]. *)
Definition lift_model {A} (x : model_error + A) : M A :=
  match x with inl e => throw (EModel e) | inr a => mret a end.

Definition set_jobs (js : gmap string job) (w : world) : world :=
  mkWorld js (users w) (files w) (outbox w).
Definition set_users (us : gmap string user_doc) (w : world) : world :=
  mkWorld (jobs w) us (files w) (outbox w).
Definition set_files (fs : gmap string blob) (w : world) : world :=
  mkWorld (jobs w) (users w) fs (outbox w).
Definition set_outbox (o : list mail) (w : world) : world :=
  mkWorld (jobs w) (users w) (files w) o.

(** ** HTTP responses *)

Inductive body : Type :=
  | BJobs (count : nat) (js : list job)           (** [{success, count, jobs}] *)
  | BJob (j : option job)                         (** [{success, job}] *)
  | BMsg (success : bool) (msg : string)          (** [{success, msg}] *)
  | BStats (applied interview offer rejected total : nat)
  | BMessage (success : bool) (message : string)  (** [{success, message}] *)
  | BToken (tok : jwt)                           (** [{success, token}] *)
  | BUser (id : string) (name email : option string)  (** [{success, user}] *)
  | BFile (path filename : string)               (** [res.download] *)
  | BStatic (path : string)                      (** a file sent by [express.static] *)
  | BError (message : string).                   (** Express's error handler *)

Record response : Type := mkResp { code : Z; rbody : body }.

(** ** Queries on [jobs] *)

Definition all_jobs (w : world) : list job := (map_to_list (jobs w)).*2.

(** [appliedDate] descending: [sort({ appliedDate: -1 })]. *)
Definition applied_desc (a b : job) : Prop := appliedDate b <= appliedDate a.

#[export] Instance applied_desc_dec : RelDecision applied_desc.
Proof. intros a b. unfold applied_desc. apply _. Defined.

#[export] Instance applied_desc_total : Total applied_desc.
Proof. intros a b. unfold applied_desc. lia. Qed.

#[export] Instance applied_desc_trans : Transitive applied_desc.
Proof. intros a b c. unfold applied_desc. lia. Qed.

Definition sort_applied_desc (l : list job) : list job := merge_sort applied_desc l.

(** [castId(v)] for a query argument; a failed cast rejects the query. *)
Definition cast_id (path : string) (v : option jval) : M string :=
  match oid_cast_j v with
  | Some id => mret id
  | None => throw (EModel (CastError path))
  end.

(** [Job.find({ user: v })] *)
Definition job_find_by_user (v : option jval) : M (list job) :=
  u ← cast_id "user" v;
  w ← get;
  mret (List.filter (fun j => String.eqb (user j) u) (all_jobs w)).

(** [Job.find({ user: v, status: s })] *)
Definition job_find_by_user_status (v : option jval) (s : string) : M (list job) :=
  u ← cast_id "user" v;
  w ← get;
  mret (List.filter (fun j => String.eqb (user j) u && String.eqb (status j) s) (all_jobs w)).

(** [Job.findById(id)] *)
Definition job_findById (id : string) : M (option job) :=
  i ← cast_id "_id" (Some (JStr id));
  w ← get;
  mret (jobs w !! i).

(** [doc.save()] of a new document. *)
Definition job_insert (j : job) : M job :=
  w ← get;
  match jobs w !! job_id j with
  | Some _ => throw EDuplicateKey
  | None => modify (set_jobs (<[job_id j := j]> (jobs w))) ;; mret j
  end.

(** [Job.findByIdAndUpdate(id, u, { new: true })] *)
Definition job_findByIdAndUpdate (id : string) (u : job_set) : M (option job) :=
  i ← cast_id "_id" (Some (JStr id));
  w ← get;
  match jobs w !! i with
  | None => mret None
  | Some j =>
      j' ← lift_model (job_update u j);
      modify (set_jobs (<[i := j']> (jobs w))) ;;
      mret (Some j')
  end.

(** [Job.findByIdAndDelete(id)] *)
Definition job_findByIdAndDelete (id : string) : M unit :=
  i ← cast_id "_id" (Some (JStr id));
  modify (fun w => set_jobs (delete i (jobs w)) w).

(** [User.findById(v)] *)
Definition user_findById (v : option jval) : M (option user_doc) :=
  i ← cast_id "_id" v;
  w ← get;
  mret (users w !! i).

(** ** Files and mail *)

(** [fs.unlink(p, cb)]: the callback only logs, so a missing file is not
    an error of the request. *)
Definition fs_unlink (p : string) : M unit :=
  modify (fun w => set_files (delete p (files w)) w).

Definition fs_existsSync (p : string) : M bool :=
  w ← get; mret (bool_decide (is_Some (files w !! p))).

(** [await transporter.sendMail(m)] *)
Definition send_mail (m : mail) : M unit :=
  e ← ask;
  if mail_ok e then modify (fun w => set_outbox (outbox w ++ [m]) w)
  else throw EMail.

(** ** Lemmas *)

Lemma sort_applied_desc_perm l : sort_applied_desc l ≡ₚ l.
Proof. apply merge_sort_Permutation. Qed.

Lemma sort_applied_desc_sorted l : StronglySorted applied_desc (sort_applied_desc l).
Proof. apply StronglySorted_merge_sort; apply _. Qed.

Lemma all_jobs_elem w j : j ∈ all_jobs w <-> exists k, jobs w !! k = Some j.
Proof.
  unfold all_jobs. rewrite list_elem_of_fmap. split.
  - intros [[k j'] [-> Hin]]. apply elem_of_map_to_list in Hin. by exists k.
  - intros [k H]. exists (k, j). split; [done|]. by apply elem_of_map_to_list.
Qed.

Lemma cast_id_run p v e w :
  cast_id p v e w =
    match oid_cast_j v with
    | Some i => (w, Ok i)
    | None => (w, Throw (EModel (CastError p)))
    end.
Proof. unfold cast_id. by destruct (oid_cast_j v). Qed.

Lemma job_findById_run id e w :
  job_findById id e w =
    match oid_cast id with
    | Some i => (w, Ok (jobs w !! i))
    | None => (w, Throw (EModel (CastError "_id")))
    end.
Proof.
  unfold job_findById, mbind, prog_bind. rewrite cast_id_run.
  change (oid_cast_j (Some (JStr id))) with (oid_cast id). destruct (oid_cast id); reflexivity.
Qed.

Lemma send_mail_run m e w :
  send_mail m e w =
    if mail_ok e then (set_outbox (outbox w ++ [m]) w, Ok tt) else (w, Throw EMail).
Proof. unfold send_mail, mbind, prog_bind, ask. destruct (mail_ok e); reflexivity. Qed.

Lemma lift_model_run {A} (x : model_error + A) e w :
  lift_model x e w = match x with inl m => (w, Throw (EModel m)) | inr a => (w, Ok a) end.
Proof. by destruct x. Qed.

Lemma job_find_by_user_run v e w :
  job_find_by_user v e w =
    match oid_cast_j v with
    | Some u => (w, Ok (List.filter (fun j => String.eqb (user j) u) (all_jobs w)))
    | None => (w, Throw (EModel (CastError "user")))
    end.
Proof.
  unfold job_find_by_user, mbind, prog_bind. rewrite cast_id_run.
  destruct (oid_cast_j v); reflexivity.
Qed.

Lemma job_find_by_user_status_run v s e w :
  job_find_by_user_status v s e w =
    match oid_cast_j v with
    | Some u => (w, Ok (List.filter (fun j => String.eqb (user j) u && String.eqb (status j) s)
                          (all_jobs w)))
    | None => (w, Throw (EModel (CastError "user")))
    end.
Proof.
  unfold job_find_by_user_status, mbind, prog_bind. rewrite cast_id_run.
  destruct (oid_cast_j v); reflexivity.
Qed.

Lemma job_insert_run j e w :
  job_insert j e w =
    match jobs w !! job_id j with
    | Some _ => (w, Throw EDuplicateKey)
    | None => (set_jobs (<[job_id j := j]> (jobs w)) w, Ok j)
    end.
Proof. unfold job_insert, mbind, prog_bind, get. destruct (jobs w !! job_id j); reflexivity. Qed.

Lemma job_findByIdAndUpdate_run id u e w :
  job_findByIdAndUpdate id u e w =
    match oid_cast id with
    | None => (w, Throw (EModel (CastError "_id")))
    | Some i =>
        match jobs w !! i with
        | None => (w, Ok None)
        | Some j =>
            match job_update u j with
            | inl m => (w, Throw (EModel m))
            | inr j' => (set_jobs (<[i := j']> (jobs w)) w, Ok (Some j'))
            end
        end
    end.
Proof.
  unfold job_findByIdAndUpdate, mbind, prog_bind. rewrite cast_id_run.
  change (oid_cast_j (Some (JStr id))) with (oid_cast id).
  destruct (oid_cast id) as [i|]; [|reflexivity]. simpl.
  destruct (jobs w !! i); [|reflexivity]. rewrite lift_model_run.
  destruct (job_update u j); reflexivity.
Qed.

Lemma job_findByIdAndDelete_run id e w :
  job_findByIdAndDelete id e w =
    match oid_cast id with
    | None => (w, Throw (EModel (CastError "_id")))
    | Some i => (set_jobs (delete i (jobs w)) w, Ok tt)
    end.
Proof.
  unfold job_findByIdAndDelete, mbind, prog_bind. rewrite cast_id_run.
  change (oid_cast_j (Some (JStr id))) with (oid_cast id).
  destruct (oid_cast id); reflexivity.
Qed.

Lemma user_findById_run v e w :
  user_findById v e w =
    match oid_cast_j v with
    | Some i => (w, Ok (users w !! i))
    | None => (w, Throw (EModel (CastError "_id")))
    end.
Proof.
  unfold user_findById, mbind, prog_bind. rewrite cast_id_run.
  destruct (oid_cast_j v); reflexivity.
Qed.

Lemma fs_unlink_run p e w : fs_unlink p e w = (set_files (delete p (files w)) w, Ok tt).
Proof. reflexivity. Qed.

Lemma fs_existsSync_run p e w : fs_existsSync p e w = (w, Ok (bool_decide (is_Some (files w !! p)))).
Proof. reflexivity. Qed.

#[export] Hint Rewrite cast_id_run job_findById_run send_mail_run @lift_model_run
  job_find_by_user_run job_find_by_user_status_run job_insert_run
  job_findByIdAndUpdate_run job_findByIdAndDelete_run user_findById_run
  fs_unlink_run fs_existsSync_run : prog_run.
