(* ===== verification/Upload.v ===== *)
(** The upload middleware of [middleware/upload.js]: [multer] with disk
    storage under [uploads/], file names [Date.now() + '-' +
    file.originalname], a [fileFilter] accepting only [application/pdf]
    and [limits.fileSize] of 5 MiB, mounted as [upload.single('resume')].
    multer calls the filter before it writes; a file over the limit is
    truncated, removed, and the request fails with [LIMIT_FILE_SIZE].
    Any multer error goes to Express's error handler (status 500). *)

From S2P Require Import Prelude JsValue JobModel Store.
From Stdlib Require Import DecimalString.

Open Scope Z_scope.

(** A file part of a multipart request, as the client sent it. *)
Record upload_part : Type := mkPart {
  part_field : string;
  part_filename : string;
  part_mimetype : string;
  part_content : blob;
}.

(** multer's [req.file]. *)
Record mfile : Type := mkFile {
  fieldname : string;
  originalname : string;
  mimetype : string;
  destination : string;
  filename : string;
  path : string;
  size : Z;
}.

Definition uploads_dir : string := "uploads/".

(** [const allowedTypes = ["application/pdf"]] *)
Definition allowedTypes : list string := ["application/pdf"].

(** [fileFilter]: [allowedTypes.includes(file.mimetype)]. *)
Definition fileFilter (mime : string) : bool := bool_decide (mime ∈ allowedTypes).

(** [limits: { fileSize: 5 * 1024 * 1024 }] *)
Definition fileSize_limit : Z := 5 * 1024 * 1024.

(** [Date.now()] as a decimal string. *)
Definition date_now_string (t : Z) : string := NilZero.string_of_int (Z.to_int t).

(** [filename: Date.now() + '-' + file.originalname] *)
Definition storage_filename (t : Z) (orig : string) : string :=
  date_now_string t +:+ "-" +:+ orig.

Inductive upload_result : Type :=
  | UpNone                    (** no file: [req.file] is [undefined] *)
  | UpFile (f : mfile)        (** stored; [req.file] is [f] *)
  | UpError (message : string).

Definition part_size (p : upload_part) : Z := blob_size (part_content p).

(** [upload.single(field)] on the request's file part. *)
Definition upload_single (field : string) (part : option upload_part) : M upload_result :=
  match part with
  | None => mret UpNone
  | Some p =>
      if negb (String.eqb (part_field p) field) then mret (UpError "Unexpected field")
      else if negb (fileFilter (part_mimetype p)) then mret (UpError "Only PDF files are allowed!")
      else if bool_decide (fileSize_limit < part_size p) then mret (UpError "File too large")
      else
        e ← ask;
        let orig := busboy_basename (part_filename p) in
        let fname := storage_filename (now e) orig in
        let fpath := uploads_dir +:+ fname in
        modify (fun w => set_files (<[fpath := part_content p]> (files w)) w) ;;
        mret (UpFile (mkFile field orig (part_mimetype p) uploads_dir fname fpath (part_size p)))
  end.

Definition is_digit (c : ascii) : bool := ascii_in "0" "9" c.

(** A client file part for the examples. *)
Definition ex_part (mime : string) (sz : Z) : upload_part :=
  mkPart "resume" "C:\Users\me\cv.pdf" mime (mkBlob sz "cv").

(** ** Lemmas *)


Lemma string_of_uint_digits d : str_forallb is_digit (NilEmpty.string_of_uint d) = true.
Proof. induction d; simpl; rewrite ?IHd; reflexivity. Qed.

(** [String(Date.now())] is made of digits and a sign. *)
Lemma date_now_string_chars t :
  str_forallb (fun c => is_digit c || Ascii.eqb c "-") (date_now_string t) = true.
Proof.
  assert (Hz : forall d, str_forallb is_digit (NilZero.string_of_uint d) = true).
  { intros d. destruct d; [reflexivity|..];
      match goal with |- context [NilZero.string_of_uint ?x] => exact (string_of_uint_digits x) end. }
  assert (Hw : forall s, str_forallb is_digit s = true ->
                 str_forallb (fun c => is_digit c || Ascii.eqb c "-") s = true).
  { intros s. apply str_forallb_impl. intros c ->. reflexivity. }
  unfold date_now_string, NilZero.string_of_int.
  destruct (Z.to_int t) as [d|d]; [apply Hw, Hz|]. simpl. apply Hw, Hz.
Qed.

Lemma date_now_string_no_sep t :
  str_forallb (fun c => negb (is_sep c)) (date_now_string t) = true.
Proof.
  eapply str_forallb_impl; [|apply date_now_string_chars].
  intros c. destruct c as [[] [] [] [] [] [] [] []]; done.
Qed.

Lemma str_existsb_false p s :
  str_existsb p s = false <-> str_forallb (fun c => negb (p c)) s = true.
Proof. unfold str_existsb. destruct (str_forallb _ s); done. Qed.

(** Every path multer writes is free of backslashes. *)
Lemma upload_path_no_backslash t orig :
  str_forallb (fun c => negb (is_backslash c))
    (uploads_dir +:+ storage_filename t (busboy_basename orig)) = true.
Proof.
  assert (Hw : forall s, str_forallb (fun c => negb (is_sep c)) s = true ->
                   str_forallb (fun c => negb (is_backslash c)) s = true).
  { induction s as [|c s IH]; simpl; [done|].
    intros [Hc Hs]%andb_true_iff. rewrite IH by done. unfold is_sep in Hc.
    destruct (is_backslash c); [by rewrite orb_true_r in Hc|done]. }
  unfold storage_filename. rewrite !str_forallb_app. simpl.
  rewrite Hw by apply date_now_string_no_sep.
  rewrite Hw by apply str_existsb_false, busboy_basename_no_sep. done.
Qed.

Lemma upload_single_run field p e w :
  upload_single field (Some p) e w =
    if negb (String.eqb (part_field p) field) then (w, Ok (UpError "Unexpected field"))
    else if negb (fileFilter (part_mimetype p)) then (w, Ok (UpError "Only PDF files are allowed!"))
    else if bool_decide (fileSize_limit < part_size p) then (w, Ok (UpError "File too large"))
    else
      let fname := storage_filename (now e) (busboy_basename (part_filename p)) in
      (set_files (<[uploads_dir +:+ fname := part_content p]> (files w)) w,
       Ok (UpFile (mkFile field (busboy_basename (part_filename p)) (part_mimetype p)
                    uploads_dir fname (uploads_dir +:+ fname) (part_size p)))).
Proof.
  unfold upload_single.
  destruct (negb _); [done|]. destruct (negb _); [done|].
  destruct (bool_decide _); done.
Qed.

#[export] Hint Rewrite upload_single_run : prog_run.

(** What [req.file] says of a stored upload: its name and its path. *)
Lemma upload_single_file field p e w w1 f :
  upload_single field (Some p) e w = (w1, Ok (UpFile f)) ->
  filename f = storage_filename (now e) (busboy_basename (part_filename p)) /\
  path f = uploads_dir +:+ filename f.
Proof.
  rewrite upload_single_run. destruct (negb _); [done|]. destruct (negb _); [done|].
  destruct (bool_decide _); [done|]. by intros [= _ <-].
Qed.

(** C5. multer rejects before anything is written: a part whose MIME
    type is not [application/pdf] fails the [fileFilter], and a PDF over
    5 MiB fails with [LIMIT_FILE_SIZE]; in both cases the upload
    directory is unchanged and the handler is not reached. *)
Theorem upload_single_rejects p e w :
  part_field p = "resume" ->
  (part_mimetype p <> "application/pdf" ->
     upload_single "resume" (Some p) e w = (w, Ok (UpError "Only PDF files are allowed!"))) /\
  (part_mimetype p = "application/pdf" -> fileSize_limit < part_size p ->
     upload_single "resume" (Some p) e w = (w, Ok (UpError "File too large"))).
Proof.
  intros Hf. rewrite upload_single_run, Hf, String.eqb_refl. simpl. split.
  - intros Hm. unfold fileFilter, allowedTypes.
    rewrite bool_decide_eq_false_2; [done|]. rewrite list_elem_of_singleton. exact Hm.
  - intros Hm Hs. rewrite Hm. simpl. by rewrite bool_decide_eq_true_2.
Qed.

Lemma upload_single_rejects_witness :
  upload_single "resume" (Some (ex_part "image/png" 1000)) (mkEnv 0 "" true None "") (mkWorld ∅ ∅ ∅ [])
    = (mkWorld ∅ ∅ ∅ [], Ok (UpError "Only PDF files are allowed!")) /\
  upload_single "resume" (Some (ex_part "application/pdf" (6 * 1024 * 1024)))
    (mkEnv 0 "" true None "") (mkWorld ∅ ∅ ∅ [])
    = (mkWorld ∅ ∅ ∅ [], Ok (UpError "File too large")).
Proof.
  split.
  - apply (upload_single_rejects (ex_part "image/png" 1000) _ _ eq_refl). discriminate.
  - apply (upload_single_rejects (ex_part "application/pdf" (6 * 1024 * 1024)) _ _ eq_refl);
      [reflexivity|vm_compute; reflexivity].
Defined.

(** C13. An accepted part (a PDF of at most 5 MiB, the limit included)
    is written to [uploads/<Date.now()>-<basename>], overwriting any file
    already there, and reported as [req.file] with that path. *)
Theorem upload_single_stores p e w :
  part_field p = "resume" -> part_mimetype p = "application/pdf" ->
  part_size p <= fileSize_limit ->
  upload_single "resume" (Some p) e w =
    (set_files (<[uploads_dir +:+ storage_filename (now e) (busboy_basename (part_filename p))
                   := part_content p]> (files w)) w,
     Ok (UpFile (mkFile "resume" (busboy_basename (part_filename p)) "application/pdf" uploads_dir
                  (storage_filename (now e) (busboy_basename (part_filename p)))
                  (uploads_dir +:+ storage_filename (now e) (busboy_basename (part_filename p)))
                  (part_size p)))).
Proof.
  intros Hf Hm Hs. rewrite upload_single_run, Hf, String.eqb_refl, Hm. simpl.
  rewrite bool_decide_eq_false_2 by lia. reflexivity.
Qed.

Lemma upload_single_stores_witness :
  upload_single "resume" (Some (ex_part "application/pdf" (5 * 1024 * 1024)))
    (mkEnv 1700000000000 "" true None "") (mkWorld ∅ ∅ ∅ [])
    = (mkWorld ∅ ∅ (<["uploads/1700000000000-cv.pdf" := mkBlob (5 * 1024 * 1024) "cv"]> ∅) [],
       Ok (UpFile (mkFile "resume" "cv.pdf" "application/pdf" "uploads/" "1700000000000-cv.pdf"
                    "uploads/1700000000000-cv.pdf" (5 * 1024 * 1024)))).
Proof.
  rewrite (upload_single_stores (ex_part "application/pdf" (5 * 1024 * 1024)) _ _ eq_refl eq_refl);
    [reflexivity|vm_compute; discriminate].
Defined.
