(* ===== verification/Auth.v ===== *)
(** Authentication: the [auth] middleware of [middleware/auth.js] and the
    three handlers of [controllers/authController.js].

    Tokens are symbolic ([JsValue.jwt]): [jwt.sign] records the payload,
    the key, the issue time and the expiry (seconds), and [jwt.verify]
    accepts a signed token under the same key strictly before its expiry,
    returning the payload with [iat] and [exp] added, as jsonwebtoken
    does.  The User model is not in the sources: its documents
    ([Store.user_doc]) and its pre-save password hashing follow the spec
    (a salted one-way hash, here [Store.Hashed]); the unique index on
    [email] makes a second insert of the same address fail. *)

From S2P Require Import Prelude JsValue JobModel Store.

Open Scope Z_scope.

(** ** jsonwebtoken *)

(** Seconds since the epoch: [Math.floor(Date.now() / 1000)]. *)
Definition now_sec (t : Z) : Z := t / 1000.

(** [jwt.sign(payload, secret, { expiresIn: '1h' })] at time [t] (ms). *)
Definition jwt_sign (payload : jval) (secret : string) (t : Z) : jwt :=
  JwtSigned payload secret (now_sec t) (now_sec t + 3600).

Definition with_claims (p : jval) (iat exp : Z) : jval :=
  match p with
  | JObj fs => JObj (fs ++ [("iat", JNum iat); ("exp", JNum exp)])
  | _ => p
  end.

(** [jwt.verify(token, secret)] at time [t] (ms); [None] is a throw. *)
Definition jwt_verify (tok : jwt) (secret : string) (t : Z) : option jval :=
  match tok with
  | JwtSigned p k iat exp =>
      if String.eqb k secret && (now_sec t <? exp) then Some (with_claims p iat exp) else None
  | JwtRaw _ => None
  end.

(** ** The [auth] middleware *)

Inductive auth_result : Type :=
  | AuthOk (user : jval)        (** [req.user] set, [next()] called *)
  | AuthFail (r : response).

Definition header_falsy (h : option jwt) : bool :=
  match h with
  | None => true
  | Some (JwtRaw s) => String.eqb s ""
  | Some (JwtSigned _ _ _ _) => false
  end.

(** [req.user = decoded.user] or [{ id: decoded.userId }] *)
Definition user_of_payload (d : jval) : option jval :=
  if truthy (jget d "user") && truthy (match jget d "user" with Some u => jget u "id" | None => None end)
  then jget d "user"
  else if truthy (jget d "userId")
  then match jget d "userId" with Some v => Some (JObj [("id", v)]) | None => None end
  else None.

(** [auth(req, res, next)] with header [x-auth-token], key [secret] and
    clock [t]. *)
Definition auth (hdr : option jwt) (secret : string) (t : Z) : auth_result :=
  if header_falsy hdr then AuthFail (mkResp 401 (BMsg false "No token, authorization denied"))
  else match hdr with
       | None => AuthFail (mkResp 401 (BMsg false "No token, authorization denied"))
       | Some tok =>
           match jwt_verify tok secret t with
           | None => AuthFail (mkResp 401 (BMsg false "Token is not valid"))
           | Some d =>
               match user_of_payload d with
               | Some u => AuthOk u
               | None => AuthFail (mkResp 401 (BMsg false "Invalid token structure"))
               end
           end
       end.

(** ** The User collection (spec-modelled) *)

Definition all_users (w : world) : list user_doc := (map_to_list (users w)).*2.

(** [User.findOne({ email })] *)
Definition user_findOne (em : string) : M (option user_doc) :=
  w ← get;
  mret (head (List.filter (fun u => bool_decide (email u = Some em)) (all_users w))).

(** [new User({ name, email, password }).save()]: the pre-save hook hashes
    the password; the unique index on [email] rejects a duplicate. *)
Definition user_save (name0 email0 pwd : string) : M user_doc :=
  e ← ask;
  w ← get;
  let u := mkUser (new_oid e) (Some name0) (Some email0) (Hashed (now e) pwd) in
  match users w !! new_oid e,
        List.filter (fun v => bool_decide (email v = Some email0)) (all_users w) with
  | None, [] => modify (set_users (<[new_oid e := u]> (users w))) ;; mret u
  | _, _ => throw EDuplicateKey
  end.

(** [{ user: { id: user._id, name: user.name } }] *)
Definition token_payload (u : user_doc) : jval :=
  JObj [("user", JObj [("id", JStr (uid u)); ("name", match name u with Some n => JStr n | None => JNull end)])].

Definition sign_for (u : user_doc) : M jwt :=
  e ← ask; mret (jwt_sign (token_payload u) (jwt_secret e) (now e)).

(** ** [authController.js] *)

Record cred_body : Type := mkCred { c_name : string; c_email : string; c_password : string }.

(** [exports.register] *)
Definition register (b : cred_body) : M response :=
  catch
    (existing ← user_findOne (c_email b);
     match existing with
     | Some _ => mret (mkResp 400 (BMsg false "User already exists"))
     | None =>
         u ← user_save (c_name b) (c_email b) (c_password b);
         tok ← sign_for u;
         mret (mkResp 201 (BToken tok))
     end)
    (fun _ => mret (mkResp 500 (BMsg false "Server error"))).

(** [exports.login] *)
Definition login (b : cred_body) : M response :=
  catch
    (uo ← user_findOne (c_email b);
     match uo with
     | None => mret (mkResp 401 (BMessage false "Invalid credentials"))
     | Some u =>
         if negb (bcrypt_compare (c_password b) (password u)) then
           mret (mkResp 401 (BMessage false "Invalid credentials"))
         else
           tok ← sign_for u;
           mret (mkResp 200 (BToken tok))
     end)
    (fun _ => mret (mkResp 500 (BMessage false "Login failed"))).

(** [exports.getMe]: [User.findById(req.user.id).select('-password')] *)
Definition getMe (req_user : jval) : M response :=
  catch
    (uo ← user_findById (jget req_user "id");
     match uo with
     | None => mret (mkResp 404 (BMsg false "User not found"))
     | Some u => mret (mkResp 200 (BUser (uid u) (name u) (email u)))
     end)
    (fun _ => mret (mkResp 500 (BMsg false "Server error"))).

(** A password of 72 bytes, bcrypt's limit. *)
Definition ex_pw72 : string :=
  "pppppppppppppppppppppppppppppppppppppppppppppppppppppppppppppppppppppppp".

(** The user [register] creates. *)
Definition registered_user (b : cred_body) (e : env) : user_doc :=
  mkUser (new_oid e) (Some (c_name b)) (Some (c_email b)) (Hashed (now e) (c_password b)).

(** ** Run lemmas *)

Lemma user_findOne_run em e w :
  user_findOne em e w =
    (w, Ok (head (List.filter (fun u => bool_decide (email u = Some em)) (all_users w)))).
Proof. reflexivity. Qed.

Lemma user_save_run n em pwd e w :
  user_save n em pwd e w =
    match users w !! new_oid e,
          List.filter (fun v => bool_decide (email v = Some em)) (all_users w) with
    | None, [] =>
        (set_users (<[new_oid e := mkUser (new_oid e) (Some n) (Some em) (Hashed (now e) pwd)]>
                      (users w)) w,
         Ok (mkUser (new_oid e) (Some n) (Some em) (Hashed (now e) pwd)))
    | _, _ => (w, Throw EDuplicateKey)
    end.
Proof.
  unfold user_save. run_prog.
  destruct (users w !! new_oid e), (List.filter (fun v => bool_decide (email v = Some em)) (all_users w));
    reflexivity.
Qed.

Lemma sign_for_run u e w : sign_for u e w = (w, Ok (jwt_sign (token_payload u) (jwt_secret e) (now e))).
Proof. reflexivity. Qed.

#[export] Hint Rewrite user_findOne_run user_save_run sign_for_run : prog_run.

Lemma register_run b e w :
  register b e w =
    match List.filter (fun u => bool_decide (email u = Some (c_email b))) (all_users w) with
    | _ :: _ => (w, Ok (mkResp 400 (BMsg false "User already exists")))
    | [] =>
        match users w !! new_oid e with
        | Some _ => (w, Ok (mkResp 500 (BMsg false "Server error")))
        | None =>
            (set_users (<[new_oid e := registered_user b e]> (users w)) w,
             Ok (mkResp 201 (BToken (jwt_sign (token_payload (registered_user b e))
                                        (jwt_secret e) (now e)))))
        end
    end.
Proof.
  unfold register. run_prog.
  destruct (List.filter _ _) as [|u l] eqn:Hf; [|reflexivity]. simpl.
  rewrite user_save_run, Hf. destruct (users w !! new_oid e); reflexivity.
Qed.

Lemma login_run b e w :
  login b e w =
    (w, Ok match head (List.filter (fun u => bool_decide (email u = Some (c_email b))) (all_users w)) with
     | None => mkResp 401 (BMessage false "Invalid credentials")
     | Some u =>
         if bcrypt_compare (c_password b) (password u)
         then mkResp 200 (BToken (jwt_sign (token_payload u) (jwt_secret e) (now e)))
         else mkResp 401 (BMessage false "Invalid credentials")
     end).
Proof.
  unfold login. run_prog. destruct (head _) as [u|]; [|reflexivity].
  by destruct (bcrypt_compare _ _).
Qed.

(** The users with a given address after a fresh insert of one. *)
Lemma users_with_email_insert w k u em :
  users w !! k = None -> email u = Some em ->
  List.filter (fun v => bool_decide (email v = Some em)) (all_users w) = [] ->
  List.filter (fun v => bool_decide (email v = Some em))
    (all_users (set_users (<[k := u]> (users w)) w)) = [u].
Proof.
  intros Hk Hu Hf. unfold all_users in *. simpl.
  assert (Hp : (map_to_list (<[k:=u]> (users w))).*2 ≡ₚ u :: (map_to_list (users w)).*2).
  { rewrite map_to_list_insert by done. reflexivity. }
  assert (Hq : List.filter (fun v => bool_decide (email v = Some em))
                 (map_to_list (<[k:=u]> (users w))).*2 ≡ₚ [u]).
  { assert (Hperm : forall l1 l2 : list user_doc, l1 ≡ₚ l2 ->
              List.filter (fun v => bool_decide (email v = Some em)) l1
              ≡ₚ List.filter (fun v => bool_decide (email v = Some em)) l2).
    { intros l1 l2 Hl. induction Hl; simpl; try done.
      - by destruct (bool_decide _); [apply perm_skip|].
      - by destruct (bool_decide (email x = _)), (bool_decide (email y = _)); try constructor.
      - by etrans. }
    rewrite (Hperm _ _ Hp). simpl. rewrite bool_decide_eq_true_2 by done. rewrite Hf. done. }
  symmetry in Hq. apply Permutation_length_1_inv in Hq. exact Hq.
Qed.

Lemma user_of_payload_id d u : user_of_payload d = Some u -> truthy (jget u "id") = true.
Proof.
  unfold user_of_payload. intros H.
  destruct (truthy (jget d "user") && _) eqn:E1.
  - apply andb_true_iff in E1 as [_ E1]. destruct (jget d "user"); simplify_eq. exact E1.
  - destruct (truthy (jget d "userId")) eqn:E2; [|done].
    destruct (jget d "userId"); simplify_eq. exact E2.
Qed.

(** [auth] refuses with 401. *)
Lemma auth_fail_401 h k t r :
  auth h k t = AuthFail r -> exists msg, r = mkResp 401 (BMsg false msg).
Proof. unfold auth. repeat case_match; intros [= <-]; eexists; reflexivity. Qed.

(** What a successful [register] did: the address was free, the new
    user is stored under the fresh ObjectId, and the token is signed for
    it at the request time. *)
Lemma register_created b e w w' tok :
  register b e w = (w', Ok (mkResp 201 (BToken tok))) ->
  users w !! new_oid e = None /\
  w' = set_users (<[new_oid e := registered_user b e]> (users w)) w /\
  tok = jwt_sign (token_payload (registered_user b e)) (jwt_secret e) (now e).
Proof.
  rewrite register_run. destruct (List.filter _ _); [|done].
  destruct (users w !! new_oid e); [done|]. by intros [= <- <-].
Qed.

(** C14. A token issued by [register] authenticates the new user, as
    [req.user = { id, name }], at every time before its expiry one hour
    after issue (in whole seconds), and is refused with "Token is not
    valid" from then on. *)
Theorem register_token_lifetime b e w w' tok t :
  new_oid e <> "" ->
  register b e w = (w', Ok (mkResp 201 (BToken tok))) ->
  users w' !! new_oid e = Some (registered_user b e) /\
  auth (Some tok) (jwt_secret e) t =
    if now_sec t <? now_sec (now e) + 3600
    then AuthOk (JObj [("id", JStr (new_oid e)); ("name", JStr (c_name b))])
    else AuthFail (mkResp 401 (BMsg false "Token is not valid")).
Proof.
  intros Hid. rewrite register_run.
  destruct (List.filter _ _); [|done]. destruct (users w !! new_oid e); [done|].
  intros [= <- <-]. split; [apply lookup_insert_eq|].
  unfold auth, jwt_sign, jwt_verify. simpl. rewrite String.eqb_refl. simpl.
  destruct (now_sec t <? _); [|done]. unfold user_of_payload. simpl.
  destruct (String.eqb_spec (new_oid e) ""); [done|]. reflexivity.
Qed.

Lemma register_token_lifetime_witness :
  exists tok w',
    register (mkCred "A" "a@x.com" "pw") (mkEnv 1700000000000 "aaaaaaaaaaaaaaaaaaaaaaaa" true None "s")
      (mkWorld ∅ ∅ ∅ []) = (w', Ok (mkResp 201 (BToken tok))) /\
    auth (Some tok) "s" 1700000001000 =
      AuthOk (JObj [("id", JStr "aaaaaaaaaaaaaaaaaaaaaaaa"); ("name", JStr "A")]).
Proof.
  destruct (register (mkCred "A" "a@x.com" "pw") (mkEnv 1700000000000 "aaaaaaaaaaaaaaaaaaaaaaaa" true None "s")
              (mkWorld ∅ ∅ ∅ [])) as [w' r] eqn:E.
  pose proof E as E'. vm_compute in E'. injection E' as <- <-.
  do 2 eexists. split; [exact E|].
  assert (Hne : new_oid (mkEnv 1700000000000 "aaaaaaaaaaaaaaaaaaaaaaaa" true None "s") <> "")
    by discriminate.
  destruct (register_token_lifetime _ _ _ _ _ 1700000001000 Hne E) as [_ H2].
  simpl in H2. rewrite H2.
  reflexivity.
Defined.

(** C15. [auth] lets a request through only with a token signed under
    the server's key and not yet expired, and the [req.user] it sets
    always has a truthy [id]: every other header (none, an empty string,
    a forged or garbled string, another key, an expired token) is
    refused with 401. *)
Theorem auth_ok_signed hdr secret t u :
  auth hdr secret t = AuthOk u ->
  exists p iat exp, hdr = Some (JwtSigned p secret iat exp) /\ now_sec t < exp /\
    user_of_payload (with_claims p iat exp) = Some u /\ truthy (jget u "id") = true.
Proof.
  unfold auth. destruct (header_falsy hdr); [done|].
  destruct hdr as [[p k iat exp|s]|]; [|done|done]. simpl.
  destruct (String.eqb_spec k secret) as [->|]; [|done].
  destruct (Z.ltb_spec (now_sec t) exp); [|done]. simpl.
  destruct (user_of_payload _) as [u'|] eqn:Hu; [|done]. intros [= <-].
  exists p, iat, exp. repeat split; try done. by eapply user_of_payload_id.
Qed.

Lemma auth_ok_signed_witness :
  auth (Some (JwtSigned (JObj [("userId", JStr "u1")]) "s" 0 3600)) "s" 1000 =
    AuthOk (JObj [("id", JStr "u1")]) /\ (now_sec 1000 < 3600).
Proof.
  assert (E : auth (Some (JwtSigned (JObj [("userId", JStr "u1")]) "s" 0 3600)) "s" 1000 =
                AuthOk (JObj [("id", JStr "u1")])) by reflexivity.
  split; [exact E|].
  destruct (auth_ok_signed _ _ _ _ E) as (p & iat & exp & Hh & Hlt & _).
  injection Hh as _ _ <-. exact Hlt.
Defined.

(** C16. The legacy payload shape [{ userId }] is accepted: any truthy
    [userId] becomes [req.user = { id: userId }]. *)
Theorem auth_userId_shape secret iat exp t v :
  truthy (Some v) = true -> now_sec t < exp ->
  auth (Some (JwtSigned (JObj [("userId", v)]) secret iat exp)) secret t = AuthOk (JObj [("id", v)]).
Proof.
  intros Hv Ht. unfold auth, jwt_verify. cbn -[truthy]. rewrite String.eqb_refl.
  rewrite (proj2 (Z.ltb_lt _ _) Ht). unfold user_of_payload. cbn -[truthy].
  rewrite Hv. reflexivity.
Qed.

Lemma auth_userId_shape_witness :
  auth (Some (JwtSigned (JObj [("userId", JNum 7)]) "s" 0 3600)) "s" 0 = AuthOk (JObj [("id", JNum 7)]).
Proof. apply auth_userId_shape; reflexivity. Defined.

(** C17. Login after registration: once [register] has stored a user,
    [login] with the same address succeeds, with a token for that user,
    exactly when the password agrees with the registered one on its
    first 72 bytes (all bcrypt hashes), and answers 401 otherwise; it
    changes nothing.  A longer password that differs only after byte 72
    logs in. *)
Theorem login_after_register b e w w' tok n pwd e' :
  register b e w = (w', Ok (mkResp 201 (BToken tok))) ->
  login (mkCred n (c_email b) pwd) e' w' =
    (w', Ok (if String.eqb (bcrypt_input pwd) (bcrypt_input (c_password b))
             then mkResp 200 (BToken (jwt_sign (token_payload (registered_user b e)) (jwt_secret e') (now e')))
             else mkResp 401 (BMessage false "Invalid credentials"))).
Proof.
  rewrite register_run.
  destruct (List.filter _ _) eqn:Hf; [|done]. destruct (users w !! new_oid e) eqn:Hk; [done|].
  intros [= <- _]. rewrite login_run. simpl.
  rewrite (users_with_email_insert w (new_oid e) (registered_user b e) (c_email b) Hk eq_refl Hf).
  simpl. reflexivity.
Qed.

Lemma login_after_register_witness :
  exists w' tok,
    register (mkCred "A" "a@x.com" (ex_pw72 +:+ "X")) (mkEnv 0 "aaaaaaaaaaaaaaaaaaaaaaaa" true None "s")
      (mkWorld ∅ ∅ ∅ []) = (w', Ok (mkResp 201 (BToken tok))) /\
    code (match snd (login (mkCred "" "a@x.com" (ex_pw72 +:+ "Y")) (mkEnv 5 "" true None "s") w')
          with Ok r => r | Throw _ => mkResp 0 (BError "") end) = 200 /\
    login (mkCred "" "a@x.com" "wrong") (mkEnv 5 "" true None "s") w' =
      (w', Ok (mkResp 401 (BMessage false "Invalid credentials"))).
Proof.
  destruct (register (mkCred "A" "a@x.com" (ex_pw72 +:+ "X")) (mkEnv 0 "aaaaaaaaaaaaaaaaaaaaaaaa" true None "s")
              (mkWorld ∅ ∅ ∅ [])) as [w' r] eqn:E.
  pose proof E as E'. vm_compute in E'. injection E' as <- <-.
  do 2 eexists. split; [exact E|]. split.
  - rewrite (login_after_register _ _ _ _ _ _ _ _ E). vm_compute. reflexivity.
  - rewrite (login_after_register _ _ _ _ _ _ _ _ E). reflexivity.
Defined.

(** C18. [register] with an address some user already has answers 400
    "User already exists" and changes nothing. *)
Theorem register_duplicate b e w u :
  u ∈ all_users w -> email u = Some (c_email b) ->
  register b e w = (w, Ok (mkResp 400 (BMsg false "User already exists"))).
Proof.
  intros Hin Hem. rewrite register_run.
  destruct (List.filter _ _) eqn:Hf; [|done].
  exfalso. assert (Hu : In u (List.filter (fun v => bool_decide (email v = Some (c_email b))) (all_users w))).
  { apply filter_In. split; [by apply list_elem_of_In|]. by apply bool_decide_eq_true_2. }
  rewrite Hf in Hu. done.
Qed.

Lemma register_duplicate_witness :
  register (mkCred "B" "a@x.com" "pw2") (mkEnv 0 "bbbbbbbbbbbbbbbbbbbbbbbb" true None "s")
    (mkWorld ∅ (<["aaaaaaaaaaaaaaaaaaaaaaaa" := mkUser "aaaaaaaaaaaaaaaaaaaaaaaa" (Some "A") (Some "a@x.com") (Hashed 0 "pw")]> ∅) ∅ [])
  = (mkWorld ∅ (<["aaaaaaaaaaaaaaaaaaaaaaaa" := mkUser "aaaaaaaaaaaaaaaaaaaaaaaa" (Some "A") (Some "a@x.com") (Hashed 0 "pw")]> ∅) ∅ [],
     Ok (mkResp 400 (BMsg false "User already exists"))).
Proof.
  apply (register_duplicate _ _ _ (mkUser "aaaaaaaaaaaaaaaaaaaaaaaa" (Some "A") (Some "a@x.com") (Hashed 0 "pw")));
    [|reflexivity].
  apply list_elem_of_In. vm_compute. left. reflexivity.
Defined.
