(* ===== verification/JobController.v ===== *)
(** The seven handlers of [controllers/jobController.js], one definition
    each, in the order of the file.  Each handler body is a [try] block
    whose [catch] answers 500 with the handler's message; early
    [return res.status(...)] are the branches that answer 404 or 401.
    The request carries what the middleware produced: [req.user] from
    [auth], [req.file] from [upload.single('resume')], and the text
    fields of the body, each a string or [undefined]. *)

From S2P Require Import Prelude JsValue JobModel Store Upload.

Open Scope Z_scope.

Record job_body : Type := mkBody {
  b_company : option string;
  b_role : option string;
  b_status : option string;
  b_notes : option string;
  b_contact : option string;
  b_source : option string;
  b_interviewDate : option string;
}.

Record job_req : Type := mkJobReq {
  rq_user : jval;            (** [req.user] *)
  rq_id : string;            (** [req.params.id] *)
  rq_status : string;        (** [req.params.status] *)
  rq_body : job_body;        (** [req.body] *)
  rq_file : option mfile;    (** [req.file] *)
}.

(** [req.user.id] *)
Definition req_user_id (rq : job_req) : option jval := jget (rq_user rq) "id".

Definition server_error (msg : string) (_ : exn) : M response :=
  mret (mkResp 500 (BMsg false msg)).

Section Handlers.
Context `{DateParser}.

(** [status === 'interview' ? new Date(interviewDate) : null] *)
Definition interview_date (st idate : option string) : date_val :=
  if ostr_eqb st (Some "interview") then new_date idate else DNull.

(** [const user = await User.findById(req.user.id);
     if (user && user.email) { await transporter.sendMail({...}) }] *)
Definition notify_user (v : option jval) (subject text : string) : M unit :=
  u ← user_findById v;
  match u with
  | Some ud =>
      if str_truthy (email ud) then
        e ← ask;
        send_mail (mkMail (email_user e) (tpl (email ud)) subject text)
      else mret tt
  | None => mret tt
  end.

(** [exports.getJobs] *)
Definition getJobs (rq : job_req) : M response :=
  catch
    (js ← job_find_by_user (req_user_id rq);
     let js := sort_applied_desc js in
     mret (mkResp 200 (BJobs (length js) js)))
    (server_error "Server error while fetching jobs").

Definition add_mail_text (b : job_body) : string :=
  "You added a job application for " +:+ tpl (b_company b) +:+ " - " +:+ tpl (b_role b)
  +:+ " with status " +:+ tpl (b_status b) +:+ ".".

(** The object literal of [new Job({...})] in [addJob]. *)
Definition add_fields (rq : job_req) : job_fields :=
  let b := rq_body rq in
  let resumePath :=
    match rq_file rq with
    | Some f => Some (replace_backslashes (path f))
    | None => None
    end in
  mkJobFields (req_user_id rq) (b_company b) (b_role b) (b_status b)
    (b_notes b) (b_contact b) (b_source b)
    (interview_date (b_status b) (b_interviewDate b)) resumePath.

(** [exports.addJob] *)
Definition addJob (rq : job_req) : M response :=
  catch
    (e ← ask;
     newJob ← lift_model (job_create (new_oid e) (now e) (add_fields rq));
     job ← job_insert newJob;
     notify_user (req_user_id rq) "New Job Application Added" (add_mail_text (rq_body rq)) ;;
     mret (mkResp 201 (BJob (Some job))))
    (server_error "Server error while adding job").

Definition update_mail_text (b : job_body) (oldStatus : string) : string :=
  "The status of your job application for " +:+ tpl (b_company b) +:+ " - "
  +:+ tpl (b_role b) +:+ " has changed from " +:+ oldStatus +:+ " to "
  +:+ tpl (b_status b) +:+ ".".

(** The update document of [findByIdAndUpdate] in [updateJob]. *)
Definition update_set (rq : job_req) (job : job) (t : Z) : job_set :=
  let b := rq_body rq in
  let resumePath :=
    match rq_file rq with Some f => Some (path f) | None => resume job end in
  mkJobSet (b_company b) (b_role b) (b_status b) (b_notes b) (b_contact b) (b_source b)
    (interview_date (b_status b) (b_interviewDate b)) resumePath t.

(** [exports.updateJob] *)
Definition updateJob (rq : job_req) : M response :=
  catch
    (jo ← job_findById (rq_id rq);
     match jo with
     | None => mret (mkResp 404 (BMsg false "Job not found"))
     | Some job =>
         if negb (jstr_eqb (user job) (req_user_id rq)) then
           mret (mkResp 401 (BMsg false "Not authorized to update this job"))
         else
           let oldStatus := status job in
           e ← ask;
           job' ← job_findByIdAndUpdate (rq_id rq) (update_set rq job (now e));
           (if negb (ostr_eqb (Some oldStatus) (b_status (rq_body rq))) then
              notify_user (req_user_id rq) "Job Status Updated"
                (update_mail_text (rq_body rq) oldStatus)
            else mret tt) ;;
           mret (mkResp 200 (BJob job'))
     end)
    (server_error "Server error while updating job").

(** [exports.deleteJob]; [path.join(__dirname, '..', job.resume)]
    addresses the upload directory by the stored relative path. *)
Definition deleteJob (rq : job_req) : M response :=
  catch
    (jo ← job_findById (rq_id rq);
     match jo with
     | None => mret (mkResp 404 (BMsg false "Job not found"))
     | Some job =>
         if negb (jstr_eqb (user job) (req_user_id rq)) then
           mret (mkResp 401 (BMsg false "Not authorized to delete this job"))
         else
           (if str_truthy (resume job) then fs_unlink (tpl (resume job)) else mret tt) ;;
           job_findByIdAndDelete (rq_id rq) ;;
           mret (mkResp 200 (BMsg true "Job removed successfully"))
     end)
    (server_error "Server error while deleting job").

(** [fs.unlink(filePath, cb)] is started and not awaited: its callback
    only logs, and the file may disappear before or after
    [findByIdAndDelete] completes.  [deleteJob] above performs it where
    the code starts it; this is the other order, with the unlink landing
    after the awaited deletion.  [deleteJob_unlink_order] shows that one
    request cannot tell the two apart. *)
Definition deleteJob_unlink_after (rq : job_req) : M response :=
  catch
    (jo ← job_findById (rq_id rq);
     match jo with
     | None => mret (mkResp 404 (BMsg false "Job not found"))
     | Some job =>
         if negb (jstr_eqb (user job) (req_user_id rq)) then
           mret (mkResp 401 (BMsg false "Not authorized to delete this job"))
         else
           job_findByIdAndDelete (rq_id rq) ;;
           (if str_truthy (resume job) then fs_unlink (tpl (resume job)) else mret tt) ;;
           mret (mkResp 200 (BMsg true "Job removed successfully"))
     end)
    (server_error "Server error while deleting job").

(** [exports.getJobsByStatus] *)
Definition getJobsByStatus (rq : job_req) : M response :=
  catch
    (js ← job_find_by_user_status (req_user_id rq) (rq_status rq);
     let js := sort_applied_desc js in
     mret (mkResp 200 (BJobs (length js) js)))
    (server_error "Server error while filtering jobs").

(** [`resume_${job.company}_${job._id}${path.extname(job.resume)}`] *)
Definition download_name (job : job) (r : string) : string :=
  "resume_" +:+ company job +:+ "_" +:+ job_id job +:+ extname r.

(** [exports.downloadResume] *)
Definition downloadResume (rq : job_req) : M response :=
  catch
    (jo ← job_findById (rq_id rq);
     match jo with
     | None => mret (mkResp 404 (BMsg false "Job not found"))
     | Some job =>
         if negb (jstr_eqb (user job) (req_user_id rq)) then
           mret (mkResp 401 (BMsg false "Not authorized to download this resume"))
         else if negb (str_truthy (resume job)) then
           mret (mkResp 404 (BMsg false "Resume not found for this job"))
         else
           let r := tpl (resume job) in
           ex ← fs_existsSync r;
           if negb ex then
             mret (mkResp 404 (BMsg false "Resume file not found on server."))
           else mret (mkResp 200 (BFile r (download_name job r)))
     end)
    (server_error "Server error while downloading resume").

Definition count_status (js : list job) (s : string) : nat :=
  length (List.filter (fun j => String.eqb (status j) s) js).

(** [exports.getJobStats] *)
Definition getJobStats (rq : job_req) : M response :=
  catch
    (js ← job_find_by_user (req_user_id rq);
     mret (mkResp 200 (BStats (count_status js "applied") (count_status js "interview")
                              (count_status js "offer") (count_status js "rejected")
                              (length js))))
    (server_error "Server error while getting job stats").
End Handlers.

(** ** Fixtures for the examples: two users, three jobs, one stored resume *)

Definition ex_uidA : string := "aaaaaaaaaaaaaaaaaaaaaaaa".
Definition ex_uidB : string := "bbbbbbbbbbbbbbbbbbbbbbbb".
Definition ex_id1 : string := "000000000000000000000001".
Definition ex_id2 : string := "000000000000000000000002".
Definition ex_id3 : string := "000000000000000000000003".
Definition ex_id4 : string := "000000000000000000000004".
Definition ex_cv : string := "uploads/100-cv.pdf".

Definition ex_job (id owner st : string) (t : Z) (r : option string) : job :=
  mkJob id owner "Acme" "Eng" st t None None r None None t.

Definition ex_job1 : job := ex_job ex_id1 ex_uidA "applied" 100 (Some ex_cv).
Definition ex_job2 : job :=
  mkJob ex_id2 ex_uidA "Initech" "Dev" "interview" 200 (Some 300) None None None None 200.
Definition ex_job3 : job := ex_job ex_id3 ex_uidB "offer" 150 None.
Definition ex_job_archived : job := ex_job ex_id1 ex_uidA "archived" 100 None.

Definition ex_world : world :=
  mkWorld (<[ex_id1 := ex_job1]> (<[ex_id2 := ex_job2]> (<[ex_id3 := ex_job3]> ∅)))
          (<[ex_uidA := mkUser ex_uidA (Some "A") (Some "a@x.com") (Hashed 1 "pw")]> ∅)
          (<[ex_cv := mkBlob 2048 "cv-A"]> ∅) [].

Definition ex_env : env := mkEnv 1000 ex_id4 true (Some "noreply@x.com") "secret".
Definition ex_env_nomail : env := mkEnv 1000 ex_id4 false (Some "noreply@x.com") "secret".

Definition ex_user (u : string) : jval := JObj [("id", JStr u); ("name", JStr "A")].

Definition ex_body (st : option string) (idate : option string) : job_body :=
  mkBody (Some "Acme") (Some "Eng") st None None None idate.

Definition ex_req (u id : string) (b : job_body) : job_req := mkJobReq (ex_user u) id "applied" b None.

(** ** Effects on the [jobs] collection

    What one handler run can do to the collection, for a caller whose
    [req.user.id] is [v]: nothing; insert a validated document owned by
    the caller under a fresh id; rewrite one of the caller's documents
    keeping its id, owner and [appliedDate]; or delete one of the
    caller's documents. *)

Inductive jobs_effect (v : option jval) (w w' : world) : Prop :=
  | JE_none :
      jobs w' = jobs w -> jobs_effect v w w'
  | JE_create j :
      jobs w !! job_id j = None -> oid_cast_j v = Some (user j) -> job_valid j ->
      jobs w' = <[job_id j := j]> (jobs w) -> jobs_effect v w w'
  | JE_update i j j' :
      jobs w !! i = Some j -> v = Some (JStr (user j)) ->
      job_id j' = job_id j -> user j' = user j -> appliedDate j' = appliedDate j ->
      jobs w' = <[i := j']> (jobs w) -> jobs_effect v w w'
  | JE_delete i j :
      jobs w !! i = Some j -> v = Some (JStr (user j)) ->
      jobs w' = delete i (jobs w) -> jobs_effect v w w'.

(** ** Run lemmas: each handler as a function of the state *)

Section Runs.
Context `{DateParser}.


Lemma notify_user_run v s t e w :
  notify_user v s t e w =
  match oid_cast_j v with
  | None => (w, Throw (EModel (CastError "_id")))
  | Some i =>
      match users w !! i with
      | Some ud =>
          if str_truthy (email ud) then
            if mail_ok e then
              (set_outbox (outbox w ++ [mkMail (email_user e) (tpl (email ud)) s t]) w, Ok tt)
            else (w, Throw EMail)
          else (w, Ok tt)
      | None => (w, Ok tt)
      end
  end.
Proof.
  unfold notify_user. run_prog. destruct (oid_cast_j v); [|done].
  destruct (users w !! s0); [|done]. destruct (str_truthy _); [|done].
  rewrite send_mail_run. done.
Qed.

Lemma getJobs_run rq e w :
  getJobs rq e w =
  (w, Ok match oid_cast_j (req_user_id rq) with
   | Some u =>
       let js := sort_applied_desc (List.filter (fun j => String.eqb (user j) u) (all_jobs w)) in
       mkResp 200 (BJobs (length js) js)
   | None => mkResp 500 (BMsg false "Server error while fetching jobs")
   end).
Proof. unfold getJobs. run_prog. by destruct (oid_cast_j _). Qed.

Lemma addJob_run rq e w :
  addJob rq e w =
  match job_create (new_oid e) (now e) (add_fields rq) with
  | inl _ => (w, Ok (mkResp 500 (BMsg false "Server error while adding job")))
  | inr j =>
      match jobs w !! job_id j with
      | Some _ => (w, Ok (mkResp 500 (BMsg false "Server error while adding job")))
      | None =>
          let w1 := set_jobs (<[job_id j := j]> (jobs w)) w in
          match notify_user (req_user_id rq) "New Job Application Added"
                  (add_mail_text (rq_body rq)) e w1 with
          | (w2, Ok _) => (w2, Ok (mkResp 201 (BJob (Some j))))
          | (w2, Throw _) => (w2, Ok (mkResp 500 (BMsg false "Server error while adding job")))
          end
      end
  end.
Proof.
  unfold addJob. run_prog. destruct (job_create _ _ _) as [m|j]; [reflexivity|].
  rewrite job_insert_run. destruct (jobs w !! job_id j); [reflexivity|].
  destruct (notify_user _ _ _ _ _) as [w2 [[]|x]]; reflexivity.
Qed.

Lemma updateJob_run rq e w :
  updateJob rq e w =
  match oid_cast (rq_id rq) with
  | None => (w, Ok (mkResp 500 (BMsg false "Server error while updating job")))
  | Some i =>
      match jobs w !! i with
      | None => (w, Ok (mkResp 404 (BMsg false "Job not found")))
      | Some job =>
          if negb (jstr_eqb (user job) (req_user_id rq)) then
            (w, Ok (mkResp 401 (BMsg false "Not authorized to update this job")))
          else
            match job_update (update_set rq job (now e)) job with
            | inl _ => (w, Ok (mkResp 500 (BMsg false "Server error while updating job")))
            | inr j' =>
                let w1 := set_jobs (<[i := j']> (jobs w)) w in
                if negb (ostr_eqb (Some (status job)) (b_status (rq_body rq))) then
                  match notify_user (req_user_id rq) "Job Status Updated"
                          (update_mail_text (rq_body rq) (status job)) e w1 with
                  | (w2, Ok _) => (w2, Ok (mkResp 200 (BJob (Some j'))))
                  | (w2, Throw _) =>
                      (w2, Ok (mkResp 500 (BMsg false "Server error while updating job")))
                  end
                else (w1, Ok (mkResp 200 (BJob (Some j'))))
            end
      end
  end.
Proof.
  unfold updateJob. run_prog. destruct (oid_cast (rq_id rq)) as [i|] eqn:Hc; [|reflexivity].
  destruct (jobs w !! i) as [job|] eqn:Hj; [|reflexivity].
  destruct (negb _); [reflexivity|]. rewrite job_findByIdAndUpdate_run, Hc, Hj.
  destruct (job_update _ _) as [m|j']; [reflexivity|].
  destruct (negb _); [|reflexivity].
  destruct (notify_user _ _ _ _ _) as [w2 [[]|x]]; reflexivity.
Qed.

Lemma deleteJob_run rq e w :
  deleteJob rq e w =
  match oid_cast (rq_id rq) with
  | None => (w, Ok (mkResp 500 (BMsg false "Server error while deleting job")))
  | Some i =>
      match jobs w !! i with
      | None => (w, Ok (mkResp 404 (BMsg false "Job not found")))
      | Some job =>
          if negb (jstr_eqb (user job) (req_user_id rq)) then
            (w, Ok (mkResp 401 (BMsg false "Not authorized to delete this job")))
          else
            let w1 := if str_truthy (resume job)
                      then set_files (delete (tpl (resume job)) (files w)) w else w in
            (set_jobs (delete i (jobs w1)) w1,
             Ok (mkResp 200 (BMsg true "Job removed successfully")))
      end
  end.
Proof.
  unfold deleteJob. run_prog. destruct (oid_cast (rq_id rq)) as [i|] eqn:Hc; [|reflexivity].
  destruct (jobs w !! i) as [job|] eqn:Hj; [|reflexivity].
  destruct (negb _); [reflexivity|].
  destruct (str_truthy _); autorewrite with prog_run; rewrite Hc; reflexivity.
Qed.

(** The unlink is not awaited, and where it lands does not matter to the
    request: it touches only the upload directory, the deletion only the
    collection. *)
Lemma deleteJob_unlink_order rq e w : deleteJob rq e w = deleteJob_unlink_after rq e w.
Proof.
  rewrite deleteJob_run. unfold deleteJob_unlink_after. run_prog.
  destruct (oid_cast (rq_id rq)) as [i|] eqn:Hc; [|reflexivity].
  destruct (jobs w !! i) as [job|]; [|reflexivity].
  destruct (negb _); [reflexivity|].
  autorewrite with prog_run. rewrite Hc.
  destruct (str_truthy _); autorewrite with prog_run; by destruct w.
Qed.

Lemma downloadResume_run rq e w :
  downloadResume rq e w =
  (w, Ok match oid_cast (rq_id rq) with
   | None => mkResp 500 (BMsg false "Server error while downloading resume")
   | Some i =>
       match jobs w !! i with
       | None => mkResp 404 (BMsg false "Job not found")
       | Some job =>
           if negb (jstr_eqb (user job) (req_user_id rq)) then
             mkResp 401 (BMsg false "Not authorized to download this resume")
           else if negb (str_truthy (resume job)) then
             mkResp 404 (BMsg false "Resume not found for this job")
           else if bool_decide (is_Some (files w !! tpl (resume job))) then
             mkResp 200 (BFile (tpl (resume job)) (download_name job (tpl (resume job))))
           else mkResp 404 (BMsg false "Resume file not found on server.")
       end
   end).
Proof.
  unfold downloadResume. run_prog. destruct (oid_cast (rq_id rq)) as [i|]; [|reflexivity].
  destruct (jobs w !! i) as [job|]; [|reflexivity].
  destruct (negb _); [reflexivity|]. destruct (negb _); [reflexivity|].
  rewrite fs_existsSync_run. by destruct (bool_decide _).
Qed.

Lemma getJobsByStatus_run rq e w :
  getJobsByStatus rq e w =
  (w, Ok match oid_cast_j (req_user_id rq) with
   | Some u =>
       let js := sort_applied_desc
                   (List.filter (fun j => String.eqb (user j) u && String.eqb (status j) (rq_status rq))
                      (all_jobs w)) in
       mkResp 200 (BJobs (length js) js)
   | None => mkResp 500 (BMsg false "Server error while filtering jobs")
   end).
Proof. unfold getJobsByStatus. run_prog. by destruct (oid_cast_j _). Qed.

Lemma getJobStats_run rq e w :
  getJobStats rq e w =
  (w, Ok match oid_cast_j (req_user_id rq) with
   | Some u =>
       let js := List.filter (fun j => String.eqb (user j) u) (all_jobs w) in
       mkResp 200 (BStats (count_status js "applied") (count_status js "interview")
                         (count_status js "offer") (count_status js "rejected") (length js))
   | None => mkResp 500 (BMsg false "Server error while getting job stats")
   end).
Proof. unfold getJobStats. run_prog. by destruct (oid_cast_j _). Qed.
End Runs.

(** ** Helper lemmas *)

Section Props.
Context `{DateParser}.

Lemma notify_user_frame v s t e w w' x :
  notify_user v s t e w = (w', x) ->
  jobs w' = jobs w /\ users w' = users w /\ files w' = files w.
Proof. rewrite notify_user_run. repeat case_match; intros [= <- _]; done. Qed.

Lemma interview_date_other st d : st <> Some "interview" -> interview_date st d = DNull.
Proof.
  unfold interview_date. intros Hs.
  destruct (ostr_eqb _ _) eqn:E; [by apply ostr_eqb_true in E|done].
Qed.

Lemma count_status_split (js : list job) :
  (count_status js "applied" + count_status js "interview" + count_status js "offer" +
   count_status js "rejected" +
   length (List.filter (fun j => negb (status_valid (status j))) js) = length js)%nat.
Proof.
  induction js as [|j js IH]; [done|]. unfold count_status in *. simpl.
  rewrite status_valid_eqb.
  destruct (String.eqb_spec (status j) "applied") as [E|_]; [rewrite ?E; simpl; lia|].
  destruct (String.eqb_spec (status j) "interview") as [E|_]; [rewrite ?E; simpl; lia|].
  destruct (String.eqb_spec (status j) "offer") as [E|_]; [rewrite ?E; simpl; lia|].
  destruct (String.eqb_spec (status j) "rejected") as [E|_]; [rewrite ?E; simpl; lia|].
  simpl. lia.
Qed.

Lemma interview_date_interview d : interview_date (Some "interview") d = new_date d.
Proof. reflexivity. Qed.

(** What a successful [addJob] did: [save()] accepted the document, whose
    ObjectId was free, and it is stored under it. *)
Lemma addJob_created rq e w w' j :
  addJob rq e w = (w', Ok (mkResp 201 (BJob (Some j)))) ->
  job_create (new_oid e) (now e) (add_fields rq) = inr j /\
  jobs w !! new_oid e = None /\ jobs w' = <[new_oid e := j]> (jobs w).
Proof.
  rewrite addJob_run. destruct (job_create _ _ _) as [m|j0] eqn:Hc; [done|].
  destruct (job_create_ok _ _ _ _ Hc) as (_ & _ & _ & _ & _ & Hid & _).
  rewrite Hid. destruct (jobs w !! new_oid e) eqn:Hl; [done|].
  cbv zeta. destruct (notify_user (req_user_id rq) _ _ e _) as [w2 [u|x]] eqn:Hn; [|done].
  intros [= <- <-]. apply notify_user_frame in Hn as (Hj & _). simpl in Hj. done.
Qed.
End Props.

(** ** Listing *)

(** C1. [getJobs] answers with exactly the caller's records (as a
    permutation of the [user]-filtered collection), newest [appliedDate]
    first, with [count] their number, and changes nothing. *)
Theorem getJobs_own_sorted `{DateParser} rq e w w' n js :
  getJobs rq e w = (w', Ok (mkResp 200 (BJobs n js))) ->
  w' = w /\ n = length js /\
  exists u, oid_cast_j (req_user_id rq) = Some u /\
    js ≡ₚ List.filter (fun j => String.eqb (user j) u) (all_jobs w) /\
    Forall (fun j => user j = u) js /\ StronglySorted applied_desc js.
Proof.
  rewrite getJobs_run. destruct (oid_cast_j _) as [u|]; [|done].
  intros [= -> <- <-]. split; [done|]. split; [done|]. exists u.
  split; [done|]. split; [apply sort_applied_desc_perm|].
  split; [|apply sort_applied_desc_sorted].
  eapply Permutation_Forall; [symmetry; apply sort_applied_desc_perm|].
  apply Forall_filter_true. by intros j ->%String.eqb_eq.
Qed.

Lemma getJobs_own_sorted_witness :
  getJobs (ex_req ex_uidA ex_id1 (ex_body None None)) ex_env ex_world =
    (ex_world, Ok (mkResp 200 (BJobs 2 [ex_job2; ex_job1]))) /\
  Forall (fun j => user j = ex_uidA) [ex_job2; ex_job1].
Proof.
  assert (E : getJobs (ex_req ex_uidA ex_id1 (ex_body None None)) ex_env ex_world =
                (ex_world, Ok (mkResp 200 (BJobs 2 [ex_job2; ex_job1]))))
    by (vm_compute; reflexivity).
  split; [exact E|].
  destruct (getJobs_own_sorted _ _ _ _ _ _ E) as (_ & _ & u & Hu & _ & HF & _).
  vm_compute in Hu. injection Hu as <-. exact HF.
Defined.

(** ** Creating and updating *)

(** C2. A successful [addJob] inserts the new document under the fresh
    ObjectId, with [appliedDate] and [lastUpdated] the request time, and
    with [interviewDate] absent whenever the submitted status is not
    ['interview'], whatever [interviewDate] the client sent. *)
Theorem addJob_interviewDate `{DateParser} rq e w w' j :
  addJob rq e w = (w', Ok (mkResp 201 (BJob (Some j)))) ->
  jobs w !! new_oid e = None /\ jobs w' = <[new_oid e := j]> (jobs w) /\
  job_id j = new_oid e /\ appliedDate j = now e /\ lastUpdated j = now e /\
  (b_status (rq_body rq) <> Some "interview" -> interviewDate j = None).
Proof.
  intros (Hc & Hl & Hj)%addJob_created.
  destruct (job_create_ok _ _ _ _ Hc) as (_ & _ & _ & _ & Hd & Hid & Ha & Hlu & _).
  rewrite <- Hid in *. repeat split; try done. intros Hs. cbn in Hd.
  rewrite interview_date_other in Hd by done. simpl in Hd. congruence.
Qed.

Lemma addJob_interviewDate_witness :
  exists w' j,
    addJob (ex_req ex_uidA "" (ex_body (Some "applied") (Some "2024-01-01"))) ex_env ex_world
      = (w', Ok (mkResp 201 (BJob (Some j)))) /\ interviewDate j = None.
Proof.
  destruct (addJob (ex_req ex_uidA "" (ex_body (Some "applied") (Some "2024-01-01"))) ex_env ex_world)
    as [w' r] eqn:E.
  pose proof E as E'. vm_compute in E'. injection E' as <- <-.
  do 2 eexists. split; [exact E|].
  apply (addJob_interviewDate _ _ _ _ _ E). discriminate.
Defined.

(** C3. A successful [updateJob] rewrites the caller's own document in
    place: owner and [appliedDate] are kept, [lastUpdated] is the request
    time, and [interviewDate] is cleared whenever the submitted status is
    not ['interview'], even if it was set before. *)
Theorem updateJob_interviewDate `{DateParser} rq e w w' j' :
  updateJob rq e w = (w', Ok (mkResp 200 (BJob (Some j')))) ->
  exists i old, oid_cast (rq_id rq) = Some i /\ jobs w !! i = Some old /\
    req_user_id rq = Some (JStr (user old)) /\
    jobs w' = <[i := j']> (jobs w) /\ user j' = user old /\
    appliedDate j' = appliedDate old /\ lastUpdated j' = now e /\
    (b_status (rq_body rq) <> Some "interview" -> interviewDate j' = None).
Proof.
  rewrite updateJob_run. destruct (oid_cast _) as [i|]; [|done].
  destruct (jobs w !! i) as [old|] eqn:Hj; [|done].
  destruct (jstr_eqb _ _) eqn:Ho; [|done]. simpl.
  destruct (job_update _ _) as [m|j0] eqn:Hu; [done|].
  destruct (job_update_ok _ _ _ Hu) as (_ & Huser & Ha & Hd & _ & _ & _ & _ & Hlu).
  assert (Hw : forall w2, jobs w2 = <[i := j0]> (jobs w) ->
            (w2, @Ok exn _ (mkResp 200 (BJob (Some j0)))) = (w', Ok (mkResp 200 (BJob (Some j')))) ->
            exists i0 old0, Some i = Some i0 /\ jobs w !! i0 = Some old0 /\
              req_user_id rq = Some (JStr (user old0)) /\
              jobs w' = <[i0 := j']> (jobs w) /\ user j' = user old0 /\
              appliedDate j' = appliedDate old0 /\ lastUpdated j' = now e /\
              (b_status (rq_body rq) <> Some "interview" -> interviewDate j' = None)).
  { intros w2 Hw2 [= <- <-]. exists i, old. apply jstr_eqb_true in Ho.
    repeat split; try done. intros Hs. cbn in Hd.
    rewrite interview_date_other in Hd by done. simpl in Hd. congruence. }
  destruct (negb _).
  - destruct (notify_user (req_user_id rq) _ _ e _) as [w2 [u|x]] eqn:Hn; [|done].
    apply Hw. apply notify_user_frame in Hn as [-> _]. done.
  - apply Hw. done.
Qed.

Lemma updateJob_interviewDate_witness :
  exists w' j',
    updateJob (ex_req ex_uidA ex_id2 (ex_body (Some "applied") None)) ex_env ex_world
      = (w', Ok (mkResp 200 (BJob (Some j')))) /\ interviewDate j' = None.
Proof.
  destruct (updateJob (ex_req ex_uidA ex_id2 (ex_body (Some "applied") None)) ex_env ex_world)
    as [w' r] eqn:E.
  pose proof E as E'. vm_compute in E'. injection E' as <- <-.
  do 2 eexists. split; [exact E|].
  destruct (updateJob_interviewDate _ _ _ _ _ E) as (i & old & _ & _ & _ & _ & _ & _ & _ & Hd).
  apply Hd. discriminate.
Defined.

(** ** Ownership *)

(** C4. A request on an existing record owned by someone else gets 401
    from [updateJob], [deleteJob] and [downloadResume], and leaves the
    whole state (records, files, outbox) unchanged. *)
Theorem not_owner_forbidden `{DateParser} rq e w i j :
  oid_cast (rq_id rq) = Some i -> jobs w !! i = Some j ->
  req_user_id rq <> Some (JStr (user j)) ->
  updateJob rq e w = (w, Ok (mkResp 401 (BMsg false "Not authorized to update this job"))) /\
  deleteJob rq e w = (w, Ok (mkResp 401 (BMsg false "Not authorized to delete this job"))) /\
  downloadResume rq e w =
    (w, Ok (mkResp 401 (BMsg false "Not authorized to download this resume"))).
Proof.
  intros Hc Hj Ho.
  assert (Hn : jstr_eqb (user j) (req_user_id rq) = false).
  { destruct (jstr_eqb _ _) eqn:E; [|done]. by apply jstr_eqb_true in E. }
  rewrite updateJob_run, deleteJob_run, downloadResume_run, Hc, Hj, Hn. done.
Qed.

Lemma not_owner_forbidden_witness :
  oid_cast ex_id3 = Some ex_id3 /\ jobs ex_world !! ex_id3 = Some ex_job3 /\
  deleteJob (ex_req ex_uidA ex_id3 (ex_body None None)) ex_env ex_world =
    (ex_world, Ok (mkResp 401 (BMsg false "Not authorized to delete this job"))).
Proof.
  assert (Hc : oid_cast ex_id3 = Some ex_id3) by (vm_compute; reflexivity).
  assert (Hj : jobs ex_world !! ex_id3 = Some ex_job3) by (vm_compute; reflexivity).
  split; [exact Hc|]. split; [exact Hj|].
  apply (not_owner_forbidden (ex_req ex_uidA ex_id3 (ex_body None None)) ex_env ex_world
           ex_id3 ex_job3 Hc Hj).
  vm_compute. discriminate.
Defined.

(** ** Deleting *)

(** C6. The owner's [deleteJob] on a record with a resume removes the
    stored file and the record, and answers 200; the record is removed
    whether or not the file still existed. *)
Theorem deleteJob_owner `{DateParser} rq e w i j :
  oid_cast (rq_id rq) = Some i -> jobs w !! i = Some j ->
  req_user_id rq = Some (JStr (user j)) ->
  deleteJob rq e w =
    (mkWorld (delete i (jobs w)) (users w)
       (if str_truthy (resume j) then delete (tpl (resume j)) (files w) else files w)
       (outbox w),
     Ok (mkResp 200 (BMsg true "Job removed successfully"))).
Proof.
  intros Hc Hj Ho. rewrite deleteJob_run, Hc, Hj, Ho. simpl. rewrite String.eqb_refl. simpl.
  by destruct (str_truthy (resume j)).
Qed.

Lemma deleteJob_owner_witness :
  exists w', deleteJob (ex_req ex_uidA ex_id1 (ex_body None None)) ex_env ex_world
               = (w', Ok (mkResp 200 (BMsg true "Job removed successfully"))) /\
             jobs w' !! ex_id1 = None /\ files w' !! ex_cv = None.
Proof.
  assert (Hc : oid_cast ex_id1 = Some ex_id1) by (vm_compute; reflexivity).
  assert (Hj : jobs ex_world !! ex_id1 = Some ex_job1) by (vm_compute; reflexivity).
  pose proof (deleteJob_owner (ex_req ex_uidA ex_id1 (ex_body None None)) ex_env ex_world
                ex_id1 ex_job1 Hc Hj eq_refl) as E.
  eexists. split; [exact E|]. vm_compute. split; reflexivity.
Defined.

(** ** Statistics *)

(** C7. [getJobStats] counts the caller's records: [total] is their
    number, and the four per-status counts plus the records whose status
    is outside the enum add up to [total]. *)
Theorem getJobStats_counts `{DateParser} rq e w w' a i o r t :
  getJobStats rq e w = (w', Ok (mkResp 200 (BStats a i o r t))) ->
  w' = w /\ exists u, oid_cast_j (req_user_id rq) = Some u /\
    let js := List.filter (fun j => String.eqb (user j) u) (all_jobs w) in
    t = length js /\
    (a + i + o + r + length (List.filter (fun j => negb (status_valid (status j))) js) = t)%nat.
Proof.
  rewrite getJobStats_run. destruct (oid_cast_j _) as [u|]; [|done].
  intros [= -> <- <- <- <- <-]. split; [done|]. exists u. split; [done|].
  split; [done|]. apply count_status_split.
Qed.

Lemma getJobStats_counts_witness :
  getJobStats (ex_req ex_uidA ex_id1 (ex_body None None)) ex_env ex_world =
    (ex_world, Ok (mkResp 200 (BStats 1 1 0 0 2))) /\ (1 + 1 + 0 + 0 <= 2)%nat.
Proof.
  assert (E : getJobStats (ex_req ex_uidA ex_id1 (ex_body None None)) ex_env ex_world =
                (ex_world, Ok (mkResp 200 (BStats 1 1 0 0 2)))) by (vm_compute; reflexivity).
  split; [exact E|].
  destruct (getJobStats_counts _ _ _ _ _ _ _ _ _ E) as (_ & u & _ & _ & Hsum). lia.
Defined.

(** ** Findings *)

(** C8. The notification is awaited inside the [try]: when the owner has
    an e-mail address and the mail transport rejects, [addJob] answers
    500 although the record has been saved (the spec requires
    notification failures not to fail the request). *)
Theorem addJob_mail_failure `{DateParser} rq e w j u ud :
  job_create (new_oid e) (now e) (add_fields rq) = inr j ->
  jobs w !! new_oid e = None ->
  oid_cast_j (req_user_id rq) = Some u -> users w !! u = Some ud ->
  str_truthy (email ud) = true -> mail_ok e = false ->
  addJob rq e w =
    (set_jobs (<[new_oid e := j]> (jobs w)) w,
     Ok (mkResp 500 (BMsg false "Server error while adding job"))).
Proof.
  intros Hc Hl Hu Hud Hm Hok.
  destruct (job_create_ok _ _ _ _ Hc) as (_ & _ & _ & _ & _ & Hid & _).
  rewrite addJob_run, Hc, Hid, Hl. cbv zeta. rewrite notify_user_run, Hu. simpl.
  rewrite Hud, Hm, Hok. reflexivity.
Qed.

Lemma addJob_mail_failure_witness :
  exists j, job_create ex_id4 1000 (add_fields (ex_req ex_uidA "" (ex_body None None))) = inr j /\
    jobs (fst (addJob (ex_req ex_uidA "" (ex_body None None)) ex_env_nomail ex_world)) !! ex_id4
      = Some j.
Proof.
  destruct (job_create ex_id4 1000 (add_fields (ex_req ex_uidA "" (ex_body None None)))) as [m|j] eqn:Hc;
    [vm_compute in Hc; discriminate|].
  exists j. split; [reflexivity|].
  rewrite (addJob_mail_failure _ ex_env_nomail ex_world j ex_uidA
             (mkUser ex_uidA (Some "A") (Some "a@x.com") (Hashed 1 "pw")) Hc);
    try (vm_compute; reflexivity).
Defined.

(** C9. [findByIdAndUpdate] runs without validators, so the owner's
    [updateJob] stores whatever it is sent: any status string (also one
    outside the enum), an empty company, and, when [status] is omitted,
    the old status with [interviewDate] cleared, so a record can be in
    status ['interview'] without an interview date. *)
Theorem updateJob_stores_unvalidated `{DateParser} rq e w i j :
  oid_cast (rq_id rq) = Some i -> jobs w !! i = Some j ->
  req_user_id rq = Some (JStr (user j)) ->
  b_status (rq_body rq) <> Some "interview" ->
  exists j', jobs (fst (updateJob rq e w)) !! i = Some j' /\
    status j' = set_opt (b_status (rq_body rq)) (status j) /\
    company j' = set_opt (b_company (rq_body rq)) (company j) /\
    interviewDate j' = None /\ lastUpdated j' = now e.
Proof.
  intros Hc Hj Ho Hs.
  assert (Hu : job_update (update_set rq j (now e)) j =
                 inr (mkJob (job_id j) (user j)
                        (set_opt (b_company (rq_body rq)) (company j))
                        (set_opt (b_role (rq_body rq)) (role j))
                        (set_opt (b_status (rq_body rq)) (status j))
                        (appliedDate j) None
                        (set_opt_field (b_notes (rq_body rq)) (notes j))
                        (js_resume (update_set rq j (now e)))
                        (set_opt_field (b_contact (rq_body rq)) (contact j))
                        (set_opt_field (b_source (rq_body rq)) (source j)) (now e))).
  { unfold job_update. cbn. rewrite interview_date_other by done. reflexivity. }
  rewrite updateJob_run, Hc, Hj, Ho. simpl. rewrite String.eqb_refl. simpl. rewrite Hu.
  eexists. split.
  { destruct (negb _); [|apply lookup_insert_eq].
    destruct (notify_user _ _ _ e _) as [w2 x] eqn:Hn.
    apply notify_user_frame in Hn as [Hw2 _]. destruct x; simpl; rewrite Hw2; apply lookup_insert_eq. }
  repeat split; reflexivity.
Qed.

Lemma updateJob_stores_unvalidated_witness :
  exists j', jobs (fst (updateJob (ex_req ex_uidA ex_id2 (mkBody None None None None None None None))
                          ex_env ex_world)) !! ex_id2 = Some j' /\
             status j' = "interview" /\ interviewDate j' = None.
Proof.
  destruct (updateJob_stores_unvalidated (ex_req ex_uidA ex_id2 (mkBody None None None None None None None))
              ex_env ex_world ex_id2 ex_job2) as (j' & Hl & Hst & _ & Hd & _);
    try (vm_compute; reflexivity); [discriminate|].
  exists j'. split; [exact Hl|]. split; [exact Hst|exact Hd].
Defined.

(** C10. [getJobsByStatus] does not check [req.params.status] against the
    enum (the spec asks for [InvalidArgument]): any status string answers
    200 with exactly the caller's records carrying that string (all of
    them, and no other), newest [appliedDate] first, and changes nothing. *)
Theorem getJobsByStatus_unvalidated `{DateParser} rq e w u :
  oid_cast_j (req_user_id rq) = Some u -> rq_status rq ∉ status_enum ->
  exists js, getJobsByStatus rq e w = (w, Ok (mkResp 200 (BJobs (length js) js))) /\
    js ≡ₚ List.filter (fun j => String.eqb (user j) u && String.eqb (status j) (rq_status rq))
            (all_jobs w) /\
    StronglySorted applied_desc js.
Proof.
  intros Hu _. rewrite getJobsByStatus_run, Hu. eexists. split; [reflexivity|].
  split; [apply sort_applied_desc_perm|apply sort_applied_desc_sorted].
Qed.

Lemma getJobsByStatus_unvalidated_witness :
  exists js,
    getJobsByStatus (mkJobReq (ex_user ex_uidA) ex_id1 "archived" (ex_body None None) None)
      ex_env (set_jobs (<[ex_id1 := ex_job_archived]> (jobs ex_world)) ex_world) =
      (set_jobs (<[ex_id1 := ex_job_archived]> (jobs ex_world)) ex_world,
       Ok (mkResp 200 (BJobs (length js) js))) /\
    js ≡ₚ [ex_job_archived].
Proof.
  destruct (getJobsByStatus_unvalidated (mkJobReq (ex_user ex_uidA) ex_id1 "archived"
              (ex_body None None) None) ex_env
              (set_jobs (<[ex_id1 := ex_job_archived]> (jobs ex_world)) ex_world) ex_uidA)
    as (js & E & Hp & _).
  - reflexivity.
  - rewrite status_enum_spec. intros [x Hx]. vm_compute in Hx. discriminate.
  - exists js. split; [exact E|]. rewrite Hp. vm_compute. reflexivity.
Defined.

(** C11. A [req.params.id] that is not an ObjectId makes [findById]
    throw a [CastError]: [updateJob], [deleteJob] and [downloadResume]
    answer 500 instead of the spec's [NotFound], and change nothing. *)
Theorem malformed_id_server_error `{DateParser} rq e w :
  oid_cast (rq_id rq) = None ->
  updateJob rq e w = (w, Ok (mkResp 500 (BMsg false "Server error while updating job"))) /\
  deleteJob rq e w = (w, Ok (mkResp 500 (BMsg false "Server error while deleting job"))) /\
  downloadResume rq e w = (w, Ok (mkResp 500 (BMsg false "Server error while downloading resume"))).
Proof. intros Hc. rewrite updateJob_run, deleteJob_run, downloadResume_run, Hc. done. Qed.

Lemma malformed_id_server_error_witness :
  oid_cast "42" = None /\
  deleteJob (ex_req ex_uidA "42" (ex_body None None)) ex_env ex_world =
    (ex_world, Ok (mkResp 500 (BMsg false "Server error while deleting job"))).
Proof.
  assert (Hc : oid_cast "42" = None) by reflexivity.
  split; [exact Hc|]. apply (malformed_id_server_error (ex_req ex_uidA "42" (ex_body None None))
                               ex_env ex_world Hc).
Defined.

(** C12. Validation gates creation: when [new Job(...)] fails to
    validate (a missing or empty company or role, a status outside the
    enum, a caller id that is not an ObjectId, or status ['interview']
    with a missing or unparsable [interviewDate]), [addJob] answers 500
    and the state is unchanged: no record, no mail. *)
Theorem addJob_invalid_unchanged `{DateParser} rq e w :
  create_errors (add_fields rq) <> [] ->
  addJob rq e w = (w, Ok (mkResp 500 (BMsg false "Server error while adding job"))).
Proof.
  intros Herr. rewrite addJob_run.
  destruct (job_create _ _ _) as [m|j] eqn:Hc; [reflexivity|].
  destruct (job_create_ok _ _ _ _ Hc) as (_ & _ & _ & _ & _ & _ & _ & _ & _ & _ & _ & _ & Hn).
  contradiction.
Qed.

(** Status ['interview'] without an [interviewDate] is one such case. *)
Lemma addJob_invalid_unchanged_witness :
  addJob (ex_req ex_uidA "" (ex_body (Some "interview") None)) ex_env ex_world =
    (ex_world, Ok (mkResp 500 (BMsg false "Server error while adding job"))).
Proof. apply addJob_invalid_unchanged. vm_compute. discriminate. Defined.

(** ** Every handler's effect on the collection *)

Section Effects.
Context `{DateParser}.

Lemma getJobs_effect rq e w : jobs_effect (req_user_id rq) w (fst (getJobs rq e w)).
Proof. rewrite getJobs_run. by apply JE_none. Qed.

Lemma getJobsByStatus_effect rq e w : jobs_effect (req_user_id rq) w (fst (getJobsByStatus rq e w)).
Proof. rewrite getJobsByStatus_run. by apply JE_none. Qed.

Lemma getJobStats_effect rq e w : jobs_effect (req_user_id rq) w (fst (getJobStats rq e w)).
Proof. rewrite getJobStats_run. by apply JE_none. Qed.

Lemma downloadResume_effect rq e w : jobs_effect (req_user_id rq) w (fst (downloadResume rq e w)).
Proof. rewrite downloadResume_run. by apply JE_none. Qed.

Lemma jobs_effect_same_jobs v x w1 w2 :
  jobs_effect v x w1 -> jobs w2 = jobs w1 -> jobs_effect v x w2.
Proof.
  intros Hx Hj. destruct Hx as [Hx|j Hl Ho Hv Hx|i j j' Hl Ho Hi Hu Ha Hx|i j Hl Ho Hx];
    rewrite <- Hj in Hx.
  - by apply JE_none.
  - by eapply JE_create.
  - by eapply JE_update.
  - by eapply JE_delete.
Qed.

Lemma notify_then_effect v w1 x (k : unit -> response) (k' : response) s t e :
  jobs_effect v x w1 ->
  jobs_effect v x (fst (match notify_user v s t e w1 with
                        | (w2, Ok u) => (w2, @Ok exn _ (k u))
                        | (w2, Throw _) => (w2, Ok k')
                        end)).
Proof.
  intros Hx. destruct (notify_user v s t e w1) as [w2 o] eqn:Hn.
  apply notify_user_frame in Hn as [Hj _].
  destruct o; simpl; by eapply jobs_effect_same_jobs.
Qed.

Lemma addJob_effect rq e w : jobs_effect (req_user_id rq) w (fst (addJob rq e w)).
Proof.
  rewrite addJob_run. destruct (job_create _ _ _) as [m|j] eqn:Hc; [by apply JE_none|].
  destruct (jobs w !! job_id j) eqn:Hl; [by apply JE_none|]. cbv zeta.
  apply notify_then_effect.
  destruct (job_create_ok _ _ _ _ Hc) as (Hu & _).
  eapply JE_create; [exact Hl|exact Hu|by eapply job_create_valid|done].
Qed.

Lemma updateJob_effect rq e w : jobs_effect (req_user_id rq) w (fst (updateJob rq e w)).
Proof.
  rewrite updateJob_run. destruct (oid_cast _) as [i|]; [|by apply JE_none].
  destruct (jobs w !! i) as [j|] eqn:Hj; [|by apply JE_none].
  destruct (jstr_eqb _ _) eqn:Ho; [|by apply JE_none]. simpl.
  destruct (job_update _ _) as [m|j'] eqn:Hu; [by apply JE_none|].
  destruct (job_update_ok _ _ _ Hu) as (Hid & Huser & Ha & _).
  apply jstr_eqb_true in Ho.
  assert (Hx : jobs_effect (req_user_id rq) w (set_jobs (<[i := j']> (jobs w)) w))
    by (eapply JE_update; eauto).
  destruct (negb _); [by apply notify_then_effect|exact Hx].
Qed.

Lemma deleteJob_effect rq e w : jobs_effect (req_user_id rq) w (fst (deleteJob rq e w)).
Proof.
  rewrite deleteJob_run. destruct (oid_cast _) as [i|]; [|by apply JE_none].
  destruct (jobs w !! i) as [j|] eqn:Hj; [|by apply JE_none].
  destruct (jstr_eqb _ _) eqn:Ho; [|by apply JE_none]. simpl.
  apply jstr_eqb_true in Ho.
  eapply JE_delete; [exact Hj|exact Ho|]. by destruct (str_truthy _).
Qed.
End Effects.

(** C25. [downloadResume] serves the owner's stored resume under the name
    [resume_<company>_<_id>] followed by the stored path's extension: for
    a path [p c.ext] whose last segment has a character before the dot and
    an extension without dots or slashes, [path.extname] is [.ext]. *)
Theorem downloadResume_keeps_extension `{DateParser} rq e w i j p c ext :
  oid_cast (rq_id rq) = Some i -> jobs w !! i = Some j ->
  req_user_id rq = Some (JStr (user j)) ->
  resume j = Some ((p +:+ String c "") +:+ String "."%char ext) ->
  is_slash c = false -> ext <> "" -> str_forallb plain ext = true ->
  is_Some (files w !! ((p +:+ String c "") +:+ String "."%char ext)) ->
  downloadResume rq e w =
    (w, Ok (mkResp 200 (BFile ((p +:+ String c "") +:+ String "."%char ext)
                          ("resume_" +:+ company j +:+ "_" +:+ job_id j +:+ String "."%char ext)))).
Proof.
  intros Hc Hj Hu Hr Hs Hne Hpl Hf. rewrite downloadResume_run, Hc, Hj, Hu, Hr.
  cbn [jstr_eqb tpl]. rewrite String.eqb_refl. cbn [negb].
  assert (Hnz : str_truthy (Some ((p +:+ String c "") +:+ String "."%char ext)) = true).
  { simpl. destruct p; reflexivity. }
  rewrite Hnz, bool_decide_eq_true_2 by exact Hf. cbn [negb].
  unfold download_name. rewrite extname_ext by assumption. reflexivity.
Qed.

Lemma downloadResume_keeps_extension_witness :
  downloadResume (ex_req ex_uidA ex_id1 (ex_body None None)) ex_env ex_world =
    (ex_world, Ok (mkResp 200 (BFile ex_cv ("resume_Acme_" +:+ ex_id1 +:+ ".pdf")))).
Proof.
  exact (downloadResume_keeps_extension (ex_req ex_uidA ex_id1 (ex_body None None)) ex_env ex_world
           ex_id1 ex_job1 "uploads/100-c" "v" "pdf"
           eq_refl eq_refl eq_refl eq_refl eq_refl ltac:(discriminate) eq_refl
           ltac:(vm_compute; eexists; reflexivity)).
Defined.

(** C32. A resume replaced by [updateJob] is left behind: when the owner
    updates a record with a new file, the record points at the new file
    and the upload directory is unchanged by the handler, so the old file
    stays stored with no record referring to it (the open question of the
    spec's design notes). *)
Theorem updateJob_orphans_old_resume `{DateParser} rq e w w' j' f :
  rq_file rq = Some f ->
  updateJob rq e w = (w', Ok (mkResp 200 (BJob (Some j')))) ->
  resume j' = Some (path f) /\ files w' = files w.
Proof.
  intros Hf. rewrite updateJob_run. destruct (oid_cast _) as [i|]; [|done].
  destruct (jobs w !! i) as [old|]; [|done]. destruct (negb _); [done|].
  destruct (job_update _ _) as [m|j0] eqn:Hu; [done|].
  destruct (job_update_ok _ _ _ Hu) as (_ & _ & _ & _ & _ & _ & _ & Hr & _).
  cbn [update_set js_resume] in Hr. rewrite Hf in Hr.
  destruct (negb _).
  - cbv zeta. match goal with |- context [notify_user ?v ?s ?t ?e0 ?w0] =>
      destruct (notify_user v s t e0 w0) as [w2 [x|x]] eqn:Hn; [|done] end.
    apply notify_user_frame in Hn as (_ & _ & Hw2). intros [= <- <-]. done.
  - intros [= <- <-]. done.
Qed.

Lemma updateJob_orphans_old_resume_witness :
  exists w', updateJob (mkJobReq (ex_user ex_uidA) ex_id1 "applied" (ex_body (Some "offer") None)
                          (Some (mkFile "resume" "cv2.pdf" "application/pdf" "uploads/"
                                   "2000-cv2.pdf" "uploads/2000-cv2.pdf" 10)))
               ex_env ex_world = (w', Ok (mkResp 200 (BJob (Some
                 (mkJob ex_id1 ex_uidA "Acme" "Eng" "offer" 100 None None
                    (Some "uploads/2000-cv2.pdf") None None 1000))))) /\
    files w' !! ex_cv = Some (mkBlob 2048 "cv-A").
Proof.
  set (f := mkFile "resume" "cv2.pdf" "application/pdf" "uploads/" "2000-cv2.pdf"
              "uploads/2000-cv2.pdf" 10).
  set (rq := mkJobReq (ex_user ex_uidA) ex_id1 "applied" (ex_body (Some "offer") None) (Some f)).
  destruct (updateJob rq ex_env ex_world) as [w' o] eqn:E.
  assert (Ho : o = Ok (mkResp 200 (BJob (Some (mkJob ex_id1 ex_uidA "Acme" "Eng" "offer" 100 None
                 None (Some "uploads/2000-cv2.pdf") None None 1000)))))
    by (vm_compute in E; injection E as _ <-; reflexivity).
  subst o. exists w'. split; [reflexivity|].
  destruct (updateJob_orphans_old_resume rq ex_env ex_world w' _ f eq_refl E) as [_ ->].
  reflexivity.
Defined.

(** C33. The status-change mail of [updateJob] is sent exactly when
    [req.body.status !== oldStatus]: for the owner's successful update,
    when the owner has an address and the transport accepts, the outbox
    gains one "Job Status Updated" mail to the owner if the body's status
    differs from the stored one, and none otherwise, and the answer is
    200 with the updated record.  An update that omits [status] keeps the
    stored status yet compares [undefined] with it, so it mails "has
    changed from <old> to undefined". *)
Theorem updateJob_status_mail `{DateParser} rq e w i j j' u ud :
  oid_cast (rq_id rq) = Some i -> jobs w !! i = Some j ->
  jstr_eqb (user j) (req_user_id rq) = true ->
  job_update (update_set rq j (now e)) j = inr j' ->
  oid_cast_j (req_user_id rq) = Some u -> users w !! u = Some ud ->
  str_truthy (email ud) = true -> mail_ok e = true ->
  updateJob rq e w =
    (set_outbox (outbox w ++
       (if ostr_eqb (Some (status j)) (b_status (rq_body rq)) then []
        else [mkMail (email_user e) (tpl (email ud)) "Job Status Updated"
                (update_mail_text (rq_body rq) (status j))]))
       (set_jobs (<[i := j']> (jobs w)) w),
     Ok (mkResp 200 (BJob (Some j')))).
Proof.
  intros Hc Hj Ho Hu Hv Hud Hm Hok. rewrite updateJob_run, Hc, Hj, Ho. cbn [negb]. rewrite Hu.
  cbv zeta. destruct (ostr_eqb _ _); cbn [negb].
  - destruct w. cbn. by rewrite app_nil_r.
  - rewrite notify_user_run, Hv. cbn [users set_jobs]. rewrite Hud, Hm, Hok. reflexivity.
Qed.

Lemma updateJob_status_mail_witness :
  let rq := ex_req ex_uidA ex_id1 (mkBody (Some "Acme") (Some "Eng") None None None None None) in
  exists j', status j' = status ex_job1 /\
    updateJob rq ex_env ex_world =
      (set_outbox (outbox ex_world ++
         [mkMail (Some "noreply@x.com") "a@x.com" "Job Status Updated"
            "The status of your job application for Acme - Eng has changed from applied to undefined."])
         (set_jobs (<[ex_id1 := j']> (jobs ex_world)) ex_world),
       Ok (mkResp 200 (BJob (Some j')))).
Proof.
  intros rq. destruct (job_update (update_set rq ex_job1 (now ex_env)) ex_job1) as [m|j'] eqn:Hu;
    [vm_compute in Hu; discriminate|].
  exists j'. split; [by destruct (job_update_ok _ _ _ Hu) as (_ & _ & _ & _ & -> & _)|].
  rewrite (updateJob_status_mail rq ex_env ex_world ex_id1 ex_job1 j' ex_uidA
             (mkUser ex_uidA (Some "A") (Some "a@x.com") (Hashed 1 "pw")));
    first [exact Hu|vm_compute; reflexivity].
Defined.

(** C35. Records created through [addJob] have the schema's types: the
    owner is the caller's ObjectId, company and role are non-empty, the
    status is one of the enum, and a record created in status
    ['interview'] carries an interview date (with C2, [interviewDate] is
    present exactly when the status is ['interview'] at creation). *)
Theorem addJob_creates_valid `{DateParser} rq e w w' j :
  addJob rq e w = (w', Ok (mkResp 201 (BJob (Some j)))) ->
  job_valid j /\ oid_cast_j (req_user_id rq) = Some (user j) /\
  (status j = "interview" -> is_Some (interviewDate j)).
Proof.
  intros (Hc & _ & _)%addJob_created. split; [by eapply job_create_valid|].
  destruct (job_create_ok _ _ _ _ Hc) as (Hu & _ & _ & Hs & Hd & _). split; [exact Hu|].
  intros Hi. rewrite Hi in Hs. cbn in Hs, Hd.
  destruct (b_status (rq_body rq)) as [st|]; cbn in Hs; [subst st|discriminate].
  rewrite interview_date_interview in Hd. unfold new_date in Hd.
  destruct (b_interviewDate _) as [d|]; [|discriminate].
  destruct (date_parse d); [|discriminate]. injection Hd as <-. by eexists.
Qed.

Lemma addJob_creates_valid_witness :
  exists w' j,
    addJob (ex_req ex_uidA "" (ex_body (Some "interview") (Some "2024-01-01"))) ex_env ex_world
      = (w', Ok (mkResp 201 (BJob (Some j)))) /\ is_Some (interviewDate j).
Proof.
  destruct (addJob (ex_req ex_uidA "" (ex_body (Some "interview") (Some "2024-01-01"))) ex_env ex_world)
    as [w' o] eqn:E.
  pose proof E as E'. vm_compute in E'. injection E' as _ <-.
  do 2 eexists. split; [reflexivity|].
  apply (addJob_creates_valid _ _ _ _ _ E). reflexivity.
Defined.
