(* ===== verification/Spec.v ===== *)
(** The Job Service of the specification (spec.md, sections 3 and 4.5),
    independently of the code: an abstract record store (a finite map
    from record id to record), the operations a caller can request, the
    results the specification names, and [svc_step], the relation saying
    which result and which new store the specification allows for an
    operation of caller [u] at time [now], with [fresh] the id a new
    record receives and [fs] the attachment store.  [spec_inv] is the
    data-model invariant of the store (records stored under their id,
    status in the enum), and [svc_step] preserves it.  [Refinement.v]
    proves that the handlers implement this relation. *)

From S2P Require Import Prelude JsValue JobModel Store JobController.

Open Scope Z_scope.

(** The operations of the Job Service, with the request data each takes:
    the form fields and the reference of an attachment already saved by
    the Attachment Store. *)
Inductive svc_op : Type :=
  | OpList
  | OpListStatus (st : string)
  | OpStats
  | OpAdd (b : job_body) (file : option string)
  | OpUpdate (id : string) (b : job_body) (file : option string)
  | OpDelete (id : string)
  | OpDownload (id : string).

(** The results the specification names: data, or a failure of the
    error taxonomy of section 7 ([SOther] is any other failure). *)
Inductive svc_result : Type :=
  | SJobs (js : list job)
  | SJob (j : job)
  | SStats (applied interview offer rejected total : nat)
  | SRemoved
  | SFile (ref name : string)
  | SNotFound
  | SForbidden
  | SInvalid
  | SOther.

(** The data-model invariant: each record is stored under its own id and
    its status is one of the enum. *)
Definition spec_inv (S : gmap string job) : Prop :=
  map_Forall (fun k j => job_id j = k /\ status j ∈ status_enum) S.

Section Spec.
Context `{DateParser}.
Variables (u : string) (now : Z) (fresh : string) (fs : gmap string blob).

(** [listByOwner(u)]: the records owned by [u], in any order. *)
Definition owned (S : gmap string job) : list job :=
  List.filter (fun j => bool_decide (user j = u)) (map_to_list S).*2.

Definition spec_count (S : gmap string job) (st : string) : nat :=
  length (List.filter (fun j => bool_decide (status j = st)) (owned S)).

(** The status-gated interview date: the parsed date when the status is
    ['interview'], absent otherwise. *)
Definition spec_interview (b : job_body) (d : option Z) : Prop :=
  (b_status b = Some "interview" ->
     exists s t, b_interviewDate b = Some s /\ date_parse s = Some t /\ d = Some t) /\
  (b_status b <> Some "interview" -> d = None).

(** The record [addJob] creates. *)
Definition spec_new (b : job_body) (file : option string) (c r : string) (d : option Z) : job :=
  mkJob fresh u c r (status_default (b_status b)) now d
    (b_notes b) file (b_contact b) (b_source b) now.

(** The record a full-record [updateJob] writes over [j]: every field as
    supplied, owner and [appliedDate] kept, the attachment replaced only
    when a new one is supplied, [lastUpdated] the request time. *)
Definition spec_updated (id : string) (j : job) (b : job_body) (file : option string)
    (c r st : string) (d : option Z) : job :=
  mkJob id (user j) c r st (appliedDate j) d (b_notes b)
    (match file with Some p => Some p | None => resume j end)
    (b_contact b) (b_source b) now.

Definition download_label (j : job) (id p : string) : string :=
  "resume_" +:+ company j +:+ "_" +:+ id +:+ extname p.

Definition targets (op : svc_op) : option string :=
  match op with
  | OpUpdate id _ _ | OpDelete id | OpDownload id => Some id
  | _ => None
  end.

Inductive svc_step : gmap string job -> svc_op -> svc_result -> gmap string job -> Prop :=
  | sv_list S js :
      js ≡ₚ owned S -> StronglySorted applied_desc js ->
      svc_step S OpList (SJobs js) S
  | sv_list_status S st js :
      st ∈ status_enum ->
      js ≡ₚ List.filter (fun j => bool_decide (status j = st)) (owned S) ->
      StronglySorted applied_desc js ->
      svc_step S (OpListStatus st) (SJobs js) S
  | sv_list_status_invalid S st :
      st ∉ status_enum -> svc_step S (OpListStatus st) SInvalid S
  | sv_stats S :
      svc_step S OpStats
        (SStats (spec_count S "applied") (spec_count S "interview") (spec_count S "offer")
                (spec_count S "rejected")
                (spec_count S "applied" + spec_count S "interview" + spec_count S "offer"
                 + spec_count S "rejected")) S
  | sv_add S b file c r d :
      b_company b = Some c -> c <> "" -> b_role b = Some r -> r <> "" ->
      status_default (b_status b) ∈ status_enum -> spec_interview b d ->
      S !! fresh = None ->
      svc_step S (OpAdd b file) (SJob (spec_new b file c r d))
        (<[fresh := spec_new b file c r d]> S)
  | sv_add_invalid S b file :
      ~ str_truthy (b_company b) \/ ~ str_truthy (b_role b) \/
      status_default (b_status b) ∉ status_enum ->
      svc_step S (OpAdd b file) SInvalid S
  | sv_not_found S op id :
      targets op = Some id -> S !! id = None -> svc_step S op SNotFound S
  | sv_forbidden S op id j :
      targets op = Some id -> S !! id = Some j -> user j <> u -> svc_step S op SForbidden S
  | sv_update S id j b file c r st d :
      S !! id = Some j -> user j = u ->
      b_company b = Some c -> c <> "" -> b_role b = Some r -> r <> "" ->
      b_status b = Some st -> st ∈ status_enum -> spec_interview b d ->
      svc_step S (OpUpdate id b file) (SJob (spec_updated id j b file c r st d))
        (<[id := spec_updated id j b file c r st d]> S)
  | sv_delete S id j :
      S !! id = Some j -> user j = u -> svc_step S (OpDelete id) SRemoved (delete id S)
  | sv_download S id j p :
      S !! id = Some j -> user j = u -> resume j = Some p -> p <> "" -> is_Some (fs !! p) ->
      svc_step S (OpDownload id) (SFile p (download_label j id p)) S
  | sv_download_missing S id j :
      S !! id = Some j -> user j = u ->
      (forall p, resume j = Some p -> p <> "" -> fs !! p = None) ->
      svc_step S (OpDownload id) SNotFound S.
End Spec.

(** ** The specification keeps the data-model invariant *)

Lemma spec_inv_insert S k j :
  spec_inv S -> job_id j = k -> status j ∈ status_enum -> spec_inv (<[k := j]> S).
Proof. intros HS Hk Hs. apply map_Forall_insert_2; [done|exact HS]. Qed.

Lemma spec_inv_delete S k : spec_inv S -> spec_inv (delete k S).
Proof. apply map_Forall_delete. Qed.

#[export] Hint Resolve spec_inv_insert spec_inv_delete : tracker.

(** Every operation the specification allows keeps its data-model
    invariant: records stay stored under their own id with a status of
    the enum (new records get the default or a valid status, updates
    require one). *)
Theorem svc_step_inv `{DateParser} u now fresh fs S op res S' :
  spec_inv S -> svc_step u now fresh fs S op res S' -> spec_inv S'.
Proof.
  intros HS Hst. destruct Hst; eauto with tracker.
Qed.
