(* ===== verification/Server.v ===== *)
(** The server: [routes/jobRoutes.js] mounted at [/api/jobs] by
    [server.js], which runs [auth], then [upload.single('resume')] for
    [POST /] and [PUT /:id], then the handler; and the [/api/auth] routes
    of the spec's interface table ([routes/authRoutes.js] is not in the
    sources).  A step of the server is one request served at a given
    environment; [reachable] is the closure of steps from the empty
    state.  The theorems: every handler's effect on the collection is one
    of [JobController.jobs_effect], from which follow isolation between
    users, immutability of owners and [appliedDate], and the invariant
    of reachable states. *)

From S2P Require Import Prelude JsValue JobModel Store Upload Auth JobController.

Open Scope Z_scope.

Inductive meth : Type := GET | POST | PUT | DELETE.

#[export] Instance meth_eq_dec : EqDecision meth.
Proof. solve_decision. Defined.

Inductive job_route : Type :=
  | RGetJobs
  | RAddJob
  | RUpdateJob (id : string)
  | RDeleteJob (id : string)
  | RJobsByStatus (st : string)
  | RResume (id : string)
  | RStats.

(** Express's path matching (Express 4, [path-to-regexp] with its
    defaults [sensitive: false] and [strict: false]): literal segments
    are compared without regard to ASCII case, and one trailing slash
    (a last empty segment) is ignored. *)
Definition ascii_lower (c : ascii) : ascii :=
  if ascii_in "A" "Z" c then ascii_of_nat (nat_of_ascii c + 32) else c.

Definition lit_eq (s lit : string) : bool := String.eqb (str_map ascii_lower s) lit.

Definition strip_slash (segs : list string) : list string :=
  match last segs with
  | Some "" => removelast segs
  | _ => segs
  end.

(** The route table of [jobRoutes.js], on the path segments after
    [/api/jobs]; [:id] and [:status] match one non-empty segment, kept
    as written. *)
Definition route_of (m : meth) (segs : list string) : option job_route :=
  match m, strip_slash segs with
  | GET, [] => Some RGetJobs
  | POST, [] => Some RAddJob
  | PUT, [id] => if String.eqb id "" then None else Some (RUpdateJob id)
  | DELETE, [id] => if String.eqb id "" then None else Some (RDeleteJob id)
  | GET, [s] => if lit_eq s "stats" then Some RStats else None
  | GET, [s; p] =>
      if String.eqb p "" then None
      else if lit_eq s "status" then Some (RJobsByStatus p)
      else if lit_eq s "resume" then Some (RResume p)
      else None
  | _, _ => None
  end.

Definition route_uploads (r : job_route) : bool :=
  match r with RAddJob | RUpdateJob _ => true | _ => false end.

Definition route_id (r : job_route) : string :=
  match r with RUpdateJob i | RDeleteJob i | RResume i => i | _ => "" end.

Definition route_status (r : job_route) : string :=
  match r with RJobsByStatus s => s | _ => "" end.

(** The pattern each route is declared with in [jobRoutes.js]: literal
    segments and parameters ([PParam v] for the value [v] it captured). *)
Inductive seg_pat : Type := PLit (l : string) | PParam (v : string).

Definition route_pattern (r : job_route) : meth * list seg_pat :=
  match r with
  | RGetJobs => (GET, [])
  | RAddJob => (POST, [])
  | RUpdateJob id => (PUT, [PParam id])
  | RDeleteJob id => (DELETE, [PParam id])
  | RJobsByStatus st => (GET, [PLit "status"; PParam st])
  | RResume id => (GET, [PLit "resume"; PParam id])
  | RStats => (GET, [PLit "stats"])
  end.

(** What a pattern segment matches: a literal, in any case; a
    parameter, the non-empty segment it captures. *)
Definition seg_matches (p : seg_pat) (a : string) : Prop :=
  match p with
  | PLit l => lit_eq a l = true
  | PParam v => a = v /\ v <> ""
  end.

Section Routing.
Context `{DateParser}.

Definition route_handler (r : job_route) : job_req -> M response :=
  match r with
  | RGetJobs => getJobs
  | RAddJob => addJob
  | RUpdateJob _ => updateJob
  | RDeleteJob _ => deleteJob
  | RJobsByStatus _ => getJobsByStatus
  | RResume _ => downloadResume
  | RStats => getJobStats
  end.
End Routing.

Record request : Type := mkRequest {
  r_method : meth;
  r_path : list string;
  r_token : option jwt;           (** the [x-auth-token] header *)
  r_body : job_body;
  r_part : option upload_part;    (** the multipart file part, if any *)
}.

Inductive api_request : Type :=
  | JobsApi (rq : request)
  | RegisterApi (b : cred_body)
  | LoginApi (b : cred_body)
  | MeApi (tok : option jwt).

Section Serving.
Context `{DateParser}.

(** A request to [/api/jobs]. *)
Definition serve_jobs (rq : request) : M response :=
  match route_of (r_method rq) (r_path rq) with
  | None => mret (mkResp 404 (BError "Not Found"))
  | Some rt =>
      e ← ask;
      match auth (r_token rq) (jwt_secret e) (now e) with
      | AuthFail r => mret r
      | AuthOk u =>
          up ← (if route_uploads rt then upload_single "resume" (r_part rq) else mret UpNone);
          let mk f := mkJobReq u (route_id rt) (route_status rt) (r_body rq) f in
          match up with
          | UpError msg => mret (mkResp 500 (BError msg))
          | UpFile f => route_handler rt (mk (Some f))
          | UpNone => route_handler rt (mk None)
          end
      end
  end.

(** The whole API. *)
Definition serve (a : api_request) : M response :=
  match a with
  | JobsApi rq => serve_jobs rq
  | RegisterApi b => register b
  | LoginApi b => login b
  | MeApi t =>
      e ← ask;
      match auth t (jwt_secret e) (now e) with
      | AuthFail r => mret r
      | AuthOk u => getMe u
      end
  end.

(** The [req.user.id] a request is served under, if it passes [auth]. *)
Definition caller (a : api_request) (e : env) : option jval :=
  match a with
  | JobsApi rq =>
      match route_of (r_method rq) (r_path rq), auth (r_token rq) (jwt_secret e) (now e) with
      | Some _, AuthOk u => jget u "id"
      | _, _ => None
      end
  | _ => None
  end.

Definition empty_world : world := mkWorld ∅ ∅ ∅ [].

(** One request served with a fixed signing key; the environment's
    ObjectId is a well-formed one. *)
Inductive step (secret : string) : world -> env -> api_request -> response -> world -> Prop :=
  | step_serve w e a w' r :
      jwt_secret e = secret -> oid_valid (new_oid e) = true ->
      serve a e w = (w', Ok r) -> step secret w e a r w'.

Inductive reachable (secret : string) : world -> Prop :=
  | reach_init : reachable secret empty_world
  | reach_step w e a r w' : reachable secret w -> step secret w e a r w' -> reachable secret w'.

(** Serving a list of requests in order. *)
Fixpoint serve_all (rs : list (env * api_request)) (w : world) : world * list response :=
  match rs with
  | [] => (w, [])
  | (e, a) :: rs' =>
      let '(w1, o) := serve a e w in
      let r := match o with Ok r => r | Throw _ => mkResp 500 (BError "Internal Server Error") end in
      let '(w2, out) := serve_all rs' w1 in
      (w2, r :: out)
  end.
End Serving.

(** A program state answers: it returned a value rather than throwing. *)
Definition answers {A} (x : world * outcome exn A) : Prop := exists a, snd x = Ok a.

(** The status codes of the interface table (spec.md, section 6) and of
    the error taxonomy (section 7). *)
Definition api_codes : list Z := [200; 201; 400; 401; 404; 500].

(** A request is answered with one of those codes. *)
Definition answers_api (x : world * outcome exn response) : Prop :=
  exists r, snd x = Ok r /\ code r ∈ api_codes.

(** ** Fixtures: the sessions of users A and B *)

Definition ex_secret : string := "secret".

Definition ex_tokA : jwt :=
  jwt_sign (JObj [("user", JObj [("id", JStr ex_uidA); ("name", JStr "A")])]) ex_secret 1000.

Definition ex_tokB : jwt :=
  jwt_sign (JObj [("user", JObj [("id", JStr ex_uidB); ("name", JStr "B")])]) ex_secret 1000.

Definition env_at (t : Z) (oid : string) : env := mkEnv t oid true (Some "noreply@x.com") ex_secret.

Definition no_body : job_body := mkBody None None None None None None None.

Definition jobs_req (tok : jwt) (m : meth) (segs : list string) (b : job_body) : api_request :=
  JobsApi (mkRequest m segs (Some tok) b None).

(** User B's record whose resume was uploaded as [cv.pdf] at time
    1000, and A's request adding a job with a file of the same name in the
    same millisecond. *)
Definition ex_cv_path : string := "uploads/1000-cv.pdf".

Definition ex_world_B : world :=
  mkWorld (<[ex_id3 := ex_job ex_id3 ex_uidB "applied" 900 (Some ex_cv_path)]> ∅) ∅
          (<[ex_cv_path := mkBlob 2048 "cv-B"]> ∅) [].

Definition ex_post_cv : api_request :=
  JobsApi (mkRequest POST [] (Some ex_tokA) (ex_body (Some "applied") None)
             (Some (mkPart "resume" "cv.pdf" "application/pdf" (mkBlob 4096 "cv-A")))).

(** The invariant of reachable states: every record is stored under its
    own [_id] and is owned by a well-formed ObjectId. *)
Definition jobs_wf (w : world) : Prop :=
  forall k j, jobs w !! k = Some j -> job_id j = k /\ oid_valid (user j) = true.

(** ** Effects of serving one request *)

Lemma jobs_effect_src v w w1 w2 :
  jobs_effect v w1 w2 -> jobs w1 = jobs w -> jobs_effect v w w2.
Proof.
  intros Hx Hj. destruct Hx as [Hx|j Hl Ho Hv Hx|i j j' Hl Ho Hi Hu Ha Hx|i j Hl Ho Hx];
    rewrite Hj in *.
  - by apply JE_none.
  - by eapply JE_create.
  - by eapply JE_update.
  - by eapply JE_delete.
Qed.

Lemma upload_single_jobs f p e w : jobs (fst (upload_single f p e w)) = jobs w.
Proof.
  destruct p as [p|]; [|reflexivity]. rewrite upload_single_run.
  repeat (destruct (negb _); [reflexivity|]). by destruct (bool_decide _).
Qed.

Lemma getMe_state u e w : fst (getMe u e w) = w.
Proof.
  unfold getMe. run_prog. destruct (oid_cast_j _); [|reflexivity].
  by destruct (users w !! _).
Qed.

Lemma register_jobs b e w : jobs (fst (register b e w)) = jobs w.
Proof.
  rewrite register_run. destruct (List.filter _ _); [|reflexivity].
  by destruct (users w !! new_oid e).
Qed.

Section ServeEffect.
Context `{DateParser}.

Lemma route_handler_effect rt rq e w :
  jobs_effect (req_user_id rq) w (fst (route_handler rt rq e w)).
Proof.
  destruct rt; simpl.
  - apply getJobs_effect.
  - apply addJob_effect.
  - apply updateJob_effect.
  - apply deleteJob_effect.
  - apply getJobsByStatus_effect.
  - apply downloadResume_effect.
  - apply getJobStats_effect.
Qed.

Lemma serve_effect a e w : jobs_effect (caller a e) w (fst (serve a e w)).
Proof.
  destruct a as [rq|b|b|t]; simpl.
  - unfold serve_jobs. destruct (route_of _ _) as [rt|]; [|by apply JE_none].
    unfold mbind, prog_bind, ask.
    destruct (auth _ _ _) as [u|r]; [|by apply JE_none].
    set (up := if route_uploads rt then upload_single "resume" (r_part rq) else mret UpNone).
    assert (Hup : jobs (fst (up e w)) = jobs w).
    { unfold up. destruct (route_uploads rt); [apply upload_single_jobs|reflexivity]. }
    destruct (up e w) as [w1 [[|f|msg]|x]]; simpl in Hup.
    + eapply jobs_effect_src; [|exact Hup].
      exact (route_handler_effect rt (mkJobReq u (route_id rt) (route_status rt) (r_body rq) None) e w1).
    + eapply jobs_effect_src; [|exact Hup].
      exact (route_handler_effect rt (mkJobReq u (route_id rt) (route_status rt) (r_body rq) (Some f)) e w1).
    + apply JE_none. exact Hup.
    + apply JE_none. exact Hup.
  - apply JE_none. apply register_jobs.
  - apply JE_none. rewrite login_run. reflexivity.
  - unfold mbind, prog_bind, ask. destruct (auth _ _ _); [|by apply JE_none].
    apply JE_none. by rewrite getMe_state.
Qed.
End ServeEffect.

(** ** Consequences of [jobs_effect] *)

Lemma jobs_effect_other v w w' k j :
  jobs_effect v w w' -> jobs w !! k = Some j -> v <> Some (JStr (user j)) ->
  jobs w' !! k = Some j.
Proof.
  intros Hx Hk Hv. destruct Hx as [Hx|j0 Hl Ho Hval Hx|i j0 j' Hl Ho Hi Hu Ha Hx|i j0 Hl Ho Hx];
    rewrite Hx.
  - exact Hk.
  - rewrite lookup_insert_ne; [exact Hk|]. intros <-. congruence.
  - destruct (decide (i = k)) as [<-|Hne]; [|by rewrite lookup_insert_ne].
    rewrite Hk in Hl. injection Hl as <-. contradiction.
  - destruct (decide (i = k)) as [<-|Hne]; [|by rewrite lookup_delete_ne].
    rewrite Hk in Hl. injection Hl as <-. contradiction.
Qed.

Lemma jobs_effect_keeps v w w' k j j' :
  jobs_effect v w w' -> jobs w !! k = Some j -> jobs w' !! k = Some j' ->
  job_id j' = job_id j /\ user j' = user j /\ appliedDate j' = appliedDate j.
Proof.
  intros Hx Hk Hk'. destruct Hx as [Hx|j0 Hl Ho Hval Hx|i j0 j1 Hl Ho Hi Hu Ha Hx|i j0 Hl Ho Hx];
    rewrite Hx in Hk'.
  - rewrite Hk in Hk'. by injection Hk' as ->.
  - rewrite lookup_insert_ne in Hk' by (intros <-; congruence).
    rewrite Hk in Hk'. by injection Hk' as ->.
  - destruct (decide (i = k)) as [<-|Hne].
    + rewrite lookup_insert_eq in Hk'. injection Hk' as <-. rewrite Hk in Hl. by injection Hl as <-.
    + rewrite lookup_insert_ne in Hk' by done. rewrite Hk in Hk'. by injection Hk' as ->.
  - destruct (decide (i = k)) as [<-|Hne]; [by rewrite lookup_delete_eq in Hk'|].
    rewrite lookup_delete_ne in Hk' by done. rewrite Hk in Hk'. by injection Hk' as ->.
Qed.

(** A segment matches at most one literal. *)
Lemma lit_eq_other s l1 l2 : lit_eq s l1 = true -> l1 <> l2 -> lit_eq s l2 = false.
Proof.
  unfold lit_eq. intros ->%String.eqb_eq Hne. by apply String.eqb_neq.
Qed.

Lemma jobs_effect_wf v w w' : jobs_effect v w w' -> jobs_wf w -> jobs_wf w'.
Proof.
  intros Hx Hwf k j Hk. destruct Hx as [Hx|j0 Hl Ho Hval Hx|i j0 j1 Hl Ho Hi Hu Ha Hx|i j0 Hl Ho Hx];
    rewrite Hx in Hk.
  - by apply Hwf.
  - destruct (decide (job_id j0 = k)) as [<-|Hne].
    + rewrite lookup_insert_eq in Hk. injection Hk as <-. split; [done|]. apply Hval.
    + rewrite lookup_insert_ne in Hk by done. by apply Hwf.
  - destruct (decide (i = k)) as [<-|Hne].
    + rewrite lookup_insert_eq in Hk. injection Hk as <-. destruct (Hwf _ _ Hl) as [Hid Hv].
      rewrite Hi, Hu. done.
    + rewrite lookup_insert_ne in Hk by done. by apply Hwf.
  - destruct (decide (i = k)) as [<-|Hne]; [by rewrite lookup_delete_eq in Hk|].
    rewrite lookup_delete_ne in Hk by done. by apply Hwf.
Qed.

Lemma step_effect `{DateParser} secret w e a r w' :
  step secret w e a r w' -> jobs_effect (caller a e) w w'.
Proof.
  intros [w0 e0 a0 w1 r0 _ _ Hs]. pose proof (serve_effect a0 e0 w0) as Hx.
  rewrite Hs in Hx. exact Hx.
Qed.

(** ** Theorems of the server *)

(** C19. Isolation: serving a request never changes or removes a record
    whose owner is not the request's authenticated [req.user.id];
    requests that fail [auth] (and the auth routes) change no record. *)
Theorem step_isolation `{DateParser} secret w e a r w' k j :
  step secret w e a r w' -> jobs w !! k = Some j -> caller a e <> Some (JStr (user j)) ->
  jobs w' !! k = Some j.
Proof. intros Hs. apply jobs_effect_other. exact (step_effect _ _ _ _ _ _ Hs). Qed.

(** C20. Ownership is never transferred and [appliedDate] is never
    modified: a record present before and after a step keeps its [_id],
    its owner and its [appliedDate]. *)
Theorem step_keeps_owner_appliedDate `{DateParser} secret w e a r w' k j j' :
  step secret w e a r w' -> jobs w !! k = Some j -> jobs w' !! k = Some j' ->
  job_id j' = job_id j /\ user j' = user j /\ appliedDate j' = appliedDate j.
Proof. intros Hs. apply (jobs_effect_keeps (caller a e)). exact (step_effect _ _ _ _ _ _ Hs). Qed.

(** In every state reachable through the API each record is stored under its own
    [_id] and its owner is a well-formed ObjectId. *)
Theorem reachable_jobs_wf `{DateParser} secret w :
  reachable secret w -> jobs_wf w.
Proof.
  induction 1 as [|w e a r w' _ IH Hs].
  - intros k j Hk. simpl in Hk. by rewrite lookup_empty in Hk.
  - exact (jobs_effect_wf _ _ _ (step_effect _ _ _ _ _ _ Hs) IH).
Qed.

(** ** Every request is answered *)

Section Answers.
Context `{DateParser}.

Lemma api_code_in c : bool_decide (c ∈ api_codes) = true -> c ∈ api_codes.
Proof. apply bool_decide_eq_true_1. Qed.

Ltac answer := eexists; split; [reflexivity|apply api_code_in; reflexivity].

Lemma route_handler_answers rt rq e w : answers_api (route_handler rt rq e w).
Proof.
  destruct rt; simpl;
    [rewrite getJobs_run|rewrite addJob_run|rewrite updateJob_run|rewrite deleteJob_run
    |rewrite getJobsByStatus_run|rewrite downloadResume_run|rewrite getJobStats_run];
    cbv zeta; repeat case_match; simplify_eq; answer.
Qed.

Lemma upload_single_answers f p e w : answers (upload_single f p e w).
Proof.
  destruct p as [p|]; [|eexists; reflexivity]. rewrite upload_single_run.
  repeat case_match; eexists; reflexivity.
Qed.

Lemma serve_answers a e w : answers_api (serve a e w).
Proof.
  destruct a as [rq|b|b|t]; simpl.
  - unfold serve_jobs. destruct (route_of _ _) as [rt|]; [|answer].
    unfold mbind, prog_bind, ask.
    destruct (auth _ _ _) as [u|r] eqn:Ha.
    2: { destruct (auth_fail_401 _ _ _ _ Ha) as [msg ->]. answer. }
    set (up := if route_uploads rt then upload_single "resume" (r_part rq) else mret UpNone).
    assert (Hup : answers (up e w)).
    { unfold up. destruct (route_uploads rt); [apply upload_single_answers|eexists; reflexivity]. }
    destruct (up e w) as [w1 [[|f|msg]|x]]; destruct Hup as [v Hv]; simpl in Hv; try discriminate.
    + apply route_handler_answers.
    + apply route_handler_answers.
    + answer.
  - rewrite register_run. repeat case_match; simplify_eq; answer.
  - rewrite login_run. repeat case_match; simplify_eq; answer.
  - unfold mbind, prog_bind, ask. destruct (auth _ _ _) as [u|r] eqn:Ha.
    2: { destruct (auth_fail_401 _ _ _ _ Ha) as [msg ->]. answer. }
    unfold getMe. run_prog. repeat case_match; simplify_eq; answer.
Qed.
End Answers.

Lemma serve_step `{DateParser} secret e a w :
  jwt_secret e = secret -> oid_valid (new_oid e) = true ->
  exists r, step secret w e a r (fst (serve a e w)).
Proof.
  intros Hk Ho. destruct (serve_answers a e w) as [r [Hr _]]. exists r.
  apply step_serve; [exact Hk|exact Ho|]. destruct (serve a e w); simpl in *. by subst.
Qed.

Lemma serve_all_reachable `{DateParser} secret rs w :
  reachable secret w ->
  Forall (fun ea => jwt_secret ea.1 = secret /\ oid_valid (new_oid ea.1) = true) rs ->
  reachable secret (fst (serve_all rs w)).
Proof.
  revert w. induction rs as [|[e a] rs IH]; intros w Hw Hrs; simpl; [done|].
  apply Forall_cons in Hrs as [[Hk Ho] Hrest].
  destruct (serve_step _ e a w Hk Ho) as [r Hs].
  destruct (serve a e w) as [w1 o] eqn:E. simpl in Hs.
  destruct (serve_all rs w1) as [w2 out] eqn:Ha. simpl.
  specialize (IH w1 (reach_step _ _ _ _ _ _ Hw Hs) Hrest). rewrite Ha in IH. exact IH.
Qed.

Lemma step_isolation_witness :
  exists r, step ex_secret ex_world ex_env (jobs_req ex_tokB DELETE [ex_id3] no_body) r
              (fst (serve (jobs_req ex_tokB DELETE [ex_id3] no_body) ex_env ex_world)) /\
    jobs (fst (serve (jobs_req ex_tokB DELETE [ex_id3] no_body) ex_env ex_world)) !! ex_id1
      = Some ex_job1.
Proof.
  destruct (serve_step ex_secret ex_env (jobs_req ex_tokB DELETE [ex_id3] no_body) ex_world)
    as [r Hs]; [reflexivity|vm_compute; reflexivity|].
  exists r. split; [exact Hs|].
  apply (step_isolation _ _ _ _ _ _ _ _ Hs); [vm_compute; reflexivity|vm_compute; discriminate].
Defined.

Lemma step_keeps_owner_appliedDate_witness :
  exists r j',
    step ex_secret ex_world ex_env (jobs_req ex_tokA PUT [ex_id2] (ex_body (Some "offer") None)) r
      (fst (serve (jobs_req ex_tokA PUT [ex_id2] (ex_body (Some "offer") None)) ex_env ex_world)) /\
    jobs (fst (serve (jobs_req ex_tokA PUT [ex_id2] (ex_body (Some "offer") None)) ex_env ex_world))
      !! ex_id2 = Some j' /\ appliedDate j' = 200.
Proof.
  destruct (serve_step ex_secret ex_env (jobs_req ex_tokA PUT [ex_id2] (ex_body (Some "offer") None))
              ex_world) as [r Hs]; [reflexivity|vm_compute; reflexivity|].
  destruct (jobs (fst (serve (jobs_req ex_tokA PUT [ex_id2] (ex_body (Some "offer") None)) ex_env ex_world))
              !! ex_id2) as [j'|] eqn:El; [|vm_compute in El; discriminate].
  exists r, j'. split; [exact Hs|]. split; [reflexivity|].
  assert (Hk : jobs ex_world !! ex_id2 = Some ex_job2) by (vm_compute; reflexivity).
  destruct (step_keeps_owner_appliedDate _ _ _ _ _ _ _ _ _ Hs Hk El) as (_ & _ & ->). reflexivity.
Defined.

Lemma reachable_jobs_wf_witness :
  exists j,
    reachable ex_secret
      (fst (serve (jobs_req ex_tokA POST [] (ex_body (Some "applied") None)) ex_env empty_world)) /\
    jobs (fst (serve (jobs_req ex_tokA POST [] (ex_body (Some "applied") None)) ex_env empty_world))
      !! ex_id4 = Some j /\ job_id j = ex_id4 /\ oid_valid (user j) = true.
Proof.
  destruct (serve_step ex_secret ex_env (jobs_req ex_tokA POST [] (ex_body (Some "applied") None))
              empty_world) as [r Hs]; [reflexivity|vm_compute; reflexivity|].
  pose proof (reach_step _ _ _ _ _ _ (reach_init ex_secret) Hs) as Hr.
  destruct (jobs (fst (serve (jobs_req ex_tokA POST [] (ex_body (Some "applied") None)) ex_env empty_world))
              !! ex_id4) as [j|] eqn:El; [|vm_compute in El; discriminate].
  exists j. split; [exact Hr|]. split; [reflexivity|].
  exact (reachable_jobs_wf _ _ Hr _ _ El).
Defined.

Lemma addJob_files `{DateParser} rq e w : files (fst (addJob rq e w)) = files w.
Proof.
  rewrite addJob_run. destruct (job_create _ _ _); [reflexivity|].
  destruct (jobs w !! _); [reflexivity|]. cbv zeta.
  destruct (notify_user _ _ _ e _) as [w2 o] eqn:Hn.
  apply notify_user_frame in Hn as (_ & _ & Hf). by destruct o.
Qed.

(** C24. Upload names are not collision-resistant (the spec asks that
    they be): a PDF uploaded in the same millisecond under the same file
    name as another user's stored resume overwrites that file, so the
    other user's unchanged record now points at this upload. *)
Theorem upload_collision `{DateParser} w e rq part u kB jB :
  route_of (r_method rq) (r_path rq) = Some RAddJob -> r_part rq = Some part ->
  auth (r_token rq) (jwt_secret e) (now e) = AuthOk u ->
  part_field part = "resume" -> part_mimetype part = "application/pdf" ->
  part_size part <= fileSize_limit ->
  jobs w !! kB = Some jB -> jget u "id" <> Some (JStr (user jB)) ->
  resume jB = Some (uploads_dir +:+ storage_filename (now e) (busboy_basename (part_filename part))) ->
  jobs (fst (serve (JobsApi rq) e w)) !! kB = Some jB /\
  files (fst (serve (JobsApi rq) e w)) !! tpl (resume jB) = Some (part_content part).
Proof.
  intros Hr Hp Ha Hf Hm Hs Hk Ho Hres. split.
  - apply (jobs_effect_other (caller (JobsApi rq) e) w); [apply serve_effect|exact Hk|].
    simpl. rewrite Hr, Ha. exact Ho.
  - simpl. unfold serve_jobs. rewrite Hr. unfold mbind, prog_bind, ask. rewrite Ha.
    simpl route_uploads. cbv iota. rewrite Hp, (upload_single_stores _ _ _ Hf Hm Hs).
    cbn beta iota zeta delta [route_handler]. rewrite addJob_files. simpl. rewrite Hres. simpl. apply lookup_insert_eq.
Qed.

Lemma upload_collision_witness :
  jobs (fst (serve ex_post_cv ex_env ex_world_B)) !! ex_id3 =
    Some (ex_job ex_id3 ex_uidB "applied" 900 (Some ex_cv_path)) /\
  files (fst (serve ex_post_cv ex_env ex_world_B)) !! ex_cv_path = Some (mkBlob 4096 "cv-A").
Proof.
  apply (upload_collision ex_world_B ex_env _ (mkPart "resume" "cv.pdf" "application/pdf" (mkBlob 4096 "cv-A"))
           (JObj [("id", JStr ex_uidA); ("name", JStr "A")])
           ex_id3 (ex_job ex_id3 ex_uidB "applied" 900 (Some ex_cv_path)));
    try reflexivity; vm_compute; first [reflexivity|discriminate|congruence].
Defined.

(** [GET /api/auth/me] with the token [register] issued answers the
    registered user's id, name and address (the stored password is not
    part of the answer) until the token expires one hour after issue, and
    401 "Token is not valid" afterwards; it changes nothing. *)
Theorem me_after_register `{DateParser} b e w w' tok e' :
  oid_valid (new_oid e) = true ->
  register b e w = (w', Ok (mkResp 201 (BToken tok))) ->
  jwt_secret e' = jwt_secret e ->
  serve (MeApi (Some tok)) e' w' =
    (w', Ok (if now_sec (now e') <? now_sec (now e) + 3600
             then mkResp 200 (BUser (new_oid e) (Some (c_name b)) (Some (c_email b)))
             else mkResp 401 (BMsg false "Token is not valid"))).
Proof.
  intros Hv Hr Hk. destruct (register_created _ _ _ _ _ Hr) as (_ & -> & ->).
  unfold serve. run_prog. unfold auth, jwt_sign, jwt_verify. simpl.
  rewrite Hk, String.eqb_refl. simpl.
  destruct (now_sec (now e') <? _); [|reflexivity].
  unfold user_of_payload. simpl.
  destruct (String.eqb_spec (new_oid e) "") as [He|]; [by apply oid_valid_nonempty in Hv|].
  simpl. unfold getMe. run_prog. simpl. rewrite (oid_valid_cast _ Hv).
  by rewrite lookup_insert_eq.
Qed.

Lemma me_after_register_witness :
  exists w' tok,
    register (mkCred "A" "a@x.com" "pw") (env_at 1000 ex_uidA) empty_world
      = (w', Ok (mkResp 201 (BToken tok))) /\
    serve (MeApi (Some tok)) (env_at 5000 "") w'
      = (w', Ok (mkResp 200 (BUser ex_uidA (Some "A") (Some "a@x.com")))).
Proof.
  destruct (register (mkCred "A" "a@x.com" "pw") (env_at 1000 ex_uidA) empty_world)
    as [w' r] eqn:E.
  pose proof E as E'. vm_compute in E'. injection E' as <- <-.
  do 2 eexists. split; [exact E|].
  rewrite (me_after_register (mkCred "A" "a@x.com" "pw") (env_at 1000 ex_uidA) empty_world _ _
             (env_at 5000 "") ltac:(vm_compute; reflexivity) E eq_refl).
  reflexivity.
Defined.

(** C27. The route table, read with Express's matching rules: a method
    and path reach a route exactly when the path after [/api/jobs], less
    one trailing slash, matches the route's declared pattern segment by
    segment (literals [status], [resume], [stats] in any case, each
    parameter one non-empty segment, captured as written).  So every
    route is reachable at its path, [/STATS] and [/stats/] included, and
    no path reaches two routes. *)
Theorem route_of_path m segs r :
  route_of m segs = Some r <->
  fst (route_pattern r) = m /\ Forall2 seg_matches (snd (route_pattern r)) (strip_slash segs).
Proof.
  unfold route_of. generalize (strip_slash segs) as l. intros l. split.
  - intros Hr. destruct m, l as [|a [|b [|c l]]]; simpl in Hr; try discriminate;
      repeat (match type of Hr with
              | context [if ?c then _ else _] => destruct c eqn:?
              end; simpl in Hr; try discriminate);
      injection Hr as <-.
    all: split; [reflexivity|]; cbn [route_pattern snd].
    all: rewrite ?Forall2_cons, ?Forall2_nil; cbn [seg_matches]; repeat split; try done.
    all: by apply String.eqb_neq.
  - intros [Hm HF]. destruct r; cbn in Hm, HF; subst m;
      repeat match goal with
             | H : Forall2 _ [] _ |- _ => apply Forall2_nil_inv_l in H
             | H : Forall2 _ (_ :: _) _ |- _ =>
                 apply Forall2_cons_inv_l in H as (? & ? & ? & ? & ?)
             end; subst;
      cbn [seg_matches] in *;
      repeat match goal with H : _ /\ _ |- _ => destruct H; subst end;
      repeat match goal with H : ?v <> "" |- _ => rewrite (proj2 (String.eqb_neq v "") H) end;
      repeat match goal with H : lit_eq _ _ = true |- _ => rewrite H end;
      try reflexivity.
    rewrite (lit_eq_other _ "resume" "status"); [reflexivity|done|done].
Qed.

Lemma route_of_path_witness :
  route_of GET ["STATS"; ""] = Some RStats /\
  route_of PUT ["000000000000000000000001"] = Some (RUpdateJob "000000000000000000000001") /\
  route_of GET ["status"; ""] = None.
Proof.
  split; [|split].
  - apply (proj2 (route_of_path GET ["STATS"; ""] RStats)). split; [reflexivity|].
    repeat constructor.
  - apply (proj2 (route_of_path PUT ["000000000000000000000001"] _)). split; [reflexivity|].
    repeat constructor. done.
  - destruct (route_of GET ["status"; ""]) as [r|] eqn:E; [|reflexivity].
    apply route_of_path in E as [Hm HF]. cbn in HF.
    destruct r; cbn in HF; inversion HF; subst; try done;
      match goal with H : Forall2 _ _ _ |- _ => inversion H end.
Defined.
