(* ===== verification/Commute.v ===== *)
(** Requests of different callers on the [jobs] collection.  The spec
    (section 5) lets the server handle requests with no coordination
    between callers.  Here each job handler's effect on the collection is
    written as one [partial_alter] at one key ([job_edit]): [addJob]
    fills the fresh id when it is free, [updateJob] and [deleteJob]
    rewrite or remove the document at the cast [:id] when the caller owns
    it, and the read-only handlers change nothing.  The effect of two
    requests of different callers, with the distinct fresh ObjectIds the
    driver generates, is then the same in either order.  The same edits
    show where stored resume paths point: a job handler writes into the
    [resume] field only the [req.file.path] multer reported or the
    document's own value ([resumes_in_uploads]). *)

From S2P Require Import Prelude JsValue JobModel Store Upload Auth JobController Server.

Open Scope Z_scope.

(** An edit of the collection: the key it looks at and what it does with
    the document found there ([None] when there is none, or when it
    deletes it). *)
Definition edit : Type := string * (option job -> option job).

Definition apply_edit (ed : option edit) (J : gmap string job) : gmap string job :=
  match ed with
  | Some (k, g) => partial_alter g k J
  | None => J
  end.

Section Edits.
Context `{DateParser}.

(** What [route_handler rt] does to the collection, read off the
    handlers' code: [new Job(...).save()] of [addJob] (a duplicate key
    leaves the collection as it is), the ownership check and
    [findByIdAndUpdate] of [updateJob], the ownership check and
    [findByIdAndDelete] of [deleteJob]. *)
Definition job_edit (rt : job_route) (rq : job_req) (e : env) : option edit :=
  match rt with
  | RAddJob =>
      match job_create (new_oid e) (now e) (add_fields rq) with
      | inr j => Some (job_id j, fun o => match o with None => Some j | Some x => Some x end)
      | inl _ => None
      end
  | RUpdateJob _ =>
      match oid_cast (rq_id rq) with
      | Some i =>
          Some (i, fun o =>
                     match o with
                     | Some job =>
                         if jstr_eqb (user job) (req_user_id rq) then
                           match job_update (update_set rq job (now e)) job with
                           | inr j' => Some j'
                           | inl _ => Some job
                           end
                         else Some job
                     | None => None
                     end)
      | None => None
      end
  | RDeleteJob _ =>
      match oid_cast (rq_id rq) with
      | Some i =>
          Some (i, fun o =>
                     match o with
                     | Some job => if jstr_eqb (user job) (req_user_id rq) then None else Some job
                     | None => None
                     end)
      | None => None
      end
  | _ => None
  end.

(** What serving an API request does to the collection: the edit of the
    job route it reaches, if [auth] lets it through and the upload
    (whose outcome does not depend on the state, see
    [upload_single_outcome]) does not fail; nothing for the auth routes. *)
Definition serve_edit (a : api_request) (e : env) : option edit :=
  match a with
  | JobsApi rq =>
      match route_of (r_method rq) (r_path rq) with
      | Some rt =>
          match auth (r_token rq) (jwt_secret e) (now e) with
          | AuthOk u =>
              let mk f := mkJobReq u (route_id rt) (route_status rt) (r_body rq) f in
              match snd ((if route_uploads rt then upload_single "resume" (r_part rq)
                          else mret UpNone) e empty_world) with
              | Ok (UpFile f) => job_edit rt (mk (Some f)) e
              | Ok UpNone => job_edit rt (mk None) e
              | _ => None
              end
          | AuthFail _ => None
          end
      | None => None
      end
  | _ => None
  end.
End Edits.

(** An edit made on behalf of caller [u]: it leaves other owners'
    documents alone, never changes a document's owner, and a document it
    creates is owned by [u]. *)
Definition edit_by (u : string) (g : option job -> option job) : Prop :=
  (forall x, user x <> u -> g (Some x) = Some x) /\
  (forall x y, g (Some x) = Some y -> user y = user x) /\
  (forall y, g None = Some y -> user y = u).

(** A resume path multer can have written: the relative directory
    [uploads/] followed by one path segment, with no ['/'] or ['\'] to
    climb out of it.  [downloadResume] and [deleteJob] hand the stored
    path to [fs.existsSync], [res.download] and [fs.unlink]. *)
Definition resume_in_uploads (p : string) : Prop :=
  exists name, p = uploads_dir +:+ name /\ str_existsb is_sep name = false.

Definition resumes_in_uploads (J : gmap string job) : Prop :=
  map_Forall (fun _ j => forall p, resume j = Some p -> resume_in_uploads p) J.

(** ** Lemmas *)

Lemma partial_alter_at (g : option job -> option job) k (J : gmap string job) :
  partial_alter g k J = match g (J !! k) with Some y => <[k:=y]> J | None => delete k J end.
Proof.
  apply map_eq. intros k'. rewrite lookup_partial_alter.
  destruct (g (J !! k)) as [y|];
    [rewrite lookup_insert|rewrite lookup_delete]; by case_decide.
Qed.

(** Two edits of different callers at the same key commute, unless both
    create a document there. *)
Lemma edit_by_commute u1 u2 g1 g2 o :
  u1 <> u2 -> edit_by u1 g1 -> edit_by u2 g2 ->
  g1 None = None \/ g2 None = None ->
  (is_Some (g1 None) -> o = None) -> (is_Some (g2 None) -> o = None) ->
  g1 (g2 o) = g2 (g1 o).
Proof.
  intros Hu (K1 & U1 & N1) (K2 & U2 & N2) Hadd Ho1 Ho2.
  destruct o as [x|].
  - assert (g1 None = None) by (destruct (g1 None); [discriminate (Ho1 ltac:(by eexists))|done]).
    assert (g2 None = None) by (destruct (g2 None); [discriminate (Ho2 ltac:(by eexists))|done]).
    destruct (decide (user x = u2)) as [Hx|Hx].
    + rewrite (K1 x) by congruence.
      destruct (g2 (Some x)) as [y|] eqn:Hy; [|congruence].
      apply K1. rewrite (U2 _ _ Hy). congruence.
    + rewrite (K2 x Hx).
      destruct (g1 (Some x)) as [y|] eqn:Hy; [|congruence].
      symmetry. apply K2. by rewrite (U1 _ _ Hy).
  - destruct Hadd as [E|E]; rewrite E.
    + destruct (g2 None) as [y|] eqn:Hy; [|by rewrite E].
      apply K1. rewrite (N2 _ eq_refl). congruence.
    + destruct (g1 None) as [y|] eqn:Hy; [|by rewrite E].
      symmetry. apply K2. by rewrite (N1 _ eq_refl).
Qed.

(** Two edits of different callers commute on the whole collection when
    what they create goes to free keys, and not both to the same one. *)
Lemma apply_edit_commute u1 u2 (k1 : string) g1 (k2 : string) g2 (J : gmap string job) :
  u1 <> u2 -> edit_by u1 g1 -> edit_by u2 g2 ->
  (is_Some (g1 None) -> J !! k1 = None) -> (is_Some (g2 None) -> J !! k2 = None) ->
  (is_Some (g1 None) -> is_Some (g2 None) -> k1 <> k2) ->
  partial_alter g1 k1 (partial_alter g2 k2 J) = partial_alter g2 k2 (partial_alter g1 k1 J).
Proof.
  intros Hu H1 H2 F1 F2 Hk.
  destruct (decide (k1 = k2)) as [<-|Hne]; [|by apply partial_alter_partial_alter_ne].
  rewrite !partial_alter_partial_alter_eq. apply partial_alter_ext. intros o <-. cbn.
  apply (edit_by_commute u1 u2); try done.
  destruct (g1 None), (g2 None); [|by right|by left|by left].
  by destruct Hk.
Qed.

Section Handlers.
Context `{DateParser}.

Lemma jobs_after_notify v s t e w1 (k : response) (k' : response) :
  jobs (fst (match notify_user v s t e w1 with
             | (w2, Ok _) => (w2, @Ok exn _ k)
             | (w2, Throw _) => (w2, Ok k')
             end)) = jobs w1.
Proof.
  destruct (notify_user v s t e w1) as [w2 o] eqn:Hn.
  apply notify_user_frame in Hn as [Hj _]. by destruct o.
Qed.

(** The collection after a job handler is its [job_edit] applied to the
    collection before. *)
Lemma route_handler_jobs rt rq e w :
  jobs (fst (route_handler rt rq e w)) = apply_edit (job_edit rt rq e) (jobs w).
Proof.
  destruct rt; cbn [route_handler job_edit].
  - by rewrite getJobs_run.
  - rewrite addJob_run. destruct (job_create _ _ _) as [m|j]; [done|]. cbn.
    rewrite partial_alter_at.
    destruct (jobs w !! job_id j) as [x|] eqn:Hx; [by rewrite insert_id|].
    cbv zeta. by rewrite jobs_after_notify.
  - rewrite updateJob_run. destruct (oid_cast _) as [i|]; [|done]. cbn.
    rewrite partial_alter_at.
    destruct (jobs w !! i) as [x|] eqn:Hx; [|by rewrite delete_id].
    destruct (jstr_eqb _ _); cbn; [|by rewrite insert_id].
    destruct (job_update _ _) as [m|j']; [by rewrite insert_id|].
    cbv zeta. destruct (negb _); [by rewrite jobs_after_notify|done].
  - rewrite deleteJob_run. destruct (oid_cast _) as [i|]; [|done]. cbn.
    rewrite partial_alter_at.
    destruct (jobs w !! i) as [x|] eqn:Hx; [|by rewrite delete_id].
    destruct (jstr_eqb _ _); cbn; [|by rewrite insert_id].
    by destruct (str_truthy _).
  - by rewrite getJobsByStatus_run.
  - by rewrite downloadResume_run.
  - by rewrite getJobStats_run.
Qed.

(** A job handler's edit is made on behalf of its caller, and what it
    creates goes to the fresh id of the request. *)
Lemma job_edit_by rt rq e u k g :
  req_user_id rq = Some (JStr u) -> oid_valid u = true -> job_edit rt rq e = Some (k, g) ->
  edit_by u g /\ (is_Some (g None) -> k = new_oid e).
Proof.
  intros Hv Hu. destruct rt; cbn [job_edit]; try done.
  - destruct (job_create _ _ _) as [m|j] eqn:Hc; [done|]. intros [= <- <-].
    destruct (job_create_ok _ _ _ _ Hc) as (Hju & _ & _ & _ & _ & Hid & _).
    cbn in Hju. rewrite Hv in Hju. cbn in Hju. rewrite oid_valid_cast in Hju by done.
    split; [|done]. split; [done|]. split; [by intros ? ? [= <-]|].
    intros y [= <-]. congruence.
  - destruct (oid_cast _) as [i|]; [|done]. intros [= <- <-].
    split; [|by intros []]. rewrite Hv.
    repeat split; [| |done].
    + intros x Hx. rewrite (proj1 (not_true_iff_false (jstr_eqb _ _))); [done|].
      rewrite jstr_eqb_true. congruence.
    + intros x y. destruct (jstr_eqb _ _); [|congruence].
      destruct (job_update _ _) as [m|j'] eqn:Hj; intros [= <-]; [done|].
      apply (job_update_ok _ _ _ Hj).
  - destruct (oid_cast _) as [i|]; [|done]. intros [= <- <-].
    split; [|by intros []]. rewrite Hv.
    repeat split; [| |done].
    + intros x Hx. rewrite (proj1 (not_true_iff_false (jstr_eqb _ _))); [done|].
      rewrite jstr_eqb_true. congruence.
    + intros x y. destruct (jstr_eqb _ _); [done|by intros [= <-]].
Qed.
End Handlers.

(** What multer reports does not depend on the state: it only writes. *)
Lemma upload_single_outcome fld part e w :
  upload_single fld part e w =
  (match snd (upload_single fld part e empty_world) with
   | Ok (UpFile f) => set_files (<[path f := match part with Some p => part_content p | None => mkBlob 0 "" end]> (files w)) w
   | _ => w
   end, snd (upload_single fld part e empty_world)).
Proof.
  destruct part as [p|]; [|done]. rewrite !upload_single_run.
  destruct (negb _); [done|]. destruct (negb _); [done|].
  by destruct (bool_decide _).
Qed.

Section Serve.
Context `{DateParser}.

(** The collection after serving a request is its [serve_edit] applied
    to the collection before. *)
Lemma serve_jobs_edit a e w :
  jobs (fst (serve a e w)) = apply_edit (serve_edit a e) (jobs w).
Proof.
  destruct a as [rq|b|b|t]; cbn [serve serve_edit].
  - unfold serve_jobs. destruct (route_of _ _) as [rt|]; [|done]. run_prog.
    destruct (auth _ _ _) as [u|r]; [|done]. cbv zeta.
    destruct (route_uploads rt).
    + rewrite upload_single_outcome. cbn [fst snd].
      destruct (snd (upload_single _ _ _ _)) as [[|f|m]|x]; cbn;
        rewrite ?route_handler_jobs; done.
    + cbn. by rewrite route_handler_jobs.
  - rewrite register_run. by repeat case_match.
  - by rewrite login_run.
  - run_prog. destruct (auth _ _ _) as [u|r]; [|done].
    unfold getMe. run_prog. destruct (oid_cast_j _); [|done]. by destruct (users w !! _).
Qed.

(** The edit of a request is made on behalf of its caller. *)
Lemma serve_edit_by a e u k g :
  caller a e = Some (JStr u) -> oid_valid u = true -> serve_edit a e = Some (k, g) ->
  edit_by u g /\ (is_Some (g None) -> k = new_oid e).
Proof.
  destruct a as [rq| | |]; cbn [caller serve_edit]; try done.
  destruct (route_of _ _) as [rt|]; [|done]. destruct (auth _ _ _) as [pu|r]; [|done].
  intros Hc Hu. destruct (snd _) as [[|f|m]|x]; try done; by apply job_edit_by.
Qed.
End Serve.

(** ** Where resumes point *)

Lemma map_Forall_partial_alter (P : string -> job -> Prop) (g : option job -> option job) k
    (J : gmap string job) :
  (forall y, g (J !! k) = Some y -> P k y) -> map_Forall P J -> map_Forall P (partial_alter g k J).
Proof.
  intros Hg HJ k' y. destruct (decide (k = k')) as [<-|Hne].
  - rewrite lookup_partial_alter, decide_True by done. apply Hg.
  - rewrite lookup_partial_alter_ne by done. apply HJ.
Qed.

Lemma no_sep_no_backslash s :
  str_existsb is_sep s = false -> str_forallb (fun c => negb (is_backslash c)) s = true.
Proof.
  intros Hs%str_existsb_false. revert Hs. apply str_forallb_impl.
  intros c. unfold is_sep. by destruct (is_slash c), (is_backslash c).
Qed.

(** [.replace(/\\/g, "/")] leaves a path under [uploads/] as it is. *)
Lemma resume_in_uploads_replace p :
  resume_in_uploads p -> replace_backslashes p = p.
Proof.
  intros (name & -> & Hn). apply replace_backslashes_id.
  rewrite str_forallb_app, (no_sep_no_backslash name Hn). reflexivity.
Qed.

(** The [req.file.path] multer reports is under [uploads/]. *)
Lemma upload_single_in_uploads fld part e w f :
  snd (upload_single fld part e w) = Ok (UpFile f) -> resume_in_uploads (path f).
Proof.
  destruct part as [p|]; [|done].
  destruct (upload_single fld (Some p) e w) as [w1 r] eqn:E. cbn. intros ->.
  apply upload_single_file in E as [Hn Hp]. exists (filename f). split; [done|].
  apply str_existsb_false. rewrite Hn. unfold storage_filename.
  rewrite !str_forallb_app, date_now_string_no_sep.
  by rewrite (proj1 (str_existsb_false _ _) (busboy_basename_no_sep _)).
Qed.

Section Resumes.
Context `{DateParser}.

(** A job handler stores as [resume] only what it had: the [req.file]
    it was given or the document's own. *)
Lemma job_edit_in_uploads rt rq e J :
  (forall f, rq_file rq = Some f -> resume_in_uploads (path f)) ->
  resumes_in_uploads J -> resumes_in_uploads (apply_edit (job_edit rt rq e) J).
Proof.
  intros Hf HJ. destruct rt; cbn [job_edit]; try exact HJ.
  - destruct (job_create _ _ _) as [|j] eqn:Hc; [exact HJ|]. cbn [apply_edit].
    apply map_Forall_partial_alter; [|exact HJ]. intros y.
    destruct (J !! job_id j) as [x|] eqn:Hx; [intros [= <-]; by apply (HJ _ _ Hx)|].
    intros [= <-] p. destruct (job_create_ok _ _ _ _ Hc) as (_ & _ & _ & _ & _ & _ & _ & _ & Hr & _).
    rewrite Hr. cbn. destruct (rq_file rq) as [f|] eqn:Ef; [|done].
    intros [= <-]. rewrite resume_in_uploads_replace; by apply Hf.
  - destruct (oid_cast _) as [i|]; [|exact HJ]. cbn [apply_edit].
    apply map_Forall_partial_alter; [|exact HJ]. intros y.
    destruct (J !! i) as [x|] eqn:Hx; [|done]. pose proof (HJ _ _ Hx) as Hxr.
    destruct (jstr_eqb _ _); [|by intros [= <-]].
    destruct (job_update _ _) as [|j'] eqn:Hu; [by intros [= <-]|]. intros [= <-] p.
    destruct (job_update_ok _ _ _ Hu) as (_ & _ & _ & _ & _ & _ & _ & Hr & _).
    rewrite Hr. cbn. destruct (rq_file rq) as [f|]; [intros [= <-]; by apply Hf|apply Hxr].
  - destruct (oid_cast _) as [i|]; [|exact HJ]. cbn [apply_edit].
    apply map_Forall_partial_alter; [|exact HJ]. intros y.
    destruct (J !! i) as [x|] eqn:Hx; [|done].
    destruct (jstr_eqb _ _); [done|intros [= <-]; by apply (HJ _ _ Hx)].
Qed.

Lemma serve_edit_in_uploads a e J :
  resumes_in_uploads J -> resumes_in_uploads (apply_edit (serve_edit a e) J).
Proof.
  intros HJ. destruct a as [rq| | |]; cbn [serve_edit]; try exact HJ.
  destruct (route_of _ _) as [rt|]; [|exact HJ]. destruct (auth _ _ _) as [u|r]; [|exact HJ].
  destruct (snd _) as [[|f|m]|x] eqn:Hup; try exact HJ; apply job_edit_in_uploads; try done.
  cbn [rq_file]. intros f' [= <-].
  destruct (route_uploads rt); [by eapply upload_single_in_uploads|discriminate].
Qed.
End Resumes.

(** ** Theorems *)

(** C36. Requests of different callers commute on the collection: for
    two API requests that pass [auth] as different users [u1] and [u2]
    (ObjectId strings, as the tokens of [register] and [login] carry),
    whose fresh ids are distinct and not yet used, serving the first and
    then the second leaves the same [jobs] collection as serving them in
    the other order, whatever the routes, bodies, files, ids and times
    (the responses may differ: a caller probing the other's document
    sees 401 or 404 depending on the order). *)
Theorem requests_commute_jobs `{DateParser} a1 e1 a2 e2 w u1 u2 :
  caller a1 e1 = Some (JStr u1) -> caller a2 e2 = Some (JStr u2) ->
  oid_valid u1 = true -> oid_valid u2 = true -> u1 <> u2 ->
  jobs w !! new_oid e1 = None -> jobs w !! new_oid e2 = None -> new_oid e1 <> new_oid e2 ->
  jobs (fst (serve a2 e2 (fst (serve a1 e1 w)))) = jobs (fst (serve a1 e1 (fst (serve a2 e2 w)))).
Proof.
  intros Hv1 Hv2 Hu1 Hu2 Hne F1 F2 Hk. rewrite !serve_jobs_edit.
  destruct (serve_edit a1 e1) as [[k1 g1]|] eqn:E1,
           (serve_edit a2 e2) as [[k2 g2]|] eqn:E2; cbn [apply_edit]; try done.
  destruct (serve_edit_by _ _ _ _ _ Hv1 Hu1 E1) as [B1 K1],
           (serve_edit_by _ _ _ _ _ Hv2 Hu2 E2) as [B2 K2].
  apply (apply_edit_commute u2 u1); [congruence|done|done| | |].
  - intros Hs. by rewrite (K2 Hs).
  - intros Hs. by rewrite (K1 Hs).
  - intros Hs2 Hs1. rewrite (K1 Hs1), (K2 Hs2). congruence.
Qed.

Lemma requests_commute_jobs_witness :
  let aA := jobs_req ex_tokA PUT [ex_id1] (ex_body (Some "offer") None) in
  let aB := jobs_req ex_tokB DELETE [ex_id1] no_body in
  let eA := env_at 1500 ex_id4 in
  let eB := env_at 1600 "000000000000000000000005" in
  jobs (fst (serve aB eB (fst (serve aA eA ex_world)))) =
  jobs (fst (serve aA eA (fst (serve aB eB ex_world)))).
Proof.
  intros aA aB eA eB.
  apply (requests_commute_jobs aA eA aB eB ex_world ex_uidA ex_uidB);
    (reflexivity || (vm_compute; reflexivity) || (vm_compute; discriminate)).
Defined.
