(* ===== verification/Resumes.v ===== *)
(** The life of an uploaded resume through the whole API: [POST
    /api/jobs] with a file part ([upload.single('resume')] in
    [routes/jobRoutes.js], then [addJob]), [GET /api/jobs/resume/:id]
    ([downloadResume]) and [DELETE /api/jobs/:id] ([deleteJob]).  The
    file multer writes is the one the record points at, the one the
    download sends and the one the deletion removes. *)

From S2P Require Import Prelude JsValue JobModel Store Upload Auth JobController Server Commute.

Open Scope Z_scope.

(** The requests a client sends with its token. *)
Definition post_job (tok : jwt) (b : job_body) (part : upload_part) : api_request :=
  JobsApi (mkRequest POST [] (Some tok) b (Some part)).

Definition get_resume (tok : jwt) (id : string) : api_request :=
  JobsApi (mkRequest GET ["resume"; id] (Some tok) no_body None).

Definition delete_job (tok : jwt) (id : string) : api_request :=
  JobsApi (mkRequest DELETE [id] (Some tok) no_body None).

(** ** Lemmas *)

Lemma route_of_id id :
  id <> "" -> route_of GET ["resume"; id] = Some (RResume id) /\
              route_of DELETE [id] = Some (RDeleteJob id).
Proof. destruct id as [|c s]; [done|]. split; reflexivity. Qed.

(** A well-formed id casts to itself. *)
Lemma oid_cast_j_self v s t :
  v = Some (JStr s) -> oid_valid s = true -> oid_cast_j v = Some t -> v = Some (JStr t).
Proof. intros -> Hs. cbn. rewrite oid_valid_cast by done. by intros [= <-]. Qed.

Section Life.
Context `{DateParser}.

(** A routed request without an upload, once [auth] lets it through, is
    its handler on [req.user]. *)
Lemma serve_routed m segs tok b part rt u e w :
  route_of m segs = Some rt -> route_uploads rt = false ->
  auth tok (jwt_secret e) (now e) = AuthOk u ->
  serve (JobsApi (mkRequest m segs tok b part)) e w =
    route_handler rt (mkJobReq u (route_id rt) (route_status rt) b None) e w.
Proof.
  intros Hr Hu Ha. cbn [serve]. unfold serve_jobs. cbn [r_method r_path r_token r_body].
  rewrite Hr. run_prog. rewrite Ha, Hu. reflexivity.
Qed.

(** What a [201] answer to a [POST] with a file says: multer stored the
    part under [uploads/], the new record at the fresh id points at it,
    and is owned by the caller. *)
Lemma post_resume_created tok b part e w w1 j u :
  auth (Some tok) (jwt_secret e) (now e) = AuthOk u ->
  serve (post_job tok b part) e w = (w1, Ok (mkResp 201 (BJob (Some j)))) ->
  exists p, resume j = Some p /\ resume_in_uploads p /\
    files w1 = <[p := part_content part]> (files w) /\
    jobs w !! new_oid e = None /\ jobs w1 = <[new_oid e := j]> (jobs w) /\
    job_id j = new_oid e /\ oid_cast_j (jget u "id") = Some (user j).
Proof.
  intros Ha. cbn [serve post_job]. unfold serve_jobs. cbn [r_method r_path r_token r_part r_body].
  replace (route_of POST []) with (Some RAddJob) by reflexivity. run_prog. rewrite Ha.
  cbn [route_uploads]. rewrite upload_single_outcome.
  destruct (snd (upload_single "resume" (Some part) e empty_world)) as [[|f|m]|x] eqn:Hup.
  - exfalso. rewrite upload_single_run in Hup.
    destruct (negb _); [done|]. destruct (negb _); [done|]. by destruct (bool_decide _).
  - pose proof (upload_single_in_uploads _ _ _ _ _ Hup) as Hin. cbn [fst snd route_handler].
    intros Hadd. match type of Hadd with addJob ?rq _ ?w0 = _ =>
      pose proof (addJob_files rq e w0) as Hf end. rewrite Hadd in Hf.
    apply addJob_created in Hadd as (Hc & Hfree & Hj).
    destruct (job_create_ok _ _ _ _ Hc) as (Hu & _ & _ & _ & _ & Hid & _ & _ & Hr & _).
    exists (path f). cbn in Hr, Hu, Hfree, Hj, Hf.
    rewrite resume_in_uploads_replace in Hr by done. done.
  - intros [= _ <-].
  - intros [= _ <-].
Qed.

(** The owner's [GET /resume/:id] of a record whose [resume] is in the
    upload directory sends that file. *)
Lemma get_resume_sends tok j p e w u s :
  auth (Some tok) (jwt_secret e) (now e) = AuthOk u ->
  jget u "id" = Some (JStr (user j)) -> oid_valid (job_id j) = true ->
  jobs w !! job_id j = Some j -> resume j = Some p -> resume_in_uploads p ->
  is_Some (files w !! p) -> s = download_name j p ->
  serve (get_resume tok (job_id j)) e w = (w, Ok (mkResp 200 (BFile p s))).
Proof.
  intros Ha Hid Hv Hj Hr (name & -> & _) Hf ->.
  unfold get_resume. rewrite (serve_routed _ _ _ _ _ (RResume (job_id j)) u) by
    (try apply route_of_id, oid_valid_nonempty; done).
  cbn [route_handler route_id]. rewrite downloadResume_run, oid_valid_cast by done.
  cbn [rq_id req_user_id rq_user]. rewrite Hj. unfold req_user_id. cbn [rq_user]. rewrite Hid. cbn [jstr_eqb]. rewrite String.eqb_refl, Hr.
  cbn. by rewrite bool_decide_eq_true_2.
Qed.

(** The owner's [DELETE /:id] of a record whose [resume] is in the
    upload directory removes the record and that file. *)
Lemma delete_job_removes tok j p e w u :
  auth (Some tok) (jwt_secret e) (now e) = AuthOk u ->
  jget u "id" = Some (JStr (user j)) -> oid_valid (job_id j) = true ->
  jobs w !! job_id j = Some j -> resume j = Some p -> resume_in_uploads p ->
  serve (delete_job tok (job_id j)) e w =
    (set_jobs (delete (job_id j) (jobs w)) (set_files (delete p (files w)) w),
     Ok (mkResp 200 (BMsg true "Job removed successfully"))).
Proof.
  intros Ha Hid Hv Hj Hr (name & -> & _).
  unfold delete_job. rewrite (serve_routed _ _ _ _ _ (RDeleteJob (job_id j)) u) by
    (try apply route_of_id, oid_valid_nonempty; done).
  cbn [route_handler route_id]. rewrite deleteJob_run, oid_valid_cast by done.
  cbn [rq_id]. rewrite Hj. unfold req_user_id. cbn [rq_user]. rewrite Hid. cbn [jstr_eqb].
  rewrite String.eqb_refl, Hr. reflexivity.
Qed.

End Life.

(** ** Theorems *)

(** C22. Upload and download round trip: when [POST /api/jobs] with a
    file part answers 201 with a new record, the record's [resume] is
    the path multer stored the part's bytes under, and a later [GET
    /api/jobs/resume/:id] of that record with the same token (still
    valid, and carrying a well-formed id as the tokens [register] and
    [login] issue) answers 200 and sends exactly that file, under the
    name [resume_<company>_<id><ext>]; the download changes nothing. *)
Theorem upload_download_roundtrip `{DateParser} tok b part e e' w w1 j u s :
  auth (Some tok) (jwt_secret e) (now e) = AuthOk u ->
  auth (Some tok) (jwt_secret e') (now e') = AuthOk u ->
  jget u "id" = Some (JStr s) -> oid_valid s = true -> oid_valid (new_oid e) = true ->
  serve (post_job tok b part) e w = (w1, Ok (mkResp 201 (BJob (Some j)))) ->
  exists p, resume j = Some p /\ files w1 !! p = Some (part_content part) /\
    serve (get_resume tok (job_id j)) e' w1 = (w1, Ok (mkResp 200 (BFile p (download_name j p)))).
Proof.
  intros Ha Ha' Hid Hs Hn Hpost.
  destruct (post_resume_created _ _ _ _ _ _ _ _ Ha Hpost)
    as (p & Hr & Hin & Hf & _ & Hj & Hjid & Hu).
  apply (oid_cast_j_self _ s) in Hu; [|done..]. clear Hid.
  assert (Hf' : files w1 !! p = Some (part_content part)) by (rewrite Hf; apply lookup_insert_eq).
  exists p. split; [done|]. split; [done|].
  eapply get_resume_sends; [exact Ha'|exact Hu|by rewrite Hjid|..|done|exact Hin|by eexists|done].
  rewrite Hj, Hjid. apply lookup_insert_eq.
Qed.

Lemma upload_download_roundtrip_witness :
  let part := mkPart "resume" "C:\Users\me\cv.pdf" "application/pdf" (mkBlob 4096 "cv") in
  let j := ex_job ex_id4 ex_uidA "applied" 1000 (Some "uploads/1000-cv.pdf") in
  let w1 := fst (serve (post_job ex_tokA (ex_body (Some "applied") None) part) ex_env ex_world) in
  serve (post_job ex_tokA (ex_body (Some "applied") None) part) ex_env ex_world
    = (w1, Ok (mkResp 201 (BJob (Some j)))) /\
  exists p, resume j = Some p /\ files w1 !! p = Some (part_content part) /\
    serve (get_resume ex_tokA (job_id j)) (env_at 2000 ex_id1) w1
      = (w1, Ok (mkResp 200 (BFile p (download_name j p)))).
Proof.
  intros part j w1.
  assert (E : serve (post_job ex_tokA (ex_body (Some "applied") None) part) ex_env ex_world
                = (w1, Ok (mkResp 201 (BJob (Some j))))) by (vm_compute; reflexivity).
  split; [exact E|].
  apply (upload_download_roundtrip ex_tokA (ex_body (Some "applied") None) part ex_env
           (env_at 2000 ex_id1) ex_world w1 j (ex_user ex_uidA) ex_uidA);
    [vm_compute; reflexivity..|exact E].
Defined.

(** C23. Adding a job with a resume and deleting it round trip: when
    [POST /api/jobs] with a file part answers 201, the owner's later
    [DELETE /api/jobs/:id] of the new record (same token, still valid)
    answers 200 and leaves the collection exactly as it was before the
    [POST] and the upload directory as it was without the uploaded path:
    the record is gone, and the file [fs.unlink] removes is the one
    multer wrote, nothing else. *)
Theorem add_delete_roundtrip `{DateParser} tok b part e e' w w1 j u s :
  auth (Some tok) (jwt_secret e) (now e) = AuthOk u ->
  auth (Some tok) (jwt_secret e') (now e') = AuthOk u ->
  jget u "id" = Some (JStr s) -> oid_valid s = true -> oid_valid (new_oid e) = true ->
  serve (post_job tok b part) e w = (w1, Ok (mkResp 201 (BJob (Some j)))) ->
  exists p w2, resume j = Some p /\
    serve (delete_job tok (job_id j)) e' w1 = (w2, Ok (mkResp 200 (BMsg true "Job removed successfully"))) /\
    jobs w2 = jobs w /\ files w2 = delete p (files w).
Proof.
  intros Ha Ha' Hid Hs Hn Hpost.
  destruct (post_resume_created _ _ _ _ _ _ _ _ Ha Hpost)
    as (p & Hr & Hin & Hf & Hfree & Hj & Hjid & Hu).
  apply (oid_cast_j_self _ s) in Hu; [|done..]. clear Hid.
  exists p. eexists. split; [done|].
  rewrite (delete_job_removes tok j p e' w1 u Ha' Hu); [|by rewrite Hjid|by rewrite Hj, Hjid, lookup_insert_eq|done..].
  split; [done|]. cbn. rewrite Hj, Hf, Hjid, delete_insert_id, delete_insert_eq by done. done.
Qed.

Lemma add_delete_roundtrip_witness :
  let part := mkPart "resume" "cv.pdf" "application/pdf" (mkBlob 4096 "cv") in
  let j := ex_job ex_id4 ex_uidA "applied" 1000 (Some "uploads/1000-cv.pdf") in
  let w1 := fst (serve (post_job ex_tokA (ex_body (Some "applied") None) part) ex_env ex_world) in
  serve (post_job ex_tokA (ex_body (Some "applied") None) part) ex_env ex_world
    = (w1, Ok (mkResp 201 (BJob (Some j)))) /\
  exists p w2, resume j = Some p /\
    serve (delete_job ex_tokA (job_id j)) (env_at 2000 ex_id1) w1
      = (w2, Ok (mkResp 200 (BMsg true "Job removed successfully"))) /\
    jobs w2 = jobs ex_world /\ files w2 = delete p (files ex_world).
Proof.
  intros part j w1.
  assert (E : serve (post_job ex_tokA (ex_body (Some "applied") None) part) ex_env ex_world
                = (w1, Ok (mkResp 201 (BJob (Some j))))) by (vm_compute; reflexivity).
  split; [exact E|].
  apply (add_delete_roundtrip ex_tokA (ex_body (Some "applied") None) part ex_env
           (env_at 2000 ex_id1) ex_world w1 j (ex_user ex_uidA) ex_uidA);
    [vm_compute; reflexivity..|exact E].
Defined.
