(* ===== verification/Notify.v ===== *)
(** The notifications of the Job controller ([transporter.sendMail] in
    [controllers/jobController.js]) as the whole API sends them.  The
    mail transport is the [outbox] of the state: [send_mail] appends to
    it.  [mail_effect] says what one request may do to it: nothing, or
    append one mail addressed to the stored address of the user the
    request was authenticated as ([User.findById(req.user.id)]), and
    [serve_mail] proves it of every request. *)

From S2P Require Import Prelude JsValue JobModel Store Upload Auth JobController Server.

Open Scope Z_scope.

(** One request's effect on the outbox, for the caller [v]
    ([req.user.id]) and the environment [e] (the sender address). *)
Definition mail_effect (e : env) (v : option jval) (w w' : world) : Prop :=
  outbox w' = outbox w \/
  exists i ud subject text,
    oid_cast_j v = Some i /\ users w !! i = Some ud /\ str_truthy (email ud) = true /\
    outbox w' = (outbox w ++ [mkMail (email_user e) (tpl (email ud)) subject text])%list.

(** ** Lemmas *)

Lemma mail_effect_refl e v w : mail_effect e v w w.
Proof. by left. Qed.

(** A first step that keeps the users and the outbox does not change
    what the rest may mail. *)
Lemma mail_effect_frame e v w w1 w2 :
  users w1 = users w -> outbox w1 = outbox w -> mail_effect e v w1 w2 -> mail_effect e v w w2.
Proof.
  intros Hu Ho [H|(i & ud & s & t & Hi & Hud & Hm & H)]; [left; congruence|right].
  exists i, ud, s, t. rewrite <- Hu, <- Ho. done.
Qed.

#[export] Hint Resolve mail_effect_refl : tracker.

Section Handlers.
Context `{DateParser}.

Lemma notify_user_mail v s t e w : mail_effect e v w (fst (notify_user v s t e w)).
Proof.
  rewrite notify_user_run. destruct (oid_cast_j v) as [i|] eqn:Hi; [|by left].
  destruct (users w !! i) as [ud|] eqn:Hud; [|by left].
  destruct (str_truthy (email ud)) eqn:Hm; [|by left].
  destruct (mail_ok e); [|by left]. right. by exists i, ud, s, t.
Qed.

Lemma notify_then_mail v s t e w w1 (k k' : response) :
  users w1 = users w -> outbox w1 = outbox w ->
  mail_effect e v w (fst (match notify_user v s t e w1 with
                          | (w2, Ok _) => (w2, @Ok exn _ k)
                          | (w2, Throw _) => (w2, Ok k')
                          end)).
Proof.
  intros Hu Ho. apply (mail_effect_frame _ _ _ w1); [done|done|].
  pose proof (notify_user_mail v s t e w1) as Hm.
  destruct (notify_user v s t e w1) as [w2 []]; exact Hm.
Qed.

Lemma route_handler_mail rt rq e w :
  mail_effect e (req_user_id rq) w (fst (route_handler rt rq e w)).
Proof.
  destruct rt; cbn [route_handler].
  - rewrite getJobs_run. by left.
  - rewrite addJob_run. destruct (job_create _ _ _); [by left|].
    destruct (jobs w !! _); [by left|]. by apply notify_then_mail.
  - rewrite updateJob_run. destruct (oid_cast _); [|by left].
    destruct (jobs w !! _); [|by left]. destruct (negb _); [by left|].
    destruct (job_update _ _); [by left|]. cbv zeta.
    destruct (negb _); [by apply notify_then_mail|by left].
  - rewrite deleteJob_run. destruct (oid_cast _); [|by left].
    destruct (jobs w !! _); [|by left]. destruct (negb _); [by left|].
    left. by destruct (str_truthy _).
  - rewrite getJobsByStatus_run. by left.
  - rewrite downloadResume_run. by left.
  - rewrite getJobStats_run. by left.
Qed.

(** multer only writes the upload directory. *)
Lemma upload_single_frame fld part e w :
  users (fst (upload_single fld part e w)) = users w /\
  outbox (fst (upload_single fld part e w)) = outbox w.
Proof.
  destruct part as [p|]; [|done]. rewrite upload_single_run.
  destruct (negb _); [done|]. destruct (negb _); [done|]. by destruct (bool_decide _).
Qed.

End Handlers.

(** ** Theorems *)

(** C40. Notifications go only to the caller: serving any API request
    (any route, token, body or file, whether it succeeds or fails)
    leaves the outbox as it was or appends exactly one mail, and that
    mail is sent from the configured [EMAIL_USER] to the stored address
    of the user the request was authenticated as; no request mails
    another user, and none mails twice. *)
Theorem serve_mail_caller_only `{DateParser} a e w :
  mail_effect e (caller a e) w (fst (serve a e w)).
Proof.
  destruct a as [rq|b|b|t]; cbn [serve caller].
  - unfold serve_jobs. destruct (route_of _ _) as [rt|]; [|by left]. run_prog.
    destruct (auth _ _ _) as [u|r]; [|by left]. cbv zeta.
    destruct (route_uploads rt); [|apply route_handler_mail].
    pose proof (upload_single_frame "resume" (r_part rq) e w) as [Hu Ho].
    destruct (upload_single _ _ e w) as [w1 [[|f|m]|x]]; cbn in Hu, Ho |- *;
      try (left; done);
      (eapply mail_effect_frame; [exact Hu|exact Ho|apply route_handler_mail]).
  - left. rewrite register_run. by repeat case_match.
  - left. by rewrite login_run.
  - left. run_prog. destruct (auth _ _ _); [|done].
    unfold getMe. run_prog. destruct (oid_cast_j _); [|done]. by destruct (users w !! _).
Qed.
