(* ===== verification/Refinement.v ===== *)
(** The handlers implement the Job Service of the specification.

    [abs_resp] reads a handler's response as a result of [Spec.svc_step]
    and [op_of] reads a routed request as an operation; the abstract store
    is the [jobs] collection.  The refinement theorem says: for a caller
    whose token names a well-formed ObjectId, on a store satisfying the
    data-model invariant, every answer a handler gives to a well-formed
    request, with the state it leaves, is one the specification allows.
    "Well-formed" excludes exactly the inputs on which the code and the
    specification part (the findings of C9 to C12): an id that is not an
    ObjectId, a status filter outside the enum, a new record that fails
    validation, an update that omits a field or writes an invalid value,
    a mail transport that rejects, and a fresh ObjectId already taken. *)

From S2P Require Import Prelude JsValue JobModel Store Upload JobController Spec Server.

Open Scope Z_scope.

(** The abstraction of a response. *)
Definition abs_resp (r : response) : svc_result :=
  match rbody r with
  | BJobs _ js => SJobs js
  | BJob (Some j) => SJob j
  | BStats a i o rj t => SStats a i o rj t
  | BMsg true _ => SRemoved
  | BFile p n => SFile p n
  | _ => if Z.eqb (code r) 404 then SNotFound
         else if Z.eqb (code r) 401 then SForbidden else SOther
  end.

(** The operation a routed request asks for. *)
Definition op_of (rt : job_route) (rq : job_req) : svc_op :=
  match rt with
  | RGetJobs => OpList
  | RStats => OpStats
  | RJobsByStatus _ => OpListStatus (rq_status rq)
  | RAddJob => OpAdd (rq_body rq) (option_map (fun f => replace_backslashes (path f)) (rq_file rq))
  | RUpdateJob _ => OpUpdate (rq_id rq) (rq_body rq) (option_map path (rq_file rq))
  | RDeleteJob _ => OpDelete (rq_id rq)
  | RResume _ => OpDownload (rq_id rq)
  end.

Section WellFormed.
Context `{DateParser}.

(** A new record's fields as the data model requires them. *)
Definition add_ok (b : job_body) : Prop :=
  (exists c, b_company b = Some c /\ c <> "") /\
  (exists r, b_role b = Some r /\ r <> "") /\
  status_default (b_status b) ∈ status_enum /\
  (b_status b = Some "interview" ->
     exists s t, b_interviewDate b = Some s /\ date_parse s = Some t).

(** A full-record update: every field supplied and valid. *)
Definition update_ok (b : job_body) : Prop :=
  add_ok b /\ is_Some (b_status b) /\ is_Some (b_notes b) /\
  is_Some (b_contact b) /\ is_Some (b_source b).

Definition request_ok (rt : job_route) (rq : job_req) : Prop :=
  match rt with
  | RJobsByStatus _ => rq_status rq ∈ status_enum
  | RAddJob => add_ok (rq_body rq)
  | RUpdateJob _ => oid_valid (rq_id rq) = true /\ update_ok (rq_body rq)
  | RDeleteJob _ | RResume _ => oid_valid (rq_id rq) = true
  | RGetJobs | RStats => True
  end.
End WellFormed.

(** ** Lemmas relating the code's queries to the specification's views *)

Lemma bool_decide_string_eq (a b : string) : bool_decide (a = b) = String.eqb a b.
Proof. case_bool_decide; symmetry; [by apply String.eqb_eq|by apply String.eqb_neq]. Qed.

Lemma owned_jobs u w :
  owned u (jobs w) = List.filter (fun j => String.eqb (user j) u) (all_jobs w).
Proof. apply filter_ext_in. intros j _. apply bool_decide_string_eq. Qed.

Lemma caller_cast rq u :
  req_user_id rq = Some (JStr u) -> oid_valid u = true -> oid_cast_j (req_user_id rq) = Some u.
Proof. intros -> Hv. exact (oid_valid_cast _ Hv). Qed.

Lemma spec_count_status u w st :
  spec_count u (jobs w) st =
    count_status (List.filter (fun j => String.eqb (user j) u) (all_jobs w)) st.
Proof.
  unfold spec_count, count_status. rewrite owned_jobs. f_equal.
  apply filter_ext_in. intros j _. apply bool_decide_string_eq.
Qed.

(** Under the invariant, no record has a status outside the enum, so the
    four counts add up to the number of records. *)
Lemma counts_total u w :
  spec_inv (jobs w) ->
  let js := List.filter (fun j => String.eqb (user j) u) (all_jobs w) in
  (count_status js "applied" + count_status js "interview" + count_status js "offer"
   + count_status js "rejected")%nat = length js.
Proof.
  intros Hinv js. rewrite <- (count_status_split js).
  rewrite (filter_nil_forall _ js); [simpl; lia|].
  intros j Hj. unfold js in Hj. apply filter_In in Hj as [Hj _].
  apply list_elem_of_In, all_jobs_elem in Hj as [k Hk]. destruct (Hinv k j Hk) as [_ Hs].
  unfold status_valid. by rewrite bool_decide_eq_true_2.
Qed.

Section Fields.
Context `{DateParser}.

Lemma str_truthy_some s : s <> "" -> str_truthy (Some s) = true.
Proof. intros Hs. simpl. destruct (String.eqb_spec s ""); done. Qed.

(** The status-gated [interviewDate] of a well-formed body casts to the
    date the specification asks for. *)
Lemma interview_date_spec (b : job_body) :
  (b_status b = Some "interview" ->
     exists s t, b_interviewDate b = Some s /\ date_parse s = Some t) ->
  exists d, date_cast (interview_date (b_status b) (b_interviewDate b)) = Some d /\
            spec_interview b d.
Proof.
  intros Hi. destruct (decide (b_status b = Some "interview")) as [Hs|Hs].
  - destruct (Hi Hs) as (s & t & Hb & Ht). exists (Some t).
    rewrite Hs, interview_date_interview, Hb. simpl. rewrite Ht. split; [reflexivity|].
    split; [|done]. intros _. by exists s, t.
  - exists None. rewrite interview_date_other by exact Hs. split; [reflexivity|].
    split; [done|]. intros _. reflexivity.
Qed.

(** [new Job(...).save()] on a well-formed body creates the specification's
    new record. *)
Lemma add_fields_create rq u i t :
  req_user_id rq = Some (JStr u) -> oid_valid u = true -> add_ok (rq_body rq) ->
  exists c r d,
    b_company (rq_body rq) = Some c /\ c <> "" /\ b_role (rq_body rq) = Some r /\ r <> "" /\
    spec_interview (rq_body rq) d /\
    job_create i t (add_fields rq) =
      inr (spec_new u t i (rq_body rq)
             (option_map (fun f => replace_backslashes (path f)) (rq_file rq)) c r d).
Proof.
  intros Hu Hv ((c & Hc & Hc') & (r & Hr & Hr') & Hst & Hi).
  destruct (interview_date_spec _ Hi) as (d & Hd & Hds).
  exists c, r, d. do 5 (split; [done|]).
  unfold job_create, add_fields, create_errors. cbn [jf_user jf_company jf_role jf_status
    jf_interviewDate jf_notes jf_resume jf_contact jf_source].
  rewrite Hu, Hc, Hr, Hd. cbn [oid_cast_j]. rewrite (oid_valid_cast _ Hv).
  unfold required_str. rewrite !str_truthy_some by done.
  unfold status_valid. rewrite (bool_decide_eq_true_2 (_ ∈ status_enum)) by exact Hst. simpl.
  destruct (rq_file rq); reflexivity.
Qed.
(** [findByIdAndUpdate] with a full-record update writes the
    specification's updated record. *)
Lemma update_set_update rq j t :
  update_ok (rq_body rq) ->
  exists c r st d,
    b_company (rq_body rq) = Some c /\ c <> "" /\ b_role (rq_body rq) = Some r /\ r <> "" /\
    b_status (rq_body rq) = Some st /\ st ∈ status_enum /\ spec_interview (rq_body rq) d /\
    job_update (update_set rq j t) j =
      inr (spec_updated t (job_id j) j (rq_body rq) (option_map path (rq_file rq)) c r st d).
Proof.
  intros (((c & Hc & Hc') & (r & Hr & Hr') & Hst & Hi) & [st Hs] & [n Hn] & [ct Hct] & [so Hso]).
  destruct (interview_date_spec _ Hi) as (d & Hd & Hds).
  exists c, r, st, d. rewrite Hs in Hst. do 7 (split; [done|]).
  unfold job_update, update_set. cbn [js_interviewDate js_company js_role js_status js_notes
    js_resume js_contact js_source js_lastUpdated].
  rewrite Hd, Hc, Hr, Hs, Hn, Hct, Hso. unfold spec_updated. rewrite Hn, Hct, Hso.
  destruct (rq_file rq); reflexivity.
Qed.

(** With a mail transport that accepts, the notification succeeds and
    touches only the outbox. *)
Lemma notify_user_ok u s txt e w :
  oid_valid u = true -> mail_ok e = true ->
  exists w2, notify_user (Some (JStr u)) s txt e w = (w2, Ok tt) /\ jobs w2 = jobs w.
Proof.
  intros Hv Hm. rewrite notify_user_run. cbn [oid_cast_j]. rewrite (oid_valid_cast _ Hv).
  destruct (users w !! u) as [ud|]; [|by eexists].
  destruct (str_truthy _); [rewrite Hm|]; by eexists.
Qed.
End Fields.

(** ** Each handler refines its operation *)

Section Handlers.
Context `{DateParser}.
Variables (u : string) (rq : job_req) (e : env) (w : world).
Hypothesis Hu : req_user_id rq = Some (JStr u).
Hypothesis Hv : oid_valid u = true.
Hypothesis Hinv : spec_inv (jobs w).

Local Abbreviation refines op r w' :=
  (svc_step u (now e) (new_oid e) (files w) (jobs w) op (abs_resp r) (jobs w')).

Lemma owner_check j : jstr_eqb (user j) (req_user_id rq) = String.eqb (user j) u.
Proof. by rewrite Hu. Qed.

Lemma refine_getJobs w' r : getJobs rq e w = (w', Ok r) -> refines OpList r w'.
Proof.
  rewrite getJobs_run, (caller_cast _ _ Hu Hv). intros [= <- <-]. cbn.
  constructor; [|apply sort_applied_desc_sorted].
  by rewrite sort_applied_desc_perm, owned_jobs.
Qed.

Lemma refine_getJobsByStatus w' r :
  rq_status rq ∈ status_enum -> getJobsByStatus rq e w = (w', Ok r) ->
  refines (OpListStatus (rq_status rq)) r w'.
Proof.
  intros Hst. rewrite getJobsByStatus_run, (caller_cast _ _ Hu Hv). intros [= <- <-]. cbn.
  constructor; [done| |apply sort_applied_desc_sorted].
  rewrite sort_applied_desc_perm, owned_jobs, filter_andb.
  apply Permutation_refl'. apply filter_ext_in. intros j _. by rewrite bool_decide_string_eq.
Qed.

Lemma refine_getJobStats w' r : getJobStats rq e w = (w', Ok r) -> refines OpStats r w'.
Proof.
  rewrite getJobStats_run, (caller_cast _ _ Hu Hv). intros [= <- <-].
  cbn [abs_resp rbody]. rewrite <- (counts_total u w Hinv). rewrite <- !spec_count_status.
  constructor.
Qed.
Lemma refine_addJob w' r :
  add_ok (rq_body rq) -> mail_ok e = true -> jobs w !! new_oid e = None ->
  addJob rq e w = (w', Ok r) ->
  refines (OpAdd (rq_body rq) (option_map (fun f => replace_backslashes (path f)) (rq_file rq))) r w'.
Proof.
  intros Hok Hm Hf. rewrite addJob_run.
  destruct (add_fields_create rq u (new_oid e) (now e) Hu Hv Hok)
    as (c & rl & d & Hc & Hc' & Hr & Hr' & Hd & ->).
  cbn [job_id spec_new]. rewrite Hf. cbv zeta. rewrite Hu.
  destruct (notify_user_ok u "New Job Application Added" (add_mail_text (rq_body rq)) e
              (set_jobs (<[new_oid e := spec_new u (now e) (new_oid e) (rq_body rq)
                 (option_map (fun f => replace_backslashes (path f)) (rq_file rq)) c rl d]> (jobs w)) w)
              Hv Hm) as (w2 & -> & Hw2).
  intros [= <- <-]. rewrite Hw2. cbn. apply sv_add; try done.
  by destruct Hok as (_ & _ & Hst & _).
Qed.

Lemma refine_updateJob w' r :
  oid_valid (rq_id rq) = true -> update_ok (rq_body rq) -> mail_ok e = true ->
  updateJob rq e w = (w', Ok r) ->
  refines (OpUpdate (rq_id rq) (rq_body rq) (option_map path (rq_file rq))) r w'.
Proof.
  intros Hid Hok Hm. rewrite updateJob_run, (oid_valid_cast _ Hid).
  destruct (jobs w !! rq_id rq) as [j|] eqn:Hj.
  2: { intros [= <- <-]. by eapply sv_not_found. }
  rewrite owner_check. destruct (String.eqb_spec (user j) u) as [Ho|Ho]; simpl.
  2: { intros [= <- <-]. by eapply sv_forbidden. }
  destruct (update_set_update rq j (now e) Hok)
    as (c & rl & st & d & Hc & Hc' & Hr & Hr' & Hs & Hst & Hd & ->).
  destruct (Hinv _ _ Hj) as [Hid' _]. rewrite Hid'.
  assert (Hstep : refines (OpUpdate (rq_id rq) (rq_body rq) (option_map path (rq_file rq)))
      (mkResp 200 (BJob (Some (spec_updated (now e) (rq_id rq) j (rq_body rq)
                                  (option_map path (rq_file rq)) c rl st d))))
      (set_jobs (<[rq_id rq := spec_updated (now e) (rq_id rq) j (rq_body rq)
                                  (option_map path (rq_file rq)) c rl st d]> (jobs w)) w)).
  { cbn [abs_resp rbody jobs set_jobs]. unfold set_jobs. cbn [jobs]. by eapply sv_update. }
  destruct (negb _); [|by intros [= <- <-]].
  rewrite Hu. edestruct notify_user_ok as (w2 & -> & Hw2); [exact Hv|exact Hm|].
  intros [= <- <-]. rewrite Hw2. exact Hstep.
Qed.
Lemma refine_deleteJob w' r :
  oid_valid (rq_id rq) = true -> deleteJob rq e w = (w', Ok r) ->
  refines (OpDelete (rq_id rq)) r w'.
Proof.
  intros Hid. rewrite deleteJob_run, (oid_valid_cast _ Hid).
  destruct (jobs w !! rq_id rq) as [j|] eqn:Hj.
  2: { intros [= <- <-]. by eapply sv_not_found. }
  rewrite owner_check. destruct (String.eqb_spec (user j) u) as [Ho|Ho]; simpl.
  2: { intros [= <- <-]. by eapply sv_forbidden. }
  intros [= <- <-]. cbn. destruct (str_truthy _); by eapply sv_delete.
Qed.

Lemma refine_downloadResume w' r :
  oid_valid (rq_id rq) = true -> downloadResume rq e w = (w', Ok r) ->
  refines (OpDownload (rq_id rq)) r w'.
Proof.
  intros Hid. rewrite downloadResume_run, (oid_valid_cast _ Hid).
  destruct (jobs w !! rq_id rq) as [j|] eqn:Hj.
  2: { intros [= <- <-]. by eapply sv_not_found. }
  rewrite owner_check. destruct (String.eqb_spec (user j) u) as [Ho|Ho]; simpl.
  2: { intros [= <- <-]. by eapply sv_forbidden. }
  destruct (Hinv _ _ Hj) as [Hid' _].
  destruct (resume j) as [p|] eqn:Hr; cbn [str_truthy negb tpl].
  2: { intros [= <- <-]. eapply sv_download_missing; [exact Hj|exact Ho|]. intros ? Hp. by rewrite Hr in Hp. }
  destruct (String.eqb_spec p "") as [->|Hp]; simpl.
  { intros [= <- <-]. eapply sv_download_missing; [exact Hj|exact Ho|]. intros ? Hq. rewrite Hr in Hq. by injection Hq as <-. }
  case_bool_decide as Hf; intros [= <- <-]; cbn.
  - unfold download_name. rewrite Hid'. by eapply sv_download.
  - eapply sv_download_missing; [exact Hj|exact Ho|]. intros ? Hq _. rewrite Hr in Hq. injection Hq as <-.
    by apply eq_None_not_Some.
Qed.
End Handlers.

(** ** The refinement theorem *)

(** C29. Refinement: for a caller whose token names a well-formed
    ObjectId, on a store with the data-model invariant, with a mail
    transport that accepts and a fresh ObjectId not yet used, every answer
    a job handler gives to a well-formed request, together with the new
    [jobs] collection, is an outcome the specification's Job Service
    allows for that operation: listings are the caller's records newest
    first, stats total the four counts, creation and full updates write
    the specified record, delete removes it, download names the file
    [resume_<company>_<id><ext>], and absent or foreign records give
    NotFound and Forbidden. *)
Theorem handlers_refine_spec `{DateParser} rt rq e w w' r u :
  req_user_id rq = Some (JStr u) -> oid_valid u = true -> spec_inv (jobs w) ->
  mail_ok e = true -> jobs w !! new_oid e = None -> request_ok rt rq ->
  route_handler rt rq e w = (w', Ok r) ->
  svc_step u (now e) (new_oid e) (files w) (jobs w) (op_of rt rq) (abs_resp r) (jobs w').
Proof.
  intros Hu Hv Hinv Hm Hf Hok. destruct rt; simpl in Hok |- *.
  - by apply refine_getJobs.
  - by apply refine_addJob.
  - destruct Hok as [Hid Hb]. by apply refine_updateJob.
  - by apply refine_deleteJob.
  - by apply refine_getJobsByStatus.
  - by apply refine_downloadResume.
  - by apply refine_getJobStats.
Qed.

Lemma handlers_refine_spec_witness :
  exists w' r,
    route_handler (RDeleteJob ex_id1) (ex_req ex_uidA ex_id1 (ex_body None None)) ex_env ex_world
      = (w', Ok r) /\
    svc_step ex_uidA (now ex_env) (new_oid ex_env) (files ex_world) (jobs ex_world)
      (OpDelete ex_id1) (abs_resp r) (jobs w').
Proof.
  destruct (route_handler (RDeleteJob ex_id1) (ex_req ex_uidA ex_id1 (ex_body None None))
              ex_env ex_world) as [w' [r|x]] eqn:E.
  2: { vm_compute in E. discriminate. }
  exists w', r. split; [reflexivity|].
  apply (handlers_refine_spec (RDeleteJob ex_id1) (ex_req ex_uidA ex_id1 (ex_body None None))
           ex_env ex_world w' r ex_uidA); try reflexivity; try exact E.
  apply (bool_decide_unpack _). vm_compute. exact I.
Defined.
