(* ===== verification/App.v ===== *)
(** The Express application of [backend/server.js]: the middleware stack
    in the order [app.use] installs it.  [cors()] and [express.json()]
    only add headers and parse the body, so they are not steps here
    ([Express.v] has them, with the parse error, and proves its stack
    equal to [app] for bodies that parse); [express.static] on [/uploads] answers a [GET] for a stored file
    itself and otherwise passes the request on ([next()]); the auth and
    job routers answer the paths they know; in production,
    [express.static('frontend/build')] and [app.get('*')] answer every
    other [GET] with the front end's [index.html]; anything left gets
    Express's final 404.

    The upload directory multer writes ([uploads/], relative to the
    working directory), the one [deleteJob] and [downloadResume] address
    ([path.join(__dirname, '..', job.resume)]) and the one served on
    [/uploads] ([path.join(__dirname, 'uploads')]) are taken to be the
    same directory, as they are when the server runs from [backend/] with
    its controllers beside it: the [files] map of the state. *)

From S2P Require Import Prelude JsValue JobModel Store Upload Auth JobController Server.

Open Scope Z_scope.

(** A request as Express receives it: method, path segments, the
    [x-auth-token] header, and the parsed body (the job form, the
    credentials, the file part). *)
Record app_request : Type := mkAppReq {
  a_method : meth;
  a_path : list string;
  a_token : option jwt;
  a_body : job_body;
  a_cred : cred_body;
  a_part : option upload_part;
}.

Definition starts_with_dot (s : string) : bool :=
  match s with String c _ => is_dot c | EmptyString => false end.

(** The path [serve-static] maps a request to, and the requests it
    passes on: a path with an empty segment (a directory) or with a
    segment starting with a dot ([dotfiles: 'ignore'], which also covers
    [..]). *)
Fixpoint join_path (segs : list string) : string :=
  match segs with
  | [] => ""
  | [s] => s
  | s :: segs' => s +:+ "/" +:+ join_path segs'
  end.

Definition static_ok (segs : list string) : bool :=
  negb (bool_decide (segs = [])) &&
  forallb (fun s => negb (String.eqb s "") && negb (starts_with_dot s)) segs.

(** [app.use('/uploads', express.static(path.join(__dirname, 'uploads')))]:
    [Some] when it answers, [None] when it calls [next()]. *)
Definition static_uploads (m : meth) (segs : list string) : M (option response) :=
  match m with
  | GET =>
      if static_ok segs then
        w ← get;
        let p := uploads_dir +:+ join_path segs in
        mret (match files w !! p with
              | Some _ => Some (mkResp 200 (BStatic p))
              | None => None
              end)
      else mret None
  | _ => mret None
  end.

(** [app.use('/uploads', ...)]: the static middleware sees only the
    paths under [/uploads] (the mount path matched in any case). *)
Definition uploads_mount (p : list string) (m : meth) : M (option response) :=
  match p with
  | u :: segs => if lit_eq u "uploads" then static_uploads m segs else mret None
  | [] => mret None
  end.

(** The router mounted on [/api/auth] ([routes/authRoutes.js], from the
    interface table of the spec), matched as Express matches paths. *)
Definition auth_api (rq : app_request) : option api_request :=
  match a_method rq, strip_slash (a_path rq) with
  | POST, [a; b; c] =>
      if lit_eq a "api" && lit_eq b "auth" then
        if lit_eq c "register" then Some (RegisterApi (a_cred rq))
        else if lit_eq c "login" then Some (LoginApi (a_cred rq))
        else None
      else None
  | GET, [a; b; c] =>
      if lit_eq a "api" && lit_eq b "auth" && lit_eq c "me" then Some (MeApi (a_token rq)) else None
  | _, _ => None
  end.

(** The router mounted on [/api/jobs] ([routes/jobRoutes.js]). *)
Definition jobs_api (rq : app_request) : option api_request :=
  match a_path rq with
  | a :: j :: segs =>
      if lit_eq a "api" && lit_eq j "jobs" then
        match route_of (a_method rq) segs with
        | Some _ => Some (JobsApi (mkRequest (a_method rq) segs (a_token rq) (a_body rq) (a_part rq)))
        | None => None
        end
      else None
  | _ => None
  end.

(** The two routers in the order [server.js] mounts them. *)
Definition api_of (rq : app_request) : option api_request :=
  match auth_api rq with
  | Some a => Some a
  | None => jobs_api rq
  end.

Section App.
Context `{DateParser}.

(** The application, with [production] for [NODE_ENV === 'production']. *)
Definition app (production : bool) (rq : app_request) : M response :=
  st ← uploads_mount (a_path rq) (a_method rq);
  match st with
  | Some r => mret r
  | None =>
      match api_of rq with
      | Some a => serve a
      | None =>
          if production && bool_decide (a_method rq = GET)
          then mret (mkResp 200 (BStatic "frontend/build/index.html"))
          else mret (mkResp 404 (BError "Not Found"))
      end
  end.
End App.

(** ** Lemmas *)

(** A name multer stores is served by [express.static]: it is one
    non-empty segment that does not start with a dot (it starts with the
    digits of [Date.now()]). *)
Lemma storage_filename_static t n : static_ok [storage_filename t n] = true.
Proof.
  unfold static_ok, storage_filename. simpl.
  pose proof (date_now_string_chars t) as Hc.
  destruct (date_now_string t) as [|c s]; [reflexivity|]. simpl in *.
  apply andb_true_iff in Hc as [Hc _].
  destruct c as [[] [] [] [] [] [] [] []]; try discriminate; reflexivity.
Qed.

(** A trailing slash is removed at the end of the path only. *)
Lemma strip_slash_cons2 x y z l : strip_slash (x :: y :: z :: l) = x :: y :: strip_slash (z :: l).
Proof.
  unfold strip_slash. cbn [last removelast].
  destruct (last (z :: l)) as [s|]; [|done]. by destruct s.
Qed.

(** [express.static] either passes the request on or sends a file, and
    writes nothing. *)
Lemma static_uploads_run m segs e w :
  exists o, static_uploads m segs e w = (w, Ok o) /\ forall r, o = Some r -> code r = 200.
Proof.
  destruct m; simpl; try (eexists; split; [reflexivity|done]).
  destruct (static_ok segs); [|eexists; split; [reflexivity|done]].
  run_prog. destruct (files w !! _); eexists; (split; [reflexivity|]); intros r; [intros [= <-]|]; done.
Qed.

(** The first middleware of the stack only looks at [/uploads], and
    behaves as [express.static] there. *)
Lemma uploads_mount_run p m e w :
  exists o, uploads_mount p m e w = (w, Ok o) /\ forall r, o = Some r -> code r = 200.
Proof.
  destruct p as [|s segs]; [by exists None|]. unfold uploads_mount.
  destruct (lit_eq s "uploads"); [apply static_uploads_run|by exists None].
Qed.

(** The auth router answers only under [/api/auth]. *)
Lemma auth_api_jobs rq segs : a_path rq = "api" :: "jobs" :: segs -> auth_api rq = None.
Proof.
  unfold auth_api. intros ->. destruct segs as [|z l]; [by destruct (a_method rq)|].
  rewrite strip_slash_cons2. destruct (a_method rq); try done;
    destruct (strip_slash (z :: l)) as [|c [|]]; done.
Qed.

(** The application changes the state only through the API: the static
    routes and the final 404 only read it. *)
Lemma app_state `{DateParser} prod rq e w w' x :
  app prod rq e w = (w', x) -> w' = w \/ exists a, serve a e w = (w', x).
Proof.
  unfold app, mbind, prog_bind.
  destruct (uploads_mount_run (a_path rq) (a_method rq) e w) as (o & -> & _).
  destruct o as [r|]; [intros [= <- _]; by left|].
  destruct (api_of rq) as [a|]; [intros Hs; right; by exists a|].
  destruct (_ && _); intros [= <- _]; by left.
Qed.

(** ** Theorems *)

(** C30. Uploaded resumes are public: the [/uploads] static route of
    [server.js] answers a [GET] for the name multer stored a resume
    under, with no [x-auth-token] at all, by sending the file, in
    production or not; the ownership check of [downloadResume] is never
    reached (the spec says an attachment is addressable only through its
    record's download operation). *)
Theorem uploaded_resume_public `{DateParser} prod p e w w1 f w2 e' b body cred :
  upload_single "resume" (Some p) e w = (w1, Ok (UpFile f)) ->
  files w2 !! path f = Some b ->
  app prod (mkAppReq GET ["uploads"; filename f] None body cred None) e' w2 =
    (w2, Ok (mkResp 200 (BStatic (path f)))).
Proof.
  intros Hup Hf. destruct (upload_single_file _ _ _ _ _ _ Hup) as [Hn Hp].
  unfold app, uploads_mount. run_prog. cbn [a_path a_method].
  replace (lit_eq "uploads" "uploads") with true by reflexivity. cbn [static_uploads]. rewrite Hn.
  rewrite storage_filename_static. run_prog. cbn [join_path].
  rewrite <- Hn, <- Hp, Hf. reflexivity.
Qed.

Lemma uploaded_resume_public_witness :
  app false (mkAppReq GET ["uploads"; "1000-cv.pdf"] None no_body (mkCred "" "" "") None)
    (env_at 5000 "")
    (mkWorld ∅ ∅ (<["uploads/1000-cv.pdf" := mkBlob 1000 "cv"]> ∅) []) =
  (mkWorld ∅ ∅ (<["uploads/1000-cv.pdf" := mkBlob 1000 "cv"]> ∅) [],
   Ok (mkResp 200 (BStatic "uploads/1000-cv.pdf"))).
Proof.
  exact (uploaded_resume_public false (ex_part "application/pdf" 1000)
           (mkEnv 1000 "" true None "") (mkWorld ∅ ∅ ∅ [])
           _ (mkFile "resume" "cv.pdf" "application/pdf" "uploads/" "1000-cv.pdf"
                "uploads/1000-cv.pdf" 1000)
           (mkWorld ∅ ∅ (<["uploads/1000-cv.pdf" := mkBlob 1000 "cv"]> ∅) [])
           (env_at 5000 "") (mkBlob 1000 "cv") no_body (mkCred "" "" "")
           ltac:(vm_compute; reflexivity) ltac:(vm_compute; reflexivity)).
Defined.

(** C31. Every route of [/api/jobs] is behind [auth] in the whole
    application: a request on a job route whose token does not pass
    [auth] (missing, malformed, forged, expired) is answered 401 and
    changes nothing; neither the static route nor the production
    catch-all answers it first. *)
Theorem app_jobs_require_auth `{DateParser} prod rq e w segs rt :
  a_path rq = "api" :: "jobs" :: segs -> route_of (a_method rq) segs = Some rt ->
  (forall u, auth (a_token rq) (jwt_secret e) (now e) <> AuthOk u) ->
  exists msg, app prod rq e w = (w, Ok (mkResp 401 (BMsg false msg))).
Proof.
  intros Hp Hr Ha. unfold app, uploads_mount. rewrite Hp.
  replace (lit_eq "api" "uploads") with false by reflexivity. run_prog.
  unfold api_of. rewrite (auth_api_jobs _ _ Hp). unfold jobs_api. rewrite Hp.
  replace (lit_eq "api" "api" && lit_eq "jobs" "jobs") with true by reflexivity. rewrite Hr.
  unfold serve, serve_jobs. cbn [r_method r_path r_token].
  rewrite Hr. run_prog.
  destruct (auth _ _ _) as [u|r] eqn:E; [by destruct (Ha u)|].
  destruct (auth_fail_401 _ _ _ _ E) as [msg ->]. by exists msg.
Qed.

Lemma app_jobs_require_auth_witness :
  exists msg,
    app true (mkAppReq DELETE ["api"; "jobs"; ex_id1] (Some (JwtRaw "garbage")) no_body
                (mkCred "" "" "") None) ex_env ex_world =
      (ex_world, Ok (mkResp 401 (BMsg false msg))).
Proof.
  apply (app_jobs_require_auth true _ ex_env ex_world [ex_id1] (RDeleteJob ex_id1));
    [reflexivity|reflexivity|].
  intros u. vm_compute. discriminate.
Defined.

