(* ===== verification/Express.v ===== *)
(** The middleware stack of [backend/server.js] as Express runs it.
    Each [app.use] / [app.get] line installs one layer; Express's router
    keeps them in an array and its [next()] closure takes
    [stack[idx++]], lets the layer answer, pass ([next()]) or fail
    ([next(err)]), and when the array is exhausted the final handler
    answers 404.  [next] below is that loop, bounded by a fuel argument
    as the closure is not structurally recursive; [handle] runs it with
    one step per layer plus one for the final handler.

    Unlike [App.app], which composes the same middleware by hand, this
    model also has [express.json()]: a body sent as JSON that does not
    parse is answered 400 by Express's error handler before any route.
    [app_step] and [app_reachable] are the running application's
    transitions and reachable states; [handle_state] reduces a step to
    one API request ([Server.serve]) or none, so what each request
    preserves holds of every state the application reaches: here, that
    stored resume paths stay in the upload directory ([Commute.v]). *)

From S2P Require Import Prelude JsValue JobModel Store Upload Auth JobController Server Commute App.

Open Scope Z_scope.

(** What [express.json()] finds: no JSON body (none, or another content
    type such as the multipart form of an upload), a JSON body it parsed
    (into [a_body] and [a_cred]), or one it cannot parse, with the
    [stack] of the [SyntaxError] [JSON.parse] throws. *)
Inductive json_body : Type :=
  | JsonNone
  | JsonParsed
  | JsonMalformed (err_stack : string).

Record http_request : Type := mkHttp {
  h_app : app_request;
  h_json : json_body;
}.

(** What a layer does with a request: pass it on ([next()]), answer it,
    or pass an error with its status and stack ([next(err)]). *)
Inductive layer_out : Type :=
  | LNext
  | LAnswer (r : response)
  | LFail (status : Z) (err_stack : string).

Definition layer : Type := http_request -> M layer_out.

(** [cors()]: adds its headers and calls [next()]. *)
Definition cors_layer : layer := fun _ => mret LNext.

(** [express.json({ extended: false })]: a body that does not parse is
    passed on as an error with status 400 ([entity.parse.failed]). *)
Definition json_layer : layer := fun rq =>
  match h_json rq with
  | JsonMalformed s => mret (LFail 400 s)
  | _ => mret LNext
  end.

(** [app.use('/uploads', express.static(path.join(__dirname, 'uploads')))] *)
Definition uploads_layer : layer := fun rq =>
  o ← uploads_mount (a_path (h_app rq)) (a_method (h_app rq));
  mret (match o with Some r => LAnswer r | None => LNext end).

(** A router mounted with [app.use(prefix, router)]: the requests it has
    a route for are answered by that route, the others passed on. *)
Definition router_layer `{DateParser} (table : app_request -> option api_request) : layer := fun rq =>
  match table (h_app rq) with
  | Some a => r ← serve a; mret (LAnswer r)
  | None => mret LNext
  end.

Definition index_html : response := mkResp 200 (BStatic "frontend/build/index.html").

(** [app.use(express.static('frontend/build'))]: of the build directory
    only [index.html] is modelled, served at [/] and [/index.html]. *)
Definition build_static_layer : layer := fun rq =>
  if bool_decide (a_method (h_app rq) = GET) &&
     bool_decide (a_path (h_app rq) ∈ [[]; ["index.html"]])
  then mret (LAnswer index_html) else mret LNext.

(** [app.get('*', (req, res) => res.sendFile(... 'index.html'))] *)
Definition catch_all_layer : layer := fun rq =>
  match a_method (h_app rq) with
  | GET => mret (LAnswer index_html)
  | _ => mret LNext
  end.

(** The stack in the order of [server.js], lines 16 to 32. *)
Definition stack `{DateParser} (production : bool) : list layer :=
  [cors_layer; json_layer; uploads_layer; router_layer auth_api; router_layer jobs_api] ++
  (if production then [build_static_layer; catch_all_layer] else []).

(** Express's final handler ([finalhandler]): 404 when no layer
    answered; for an error, its status and an HTML page showing the
    error's [stack], or only the status text when [NODE_ENV] is
    ['production'].  [server.js] installs no error middleware of its
    own. *)
Definition final_404 : response := mkResp 404 (BError "Not Found").

Definition status_text (c : Z) : string :=
  if Z.eqb c 400 then "Bad Request"
  else if Z.eqb c 404 then "Not Found"
  else "Internal Server Error".

Definition final_error (production : bool) (c : Z) (err_stack : string) : response :=
  mkResp c (BError (if production then status_text c else err_stack)).

(** [next()]: run [stack[idx]], and the following layers while they pass;
    [None] when the fuel runs out first. *)
Fixpoint next (production : bool) (fuel : nat) (idx : nat) (st : list layer) (rq : http_request)
    : M (option response) :=
  match fuel with
  | O => mret None
  | S fuel' =>
      match st !! idx with
      | None => mret (Some final_404)
      | Some l =>
          o ← l rq;
          match o with
          | LNext => next production fuel' (S idx) st rq
          | LAnswer r => mret (Some r)
          | LFail c m => mret (Some (final_error production c m))
          end
      end
  end.

(** The application's request handler: [next()] from the first layer,
    with a step for each layer and one for the final handler. *)
Definition handle `{DateParser} (production : bool) (rq : http_request) : M (option response) :=
  next production (S (length (stack production))) 0 (stack production) rq.

(** A layer that always returns, whatever the request and state. *)
Definition layer_total (l : layer) : Prop :=
  forall rq e w, exists w' o, l rq e w = (w', Ok o).

(** One request served by the running application, with a fixed
    signing key and a well-formed fresh ObjectId, and the states reachable
    from the empty one by such requests. *)
Inductive app_step `{DateParser} (prod : bool) (secret : string) :
    world -> env -> http_request -> response -> world -> Prop :=
  | app_step_handle w e rq r w' :
      jwt_secret e = secret -> oid_valid (new_oid e) = true ->
      handle prod rq e w = (w', Ok (Some r)) -> app_step prod secret w e rq r w'.

Inductive app_reachable `{DateParser} (prod : bool) (secret : string) : world -> Prop :=
  | app_reach_init : app_reachable prod secret empty_world
  | app_reach_step w e rq r w' :
      app_reachable prod secret w -> app_step prod secret w e rq r w' ->
      app_reachable prod secret w'.

(** ** Lemmas *)

(** [next] with fuel for every remaining layer and the final handler
    reaches an answer. *)
Lemma next_answers prod fuel idx st rq e w :
  Forall layer_total st -> (length st - idx < fuel)%nat ->
  exists w' r, next prod fuel idx st rq e w = (w', Ok (Some r)).
Proof.
  intros Hst. revert idx w. induction fuel as [|fuel IH]; intros idx w Hlen; cbn [next].
  - lia.
  - destruct (st !! idx) as [l|] eqn:Hl; [|by eexists _, _].
    destruct (proj1 (Forall_lookup _ _) Hst _ _ Hl rq e w) as (w1 & o & Ho).
    unfold mbind, prog_bind. rewrite Ho.
    assert (idx < length st)%nat by (apply lookup_lt_is_Some; eauto).
    destruct o; [apply IH; lia|by eexists _, _|by eexists _, _].
Qed.

Section Layers.
Context `{DateParser}.

Lemma serve_total a e w : exists w' r, serve a e w = (w', Ok r).
Proof.
  destruct (serve_answers a e w) as (r & Hr & _).
  destruct (serve a e w) as [w' o]. cbn in Hr. subst. eauto.
Qed.

Lemma stack_total prod : Forall layer_total (stack prod).
Proof.
  assert (Hr : forall t, layer_total (router_layer t)).
  { intros t rq e w. unfold router_layer. destruct (t _) as [a|]; [|by eexists _, _].
    destruct (serve_total a e w) as (w' & r & Hs). unfold mbind, prog_bind. rewrite Hs.
    by eexists _, _. }
  assert (Hu : layer_total uploads_layer).
  { intros rq e w. unfold uploads_layer, mbind, prog_bind.
    destruct (uploads_mount_run (a_path (h_app rq)) (a_method (h_app rq)) e w) as (o & -> & _).
    by eexists _, _. }
  unfold stack. apply Forall_app. split.
  - repeat constructor; try apply Hr; try exact Hu;
      intros rq e w; unfold cors_layer, json_layer; repeat case_match; by eexists _, _.
  - destruct prod; repeat constructor;
      intros rq e w; unfold build_static_layer, catch_all_layer;
      repeat case_match; by eexists _, _.
Qed.
(** The stack computed: a body that does not parse is answered by the
    final handler; any other request as [App.app] answers it. *)
Lemma handle_layers prod rq e w :
  handle prod rq e w =
  match h_json rq with
  | JsonMalformed s => (w, Ok (Some (final_error prod 400 s)))
  | _ => (r ← app prod (h_app rq); mret (Some r)) e w
  end.
Proof.
  unfold handle, app, stack.
  destruct prod; cbn [length Datatypes.app next lookup list_lookup andb].
  all: unfold cors_layer, json_layer, uploads_layer, router_layer, api_of.
  all: run_prog.
  all: destruct (h_json rq) as [| |s]; [| |reflexivity..].
  all: destruct (uploads_mount_run (a_path (h_app rq)) (a_method (h_app rq)) e w) as (o & -> & _).
  all: destruct o as [r|]; [reflexivity|]; cbn.
  all: destruct (auth_api (h_app rq)) as [a|];
         [destruct (serve a e w) as [w1 [r|x]]; reflexivity|].
  all: destruct (jobs_api (h_app rq)) as [a|];
         [destruct (serve a e w) as [w1 [r|x]]; reflexivity|].
  all: unfold build_static_layer, catch_all_layer.
  all: destruct (a_method (h_app rq)); cbn; try reflexivity.
  all: rewrite ?bool_decide_true by done; cbn.
  all: by destruct (bool_decide (_ ∈ _)).
Qed.

(** The application changes the state only as one API request does. *)
Lemma handle_state prod rq e w w' x :
  handle prod rq e w = (w', x) -> w' = w \/ exists a r, serve a e w = (w', Ok r).
Proof.
  rewrite handle_layers. destruct (h_json rq) as [| |s]; [| |intros [= <- _]; by left].
  all: unfold mbind, prog_bind; destruct (app prod (h_app rq) e w) as [w1 o] eqn:Ha.
  all: apply app_state in Ha as [->|[a Ha]]; [destruct o; intros [= <- _]; by left|].
  all: destruct (serve_total a e w) as (w2 & r & Hs); rewrite Ha in Hs; injection Hs as -> ->.
  all: intros [= <- _]; right; by exists a, r.
Qed.

(** A request that passes the stack yields an [app_step]. *)
Lemma app_step_of_handle prod secret rq e w r :
  jwt_secret e = secret -> oid_valid (new_oid e) = true ->
  snd (handle prod rq e w) = Ok (Some r) ->
  app_step prod secret w e rq r (fst (handle prod rq e w)).
Proof.
  intros Hk Ho Hr. apply app_step_handle; [done|done|].
  destruct (handle prod rq e w); cbn in *. by subst.
Qed.
End Layers.

(** ** Theorems *)

(** C37. The request loop of [server.js] terminates with an answer: for
    every request, in production or not, [next()] started at the first
    layer with one step per layer and one for the final handler reaches
    a response (a layer's answer, an error status or the final 404); it
    never runs out of steps and no layer leaves the request hanging. *)
Theorem handle_terminates `{DateParser} prod rq e w :
  exists w' r, handle prod rq e w = (w', Ok (Some r)).
Proof. apply next_answers; [apply stack_total|lia]. Qed.

(** C39. A JSON body that does not parse is answered by Express's final
    handler, before any route and whatever the path: status 400, no
    [{success: false, msg}] envelope but Express's error page, which
    outside production shows the [SyntaxError]'s stack trace, and no
    change of state (the spec requires the envelope on every failure and
    that stack traces never reach the client). *)
Theorem malformed_json_error `{DateParser} prod rq s e w :
  h_json rq = JsonMalformed s ->
  handle prod rq e w = (w, Ok (Some (mkResp 400 (BError (if prod then "Bad Request" else s))))).
Proof.
  intros Hj. rewrite handle_layers, Hj. by destruct prod.
Qed.

Lemma malformed_json_error_witness :
  let rq := mkHttp (mkAppReq POST ["api"; "auth"; "login"] None no_body (mkCred "" "a@x.com" "pw") None)
              (JsonMalformed "SyntaxError: Unexpected token } in JSON at position 9") in
  handle false rq ex_env ex_world =
  (ex_world, Ok (Some (mkResp 400 (BError "SyntaxError: Unexpected token } in JSON at position 9")))).
Proof.
  intros rq. apply (malformed_json_error false rq _ ex_env ex_world). reflexivity.
Defined.

(** C21. Every resume path the running application stores points into
    the upload directory: in every reachable state, whatever the requests
    (any method, path, token, body, file name, in production or not),
    each record's [resume] is [uploads/] followed by a single segment.
    Only [req.file.path] reaches the field ([addJob] and [updateJob]
    never read a path from the body), multer builds it from [Date.now()]
    and busboy's basename of the client's file name, and the static
    routes and error handlers do not write; so the paths [downloadResume]
    and [deleteJob] pass to [fs] never leave [uploads/]. *)
Theorem app_reachable_resumes `{DateParser} prod secret w :
  app_reachable prod secret w -> resumes_in_uploads (jobs w).
Proof.
  induction 1 as [|w e rq r w' _ IH Hst].
  - apply map_Forall_empty.
  - inversion Hst as [w0 e0 rq0 r0 w1 Hsk Hoid Hh]; subst.
    destruct (handle_state _ _ _ _ _ _ Hh) as [->|(a & r1 & Hs)]; [exact IH|].
    replace w' with (fst (serve a e w)) by (by rewrite Hs).
    rewrite serve_jobs_edit. by apply serve_edit_in_uploads.
Qed.

Lemma app_reachable_resumes_witness :
  let rq := mkHttp (mkAppReq POST ["api"; "jobs"] (Some ex_tokA) (ex_body (Some "applied") None)
                      (mkCred "" "" "") (Some (ex_part "application/pdf" 1000))) JsonNone in
  let w1 := fst (handle true rq ex_env empty_world) in
  app_reachable true ex_secret w1 /\ resumes_in_uploads (jobs w1).
Proof.
  intros rq w1.
  assert (Hr : app_reachable true ex_secret w1).
  { destruct (snd (handle true rq ex_env empty_world)) as [[r|]|x] eqn:E;
      [|vm_compute in E; discriminate..].
    eapply app_reach_step; [apply app_reach_init|].
    apply app_step_of_handle; [reflexivity|vm_compute; reflexivity|exact E]. }
  split; [exact Hr|]. exact (app_reachable_resumes _ _ _ Hr).
Defined.
