(* ===== verification/Accounts.v ===== *)
(** The user accounts as the running application keeps them.  Only
    [exports.register] writes the [users] collection: it answers 400 when
    [User.findOne({ email })] finds an account, and otherwise
    [user.save()] inserts the new document under a fresh ObjectId (the
    unique index on [email] and the [_id] index rejecting a clash).  The
    job handlers, multer, the static routes and Express's error handler
    never touch it.  So an account, once created, is never changed or
    removed by a request, and no two accounts share an address. *)

From S2P Require Import Prelude JsValue JobModel Store Upload Auth JobController Server App Express.

Open Scope Z_scope.


(** ** Lemmas *)

Section Frame.
Context `{DateParser}.





End Frame.



(** ** Theorems *)




