(* ===== verification/Boot.v ===== *)
(** What runs once, before any request: the bootstrap of
    [backend/server.js] ([dotenv.config()], the [NODE_ENV] test, the
    [PORT] choice and [app.listen]) and the module-load code of
    [middleware/upload.js], which creates [path.join(__dirname, "..",
    "uploads")] with [fs.mkdirSync(..., { recursive: true })] when it does
    not exist.

    Paths are absolute and kept as lists of segments; [path_join] is
    Node's [path.join] (the arguments split at ['/'] and normalised:
    empty and ['.'] segments dropped, ['..'] removing the segment before
    it, and nothing above the root).  The directories of the file system
    are a [gset] of paths.  [connectDB()] is not modelled ([config/db] is
    not in the sources). *)

From S2P Require Import Prelude JsValue JobModel Store Upload Auth JobController Server App Express.

Open Scope Z_scope.
Open Scope list_scope.

(** ** Paths *)

(** ['a/b/'.split('/')] *)
Fixpoint split_slash (s : string) : list string :=
  match s with
  | EmptyString => [""]
  | String c s' =>
      let segs := split_slash s' in
      if is_slash c then "" :: segs
      else match segs with
           | x :: r => String c x :: r
           | [] => [String c ""]
           end
  end.

(** One segment of [normalizeString], on the segments kept so far in
    reverse order. *)
Definition norm_step (racc : list string) (s : string) : list string :=
  if String.eqb s "" || String.eqb s "." then racc
  else if String.eqb s ".." then tail racc
  else s :: racc.

Definition normalize (segs : list string) : list string := rev (foldl norm_step [] segs).

(** [path.join(base, ...args)] for an absolute [base]. *)
Definition path_join (base : list string) (args : list string) : list string :=
  normalize (base ++ concat (map split_slash args)).

(** A segment that [normalize] keeps as it is. *)
Definition seg_plain (s : string) : bool :=
  negb (String.eqb s "" || String.eqb s "." || String.eqb s "..").

(** ** The upload directory *)

(** [const uploadsDir = path.join(__dirname, "..", "uploads")] *)
Definition uploadsDir (dirname : list string) : list string := path_join dirname [".."; "uploads"].

(** [fs.mkdirSync(d, { recursive: true })]: [d] and all its ancestors. *)
Definition mkdir_p (d : list string) (ds : gset (list string)) : gset (list string) :=
  ds ∪ list_to_set ((fun n => take n d) <$> seq 1 (length d)).

(** Lines 5 to 8 of [upload.js], run when the module is loaded. *)
Definition upload_init (dirname : list string) (ds : gset (list string)) : gset (list string) :=
  let d := uploadsDir dirname in
  if bool_decide (d ∈ ds) then ds else mkdir_p d ds.

(** multer's [destination: (req, file, cb) => cb(null, 'uploads/')]: a
    relative path, resolved against the working directory.  With a
    function as destination multer does not create the directory. *)
Definition multer_dir (cwd : list string) : list string := path_join cwd ["uploads/"].

(** [path.join(__dirname, 'uploads')] served by [server.js] on [/uploads]. *)
Definition static_dir (server_dirname : list string) : list string := path_join server_dirname ["uploads"].

(** Where the modules run, under the repository's root: [server.js] in
    [job-application-tracker/backend], and [upload.js] where
    [routes/jobRoutes.js] loads it from ([require('../middleware/upload')]
    in [backend/routes]), that is [backend/middleware]. *)
Definition upload_js_dir (root : list string) : list string :=
  root ++ ["job-application-tracker"; "backend"; "middleware"].
Definition server_js_dir (root : list string) : list string :=
  root ++ ["job-application-tracker"; "backend"].

(** ** Bootstrap *)

Definition process_env : Type := gmap string string.

(** The variables of a [.env] file; a later line overrides an earlier one. *)
Definition dotenv_parse (file : list (string * string)) : process_env :=
  foldl (fun m kv => <[kv.1 := kv.2]> m) ∅ file.

(** [dotenv.config()]: the file's variables, except those already set
    in [process.env], which it does not override. *)
Definition dotenv_config (file : list (string * string)) (penv : process_env) : process_env :=
  penv ∪ dotenv_parse file.

(** [process.env.NODE_ENV === 'production'] *)
Definition node_env_production (penv : process_env) : bool :=
  bool_decide (penv !! "NODE_ENV" = Some "production").

(** [process.env.PORT || 5000]: a string when [PORT] is set and not
    empty, the number 5000 otherwise. *)
Inductive port : Type := PortStr (s : string) | PortNum (n : Z).

Definition port_of (penv : process_env) : port :=
  match penv !! "PORT" with
  | Some p => if String.eqb p "" then PortNum 5000 else PortStr p
  | None => PortNum 5000
  end.

Definition port_string (p : port) : string :=
  match p with PortStr s => s | PortNum _ => "5000" end.

(** The running server: the production flag the stack was built with,
    the port [app.listen] binds, and what its callback logs. *)
Record server : Type := mkServer {
  srv_production : bool;
  srv_port : port;
  srv_log : list string;
}.

(** Lines 8, 26, 34 and 36 of [server.js], from the [.env] file and the
    process environment. *)
Definition boot (file : list (string * string)) (penv : process_env) : server :=
  let penv' := dotenv_config file penv in
  let p := port_of penv' in
  mkServer (node_env_production penv') p ["Server started on port " +:+ port_string p].

(** The request handler of the booted server. *)
Definition server_handler `{DateParser} (s : server) : http_request -> M (option response) :=
  handle (srv_production s).

(** ** Lemmas *)

Lemma seg_plain_step racc s : seg_plain s = true -> norm_step racc s = s :: racc.
Proof.
  unfold seg_plain, norm_step. intros Hs.
  destruct (String.eqb s ""), (String.eqb s "."), (String.eqb s ".."); done.
Qed.

(** Plain segments pass through [normalize] unchanged. *)
Lemma foldl_norm_plain r xs racc :
  Forall (fun s => seg_plain s = true) r ->
  foldl norm_step racc (r ++ xs) = foldl norm_step (rev r ++ racc) xs.
Proof.
  intros Hr. revert racc. induction Hr as [|s r Hs Hr IH]; intros racc; [done|].
  simpl. rewrite seg_plain_step by done. rewrite IH.
  cbn [rev]. by rewrite <- app_assoc.
Qed.

Lemma uploadsDir_layout root :
  Forall (fun s => seg_plain s = true) root ->
  uploadsDir (upload_js_dir root) = root ++ ["job-application-tracker"; "backend"; "uploads"].
Proof.
  intros Hr. unfold uploadsDir, path_join, upload_js_dir, normalize. cbn [map concat split_slash].
  rewrite <- app_assoc, foldl_norm_plain by done. cbn.
  rewrite app_nil_r, <- !app_assoc, rev_involutive. done.
Qed.

Lemma static_dir_layout root :
  Forall (fun s => seg_plain s = true) root ->
  static_dir (server_js_dir root) = root ++ ["job-application-tracker"; "backend"; "uploads"].
Proof.
  intros Hr. unfold static_dir, path_join, server_js_dir, normalize. cbn [map concat split_slash].
  rewrite <- app_assoc, foldl_norm_plain by done. cbn.
  rewrite app_nil_r, <- !app_assoc, rev_involutive. done.
Qed.

(** multer's destination is [uploads] under the working directory. *)
Lemma multer_dir_plain cwd :
  Forall (fun s => seg_plain s = true) cwd -> multer_dir cwd = cwd ++ ["uploads"].
Proof.
  intros Hc. unfold multer_dir, path_join, normalize.
  change (concat (map split_slash ["uploads/"])) with ["uploads"; ""].
  rewrite foldl_norm_plain by exact Hc. cbn. rewrite app_nil_r, rev_involutive. done.
Qed.

Lemma mkdir_p_spec x d ds :
  x ∈ mkdir_p d ds <-> x ∈ ds \/ exists n, (1 <= n <= length d)%nat /\ x = take n d.
Proof.
  unfold mkdir_p. rewrite elem_of_union, elem_of_list_to_set, list_elem_of_fmap.
  setoid_rewrite elem_of_seq. split.
  - intros [H|(n & -> & Hn)]; [by left|right; exists n; split; [lia|done]].
  - intros [H|(n & Hn & ->)]; [by left|right; exists n; split; [done|lia]].
Qed.

(** The module-load code leaves [uploadsDir] existing, and only adds
    directories. *)
Lemma upload_init_creates dirname ds :
  uploadsDir dirname ∈ upload_init dirname ds /\ ds ⊆ upload_init dirname ds.
Proof.
  unfold upload_init. case_bool_decide as Hd; [done|]. split.
  - apply mkdir_p_spec. right. exists (length (uploadsDir dirname)). rewrite firstn_all.
    split; [|done]. split; [|lia].
    unfold uploadsDir, path_join, normalize. rewrite length_rev. cbn [map concat split_slash].
    rewrite (app_assoc dirname [".."]), foldl_app. cbn. lia.
  - unfold mkdir_p. set_solver.
Qed.

(** [dotenv.config()] keeps what the process environment already sets,
    and takes the rest from the file. *)
Lemma dotenv_config_lookup file penv k :
  dotenv_config file penv !! k =
  match penv !! k with Some v => Some v | None => dotenv_parse file !! k end.
Proof.
  unfold dotenv_config. destruct (penv !! k) as [v|] eqn:Hk.
  - by apply lookup_union_Some_l.
  - by apply lookup_union_r.
Qed.

(** Without a non-empty [PORT] anywhere, the server listens on 5000. *)
Lemma boot_port_default file penv :
  (forall p, dotenv_config file penv !! "PORT" = Some p -> p = "") ->
  srv_port (boot file penv) = PortNum 5000.
Proof.
  intros Hp. unfold boot, port_of; cbn.
  destruct (dotenv_config file penv !! "PORT") as [p|] eqn:E; [|done].
  by rewrite (Hp p eq_refl).
Qed.

(** ** Theorems *)

(** C26. Uploads work only when the server runs from [backend/]: when
    [upload.js] is loaded (from [backend/middleware], as
    [routes/jobRoutes.js] requires it) its [mkdirSync] makes
    [<root>/job-application-tracker/backend/uploads] exist, the directory
    [server.js] serves on [/uploads]; multer's relative destination
    ['uploads/'] is that directory exactly when the working directory is
    [backend/].  Started from anywhere else (e.g. [node backend/server.js]
    in [job-application-tracker/]), multer writes elsewhere: into a
    directory the code does not create and [server.js] does not serve. *)
Theorem upload_dir_cwd root ds cwd :
  Forall (fun s => seg_plain s = true) root -> Forall (fun s => seg_plain s = true) cwd ->
  static_dir (server_js_dir root) ∈ upload_init (upload_js_dir root) ds /\
  (multer_dir cwd = static_dir (server_js_dir root) <-> cwd = server_js_dir root).
Proof.
  intros Hr Hc. split.
  - rewrite static_dir_layout, <- uploadsDir_layout by done.
    apply (proj1 (upload_init_creates _ _)).
  - rewrite multer_dir_plain, static_dir_layout by done. unfold server_js_dir.
    change (root ++ ["job-application-tracker"; "backend"; "uploads"])
      with (root ++ ["job-application-tracker"; "backend"] ++ ["uploads"]).
    rewrite app_assoc.
    split; [apply app_inj_tail_iff|intros ->; reflexivity].
Qed.

Lemma upload_dir_cwd_witness :
  static_dir (server_js_dir ["srv"]) ∈ upload_init (upload_js_dir ["srv"]) ∅ /\
  (multer_dir ["srv"; "job-application-tracker"] = static_dir (server_js_dir ["srv"]) <->
   ["srv"; "job-application-tracker"] = server_js_dir ["srv"]).
Proof.
  apply (upload_dir_cwd ["srv"] ∅ ["srv"; "job-application-tracker"]); repeat constructor.
Defined.
